(** * Android launcher-icon generator: a shallow embedding of
      [generate-android-icons.py] and the properties of its behaviour.

    The script is a straight-line program over three pieces of mutable
    state: Pillow image objects, the file system, and standard output.
    It is embedded as a state-and-exception monad over a store holding
    exactly these three (plus the clock and umask that file creation reads).

    Pillow's numeric kernels (the ellipse rasteriser, the resampling
    filters, mode conversion, the decoders and encoders) are not part of the
    script; they are parameters of the development (section [Script]).
    [Image.open] reads a file's header only: Pillow defers the pixel load to
    the first operation that needs pixels, and a file whose header parses but
    whose pixel data does not decode fails there, not at [Image.open]. *)

From Stdlib Require Import ZArith String List Ascii Strings.Byte.
From stdpp Require Import base gmap strings list fin_maps.

Open Scope string_scope.
Open Scope list_scope.
Open Scope Z_scope.

(** ** Exceptions and results *)

Inductive exn :=
| FileNotFoundError
| FileExistsError
| NotADirectoryError
| IsADirectoryError
| SameFileError
| UnidentifiedImageError
| OSError
| ValueError
| SystemExit (code : Z).

(** [except Exception] catches everything but [SystemExit]. *)
Definition is_Exception (e : exn) : bool :=
  match e with SystemExit _ => false | _ => true end.

(** [except OSError]; the constructor [OSError] stands for an [OSError]
    of no more specific class, which is what Pillow raises for pixel data
    that does not decode ("image file is truncated"). *)
Definition is_OSError (e : exn) : bool :=
  match e with
  | FileNotFoundError | FileExistsError | NotADirectoryError
  | IsADirectoryError | SameFileError | UnidentifiedImageError | OSError => true
  | ValueError | SystemExit _ => false
  end.

Inductive result (A : Type) :=
| Ok (a : A)
| Raise (e : exn).
Arguments Ok {A} a.
Arguments Raise {A} e.

(** ** Images *)

(** A Pillow image: its mode string, its [(width, height)] and its pixel
    data, band by band ([im_band im k x y] is band [k] of pixel [(x, y)]). *)
Record image := mkImage {
  im_mode : string;
  im_size : Z * Z;
  im_band : nat → Z → Z → Z
}.

#[export] Instance image_inhabited : Inhabited image :=
  populate (mkImage "" (0, 0) (λ _ _ _, 0)).

(** A colour or ink: an int for single-band modes, a tuple otherwise. *)
Definition color := list Z.

Definition color_band (c : color) (k : nat) : Z := nth k c 0.

(** Bounding boxes [(x0, y0, x1, y1)]. *)
Definition Box := (Z * Z * Z * Z)%type.

(** Tuple concatenation of two pairs, as in [(0, 0) + size]. *)
Definition tuple_add (p q : Z * Z) : Box := (p.1, p.2, q.1, q.2).

Definition in_bounds (sz : Z * Z) (x y : Z) : bool :=
  (0 <=? x) && (x <? sz.1) && (0 <=? y) && (y <? sz.2).

(** Index of the alpha band of a mode, for the modes that carry one. *)
Definition alpha_band (m : string) : option nat :=
  if decide (m = "RGBA") then Some 3%nat
  else if decide (m = "LA") then Some 1%nat
  else if decide (m = "PA") then Some 1%nat
  else None.

Definition has_alpha (m : string) : bool := bool_decide (is_Some (alpha_band m)).

(** Number of bands per mode (Pillow's mode table). *)
Definition nbands (m : string) : nat :=
  if decide (m = "RGBA") then 4
  else if decide (m = "CMYK") then 4
  else if decide (m = "RGBX") then 4
  else if decide (m = "RGB") then 3
  else if decide (m = "YCbCr") then 3
  else if decide (m = "LAB") then 3
  else if decide (m = "HSV") then 3
  else if decide (m = "LA") then 2
  else if decide (m = "PA") then 2
  else 1.

Inductive Resampling := NEAREST | BOX | BILINEAR | HAMMING | BICUBIC | LANCZOS.

(** [Image.new(mode, size, color)]: every pixel holds [color]. *)
Definition new_image (m : string) (sz : Z * Z) (c : color) : image :=
  mkImage m sz (λ k _ _, color_band c k).

(** [putalpha]'s core step, [putband(alpha, band)]. *)
Definition putband (dst alpha : image) (b : nat) : image :=
  mkImage (im_mode dst) (im_size dst)
    (λ k x y, if decide (k = b) then im_band alpha 0 x y else im_band dst k x y).

(** ** Paths and the file system *)

Abbreviation path := (list string).

(** Components of a relative path written with forward slashes. *)
Fixpoint parts_from (s acc : string) : list string :=
  match s with
  | EmptyString => if decide (acc = "") then [] else [acc]
  | String c s' =>
      if decide (c = "/"%char)
      then (if decide (acc = "") then parts_from s' "" else acc :: parts_from s' "")
      else parts_from s' (acc +:+ String c "")
  end.

Definition parts (s : string) : list string := parts_from s "".

(** [p / s] *)
Definition joinpath (p : path) (s : string) : path := p ++ parts s.
Infix "//" := joinpath (at level 40, left associativity).

(** [Path.parent]; the root is its own parent. *)
Definition parent (p : path) : path := removelast p.

(** [Path(s).name] *)
Definition name (s : string) : string := List.last (parts s) "".

(** [os.path.basename] of a path. *)
Definition basename (p : path) : string := List.last p "".

(** What [copystat] carries over. *)
Record stat := mkStat { st_mode : Z; st_mtime : Z }.

Inductive node :=
| Dir
| File (data : list byte) (meta : stat).

(** The root directory always exists. *)
Definition node_at (t : gmap path node) (p : path) : option node :=
  match p with [] => Some Dir | _ => t !! p end.

Definition is_dir (t : gmap path node) (p : path) : bool :=
  match node_at t p with Some Dir => true | _ => false end.

Definition path_exists (t : gmap path node) (p : path) : bool :=
  bool_decide (is_Some (node_at t p)).

(** Content of a node with its metadata erased. *)
Definition node_data (n : node) : option (list byte) :=
  match n with Dir => None | File d _ => Some d end.

(** ** Standard output *)

(** One value per call of [print]: [Text] for the fixed messages, one
    constructor for each formatted message ([LoadingSource] for "Loading
    source icon: ...", [CouldNotLoad] for "ERROR: Could not load ...",
    [SourceSize] for "Source icon size: ...", [Created] for "Created
    <path> (<w>x<h>)", [Copied] and [SourceNotFound] for the copier's two
    lines, [IconNotFound] and [ResNotFound] for [main]'s two errors). *)
Inductive line :=
| Text (s : string)
| LoadingSource (p : path)
| CouldNotLoad (p : path) (e : exn)
| SourceSize (sz : Z * Z)
| Created (p : path) (w h : Z)
| Copied (p : path)
| SourceNotFound (p : path)
| IconNotFound (p : path)
| ResNotFound (p : path).

(** ** The store *)

Definition ref := nat.

(** What a Python variable bound to an image names.  [Image.open] gives an
    image file object with the mode and size of the file's header; its pixel
    data is read by the first operation that needs it.  For a file whose
    pixel data decodes that load cannot be observed, and the object stands
    for the decoded image in the store from the start ([Mem]).  For a file
    whose pixel data does not decode the object has a mode and a size and no
    pixels: every operation that needs pixels raises ([Undecodable]). *)
Inductive img :=
| Mem (r : ref)
| Undecodable (m : string) (sz : Z * Z).

Coercion Mem : ref >-> img.

Record State := mkState {
  heap : list image;
  fs : gmap path node;
  stdout : list line;
  clock : Z;
  umask : Z
}.

Definition set_heap (h : list image) (s : State) : State :=
  mkState h (fs s) (stdout s) (clock s) (umask s).
Definition set_fs (t : gmap path node) (s : State) : State :=
  mkState (heap s) t (stdout s) (clock s) (umask s).
Definition set_stdout (o : list line) (s : State) : State :=
  mkState (heap s) (fs s) o (clock s) (umask s).

(** ** The monad *)

Definition M (A : Type) : Type := State → result A * State.

Definition ret {A} (a : A) : M A := λ s, (Ok a, s).
Definition bind {A B} (m : M A) (k : A → M B) : M B :=
  λ s, match m s with
       | (Ok a, s') => k a s'
       | (Raise e, s') => (Raise e, s')
       end.
Definition raise {A} (e : exn) : M A := λ s, (Raise e, s).

(** [try: m except <catches> as e: handler e] *)
Definition try_except {A} (m : M A) (catches : exn → bool) (handler : exn → M A) : M A :=
  λ s, match m s with
       | (Ok a, s') => (Ok a, s')
       | (Raise e, s') => if catches e then handler e s' else (Raise e, s')
       end.

#[export] Instance M_ret : MRet M := @ret.
#[export] Instance M_bind : MBind M := λ A B k m, bind m k.

(** [for x in l: body x] *)
Fixpoint foreach {A} (l : list A) (body : A → M unit) : M unit :=
  match l with
  | [] => ret tt
  | x :: l' => body x ;; foreach l' body
  end.

Definition print (l : line) : M unit :=
  λ s, (Ok tt, set_stdout (stdout s ++ [l]) s).

Definition sys_exit {A} (code : Z) : M A := raise (SystemExit code).

(** Exit status of the process for an outcome of [main]: an uncaught
    exception other than [SystemExit] ends the interpreter with status 1. *)
Definition exit_status {A} (r : result A) : Z :=
  match r with
  | Ok _ => 0
  | Raise (SystemExit c) => c
  | Raise _ => 1
  end.

(** ** Image objects in the store *)

Definition alloc (im : image) : M ref :=
  λ s, (Ok (length (heap s)), set_heap (heap s ++ [im]) s).
Definition deref (r : ref) : M image :=
  λ s, (Ok (heap s !!! r), s).
Definition assign (r : ref) (im : image) : M unit :=
  λ s, (Ok tt, set_heap (<[r := im]> (heap s)) s).

(** ** File-system primitives *)

(** [os.mkdir(p)] *)
Definition os_mkdir (p : path) : M unit :=
  λ s, match node_at (fs s) p with
       | Some _ => (Raise FileExistsError, s)
       | None =>
           match node_at (fs s) (parent p) with
           | None => (Raise FileNotFoundError, s)
           | Some (File _ _) => (Raise NotADirectoryError, s)
           | Some Dir => (Ok tt, set_fs (<[p := Dir]> (fs s)) s)
           end
       end.

(** [Path.mkdir(parents=False, exist_ok=exist_ok)] *)
Definition mkdir_single (p : path) (exist_ok : bool) : M unit :=
  try_except (os_mkdir p) is_OSError
    (λ e, match e with
          | FileNotFoundError => raise e
          | _ => λ s, if exist_ok && is_dir (fs s) p then (Ok tt, s) else (Raise e, s)
          end).

(** [Path.mkdir(parents, exist_ok)], by recursion on the reversed path:
    a missing parent is created first (with [parents=True, exist_ok=True])
    and the directory itself is then made without [parents]. *)
Fixpoint mkdir_rev (rp : list string) (parents exist_ok : bool) : M unit :=
  let p := rev rp in
  try_except (os_mkdir p) is_OSError
    (λ e, match e with
          | FileNotFoundError =>
              match rp with
              | [] => raise e
              | _ :: rparent =>
                  if parents
                  then mkdir_rev rparent true true ;; mkdir_single p exist_ok
                  else raise e
              end
          | _ => λ s, if exist_ok && is_dir (fs s) p then (Ok tt, s) else (Raise e, s)
          end).

Definition Path_mkdir (p : path) (parents exist_ok : bool) : M unit :=
  mkdir_rev (rev p) parents exist_ok.

Definition Path_exists (p : path) : M bool :=
  λ s, (Ok (path_exists (fs s) p), s).

(** Permission bits of a newly created file: [0o666 & ~umask]. *)
Definition create_mode (s : State) : Z := Z.ldiff 438 (umask s).

(** [open(p, 'wb')] followed by writing [data] and closing: truncates an
    existing file (keeping its permission bits) or creates a new one. *)
Definition write_file (p : path) (data : list byte) : M unit :=
  λ s, match node_at (fs s) p with
       | Some Dir => (Raise IsADirectoryError, s)
       | Some (File _ st) =>
           (Ok tt, set_fs (<[p := File data (mkStat (st_mode st) (clock s))]> (fs s)) s)
       | None =>
           match node_at (fs s) (parent p) with
           | None => (Raise FileNotFoundError, s)
           | Some (File _ _) => (Raise NotADirectoryError, s)
           | Some Dir =>
               (Ok tt, set_fs (<[p := File data (mkStat (create_mode s) (clock s))]> (fs s)) s)
           end
       end.

(** [open(p, 'rb').read()] together with [os.stat(p)]. *)
Definition read_file (p : path) : M (list byte * stat) :=
  λ s, match node_at (fs s) p with
       | None => (Raise FileNotFoundError, s)
       | Some Dir => (Raise IsADirectoryError, s)
       | Some (File d st) => (Ok (d, st), s)
       end.

(** [shutil.copy2(src, dst)]: a directory destination receives the file
    under the source's base name; content is copied, then [copystat]
    makes the destination's metadata that of the source. *)
Definition shutil_copy2 (src dst : path) : M unit :=
  is_d ← (λ s, (Ok (is_dir (fs s) dst), s));
  let dst := if (is_d : bool) then dst ++ [basename src] else dst in
  same ← (λ s, (Ok (bool_decide (src = dst) && path_exists (fs s) src), s));
  if (same : bool) then raise SameFileError else
  ('(d, st) ← read_file src;
   write_file dst d ;;
   (λ s, (Ok tt, set_fs (<[dst := File d st]> (fs s)) s)) : M unit).

(** ** Reference kernels

    Executable instances of the Pillow kernels that the script is
    parametrised by, used to run the development on concrete inputs: the
    ellipse rasteriser as Pillow has it, and simple stand-ins for resampling,
    conversion and the codecs. *)

(** *** The ellipse rasteriser

    What [ImageDraw.ellipse(xy, fill=...)] fills, after Pillow's
    [ellipseNew] (Pillow 8.2 and later; [src/libImaging/Draw.c]).  With
    [a = x1 - x0] and [b = y1 - y0], one quadrant of the outline is traced in
    doubled coordinates relative to the centre of the box, a step at a time to
    the neighbour that deviates least from the ellipse equation; each row
    reached gives horizontal spans, mirrored into the other quadrants.  The
    box includes its second corner: the spans reach from [x0] to [x1] and the
    rows from [y0] to [y1].  Pillow computes in 32 and 64 bit integers; the
    model does not overflow. *)

(** [quarter_state]: the current point [(cx, cy)] and the end [(ex, ey)]. *)
Record quarter := mkQuarter {
  q_a : Z; q_b : Z;
  q_cx : Z; q_cy : Z;
  q_ex : Z; q_ey : Z;
  q_finished : bool
}.

Definition quarter_init (a b : Z) : quarter :=
  if (a <? 0) || (b <? 0) then mkQuarter 0 0 0 0 0 0 true
  else mkQuarter a b a (b mod 2) (a mod 2) b false.

(** Deviation of a point from the ellipse. *)
Definition quarter_delta (s : quarter) (x y : Z) : Z :=
  Z.abs (q_a s * q_a s * y * y + q_b s * q_b s * x * x
         - q_a s * q_a s * (q_b s * q_b s)).

(** [quarter_next]: the current point, or [None] when the quadrant is done;
    the state moves up, diagonally or left, whichever deviates least. *)
Definition quarter_next (s : quarter) : option (Z * Z) * quarter :=
  if q_finished s then (None, s)
  else
    let here := (q_cx s, q_cy s) in
    if (q_cx s =? q_ex s) && (q_cy s =? q_ey s)
    then (Some here, mkQuarter (q_a s) (q_b s) (q_cx s) (q_cy s) (q_ex s) (q_ey s) true)
    else
      let n0 := (q_cx s, q_cy s + 2, quarter_delta s (q_cx s) (q_cy s + 2)) in
      let n2 :=
        if 1 <? q_cx s then
          let d1 := quarter_delta s (q_cx s - 2) (q_cy s + 2) in
          let n1 := if d1 <? n0.2 then (q_cx s - 2, q_cy s + 2, d1) else n0 in
          let d2 := quarter_delta s (q_cx s - 2) (q_cy s) in
          if d2 <? n1.2 then (q_cx s - 2, q_cy s, d2) else n1
        else n0 in
      (Some here,
       mkQuarter (q_a s) (q_b s) n2.1.1 n2.1.2 (q_ex s) (q_ey s) false).

(** [ellipse_state]: the outer and the inner outline (the inner one is
    empty for a filled ellipse of a box wider than a point) and the first
    point of the next row. *)
Record ellipse_state := mkEllipse {
  e_o : quarter; e_i : quarter;
  e_py : Z; e_pl : Z; e_pr : Z;
  e_finished : bool;
  e_leftmost : Z
}.

Definition ellipse_init (a b w : Z) : ellipse_state :=
  let o := quarter_init a b in
  if w <? 1 then mkEllipse o o 0 0 0 true (a mod 2)
  else match quarter_next o with
       | (None, o') => mkEllipse o' o' 0 0 0 true (a mod 2)
       | (Some (x, y), o') =>
           mkEllipse o' (quarter_init (a - 2 * (w - 1)) (b - 2 * (w - 1)))
                     y (a mod 2) x false (a mod 2)
       end.

(** [while (quarter_next(&s->st_o, &cx, &cy) != -1 && cy <= y) {}] *)
Fixpoint skip_outer (fuel : nat) (q : quarter) (y : Z) : option (Z * Z) * quarter :=
  match fuel with
  | O => (None, q)
  | S fuel' =>
      match quarter_next q with
      | (None, q') => (None, q')
      | (Some (cx, cy), q') =>
          if cy <=? y then skip_outer fuel' q' y else (Some (cx, cy), q')
      end
  end.

(** [while (quarter_next(&s->st_i, &cx, &cy) != -1 && cy <= y) { l = cx; }] *)
Fixpoint skip_inner (fuel : nat) (q : quarter) (y l : Z) : Z * option (Z * Z) * quarter :=
  match fuel with
  | O => (l, None, q)
  | S fuel' =>
      match quarter_next q with
      | (None, q') => (l, None, q')
      | (Some (cx, cy), q') =>
          if cy <=? y then skip_inner fuel' q' y cx else (l, Some (cx, cy), q')
      end
  end.

(** The spans [(X0, Y, X1)] that [ellipse_next] buffers for the rows [y]
    and [-y] between the inner abscissa [l] and the outer one [r]. *)
Definition row_spans (y l r : Z) : list (Z * Z * Z) :=
  let split := (0 <? l) || (l <? r) in
  (if split && (0 <? y) then [(- r, y, - l)] else [])
  ++ (if 0 <? y then [(l, y, r)] else [])
  ++ (if split then [(- r, - y, - l)] else [])
  ++ [(l, - y, r)].

(** One refill of the buffer of [ellipse_next]. *)
Definition ellipse_refill (fuel : nat) (s : ellipse_state) :
    option (list (Z * Z * Z) * ellipse_state) :=
  if e_finished s then None
  else
    let y := e_py s in
    let '(next_o, o') := skip_outer fuel (e_o s) y in
    let '(l, next_i, i') := skip_inner fuel (e_i s) y (e_pl s) in
    Some (row_spans y l (e_pr s),
          mkEllipse o' i'
            (match next_o with Some (_, cy) => cy | None => e_py s end)
            (match next_i with Some (cx, _) => cx | None => e_leftmost s end)
            (match next_o with Some (cx, _) => cx | None => e_pr s end)
            (match next_o with Some _ => false | None => true end)
            (e_leftmost s)).

(** [while (ellipse_next(&st, &X0, &Y, &X1) != -1) ...] *)
Fixpoint ellipse_spans (rows fuel : nat) (s : ellipse_state) : list (Z * Z * Z) :=
  match rows with
  | O => []
  | S rows' =>
      match ellipse_refill fuel s with
      | None => []
      | Some (spans, s') => spans ++ ellipse_spans rows' fuel s'
      end
  end.

(** All spans of the filled ellipse of an [a] by [b] box ([width = a + b]).
    A quadrant has at most [(a + b) / 2 + 1] points and [b / 2 + 1] rows. *)
Definition pillow_spans (a b : Z) : list (Z * Z * Z) :=
  ellipse_spans (Z.to_nat (b + 2)) (Z.to_nat (a + b + 2)) (ellipse_init a b (a + b)).

(** Is a pixel on the span drawn by
    [hline(im, x0 + (X0 + a) / 2, y0 + (Y + b) / 2, x0 + (X1 + a) / 2)]? *)
Definition on_span (x0 y0 a b x y : Z) (span : Z * Z * Z) : bool :=
  let '(X0, Y, X1) := span in
  (y =? y0 + (Y + b) / 2) && (x0 + (X0 + a) / 2 <=? x) && (x <=? x0 + (X1 + a) / 2).

Definition pillow_ellipse (box : Box) (x y : Z) : bool :=
  let '(x0, y0, x1, y1) := box in
  let a := x1 - x0 in
  let b := y1 - y0 in
  negb ((a <? 0) || (b <? 0)) && existsb (on_span x0 y0 a b x y) (pillow_spans a b).

(** Is a span drawn in row [y]? *)
Definition on_row (y0 b y : Z) (span : Z * Z * Z) : bool :=
  let '(_, Y, _) := span in y =? y0 + (Y + b) / 2.

(** ** The inscribed ellipse, in the words of the specification

    The ellipse inscribed in the image rectangle [[0, w] x [0, h]], pixel
    [(x, y)] being the unit square with corners [(x, y)] and
    [(x + 1, y + 1)].  [inside_inscribed w h n X Y]: the point
    [(X / n, Y / n)] lies in the closed ellipse. *)
Definition inside_inscribed (w h n X Y : Z) : bool :=
  (2 * X - w * n) * (2 * X - w * n) * (h * h)
    + (2 * Y - h * n) * (2 * Y - h * n) * (w * w) <=? w * w * (h * h) * (n * n).

(** No point of the pixel with rational coordinates, corners and centre
    included, lies in the inscribed ellipse. *)
Definition pixel_outside_inscribed (w h x y : Z) : Prop :=
  ∀ n i j, 0 < n → 0 ≤ i ≤ n → 0 ≤ j ≤ n →
    inside_inscribed w h n (x * n + i) (y * n + j) = false.

(** Four times the squared distance, in pixels, of the centre of pixel
    [(x, y)] from the centre of an [n] by [n] image. *)
Definition centre_distance2 (n x y : Z) : Z :=
  (2 * x + 1 - n) * (2 * x + 1 - n) + (2 * y + 1 - n) * (2 * y + 1 - n).

(** On an [n] by [n] image the filled ellipse and the inscribed circle
    agree on every pixel whose centre is more than two pixels away from the
    circle's outline. *)
Definition near_inscribed (n : Z) : bool :=
  let spans := pillow_spans n n in
  forallb (λ y,
    let row := List.filter (on_row 0 n y) spans in
    forallb (λ x,
      let filled := existsb (on_span 0 0 n n x y) row in
      implb (centre_distance2 n x y <=? (n - 4) * (n - 4)) filled
      && implb filled (centre_distance2 n x y <=? (n + 4) * (n + 4)))
      (seqZ 0 n))
    (seqZ 0 n).

(** Nearest-neighbour sampling, whatever the requested filter. *)
Definition nearest_resample (_ : Resampling) (im : image) (sz : Z * Z)
    (k : nat) (x y : Z) : Z :=
  im_band im k (x * (im_size im).1 / sz.1) (y * (im_size im).2 / sz.2).

(** Conversion that keeps the colour bands it finds and makes the pixel opaque. *)
Definition opaque_convert (im : image) (m : string) (k : nat) (x y : Z) : Z :=
  if decide (Some k = alpha_band m) then 255
  else im_band im (Nat.min k (nbands (im_mode im) - 1)) x y.

Definition byte_of_Z (z : Z) : byte :=
  default x00 (Byte.of_N (Z.to_N (z mod 256))).
Definition Z_of_byte (b : byte) : Z := Z.of_N (Byte.to_N b).

(** A toy raster format: a mode tag, width, height and one grey level. *)
Definition flat_decode (d : list byte) : option image :=
  match d with
  | [m; w; h; v] =>
      let md := if Byte.eqb m x00 then "L" else if Byte.eqb m x01 then "RGB" else "RGBA" in
      Some (mkImage md (Z_of_byte w, Z_of_byte h) (λ _ _ _, Z_of_byte v))
  | _ => None
  end.

(** The header of the toy format: mode tag, width and height.  A file that
    ends after its header is an image file whose pixel data is missing. *)
Definition flat_header (d : list byte) : option (string * (Z * Z)) :=
  match d with
  | m :: w :: h :: _ =>
      let md := if Byte.eqb m x00 then "L" else if Byte.eqb m x01 then "RGB" else "RGBA" in
      Some (md, (Z_of_byte w, Z_of_byte h))
  | _ => None
  end.

(** A toy encoder: width, height, then the bands of every pixel in raster order. *)
Definition raster_encode (_ : string) (im : image) : list byte :=
  let '(w, h) := im_size im in
  byte_of_Z w :: byte_of_Z h ::
  flat_map (λ y, flat_map (λ x, map (λ k, byte_of_Z (im_band im k (Z.of_nat x) (Z.of_nat y)))
                                    (seq 0 (nbands (im_mode im))))
                          (seq 0 (Z.to_nat w)))
           (seq 0 (Z.to_nat h)).

(** ** Sample inputs *)

(** A project whose script is [proj/generate-android-icons.py], with an
    Android resource root and a 4x4 RGB source icon. *)
Definition sample_script : path := ["proj"; "generate-android-icons.py"].
Definition sample_icon_path : path := ["proj"; "assets"; "icon.png"].
Definition sample_res : path := ["proj"; "android"; "app"; "src"; "main"; "res"].
Definition sample_fix : path := ["proj"; "android-resources-manual-fix"].

Definition sample_stat : stat := mkStat 420 100.
Definition sample_icon_bytes : list byte := [x01; x04; x04; x80].
Definition sample_icon : image := default inhabitant (flat_decode sample_icon_bytes).

Definition sample_tree : gmap path node :=
  <[sample_res := Dir]>
  (<[["proj"; "android"; "app"; "src"; "main"] := Dir]>
  (<[["proj"; "android"; "app"; "src"] := Dir]>
  (<[["proj"; "android"; "app"] := Dir]>
  (<[["proj"; "android"] := Dir]>
  (<[sample_icon_path := File sample_icon_bytes sample_stat]>
  (<[["proj"; "assets"] := Dir]>
  (<[["proj"] := Dir]> ∅))))))).

Definition sample_state : State := mkState [] sample_tree [] 1000 18.

(** The same project with a stale regular file where the mdpi mipmap
    directory belongs. *)
Definition blocked_state : State :=
  mkState [] (<[sample_res ++ ["mipmap-mdpi"] := File [] sample_stat]> sample_tree) [] 1000 18.

(** The same project with an icon file that is not an image. *)
Definition corrupt_state : State :=
  mkState [] (<[sample_icon_path := File [x00] sample_stat]> sample_tree) [] 1000 18.

(** The same project with an RGBA icon file cut off after its header, and
    with an RGB one. *)
Definition truncated_state : State :=
  mkState [] (<[sample_icon_path := File [x02; x04; x04] sample_stat]> sample_tree) [] 1000 18.

Definition truncated_rgb_state : State :=
  mkState [] (<[sample_icon_path := File [x01; x04; x04] sample_stat]> sample_tree) [] 1000 18.

(** A project directory without the source icon. *)
Definition bare_state : State := mkState [] (<[["proj"] := Dir]> ∅) [] 1000 18.

(** The project with a manual-fix directory that has only [strings.xml],
    and an older [strings.xml] already in place. *)
Definition fix_tree : gmap path node :=
  <[sample_fix ++ ["values"; "strings.xml"] := File [x3c; x61; x2f; x3e] (mkStat 384 7)]>
  (<[sample_fix ++ ["values"] := Dir]>
  (<[sample_fix := Dir]>
  (<[sample_res ++ ["values"; "strings.xml"] := File [x3c; x3e] sample_stat]>
  (<[sample_res ++ ["values"] := Dir]> sample_tree)))).

Definition fix_state : State := mkState [] fix_tree [] 1000 18.

(** A store holding one opaque 4x4 RGBA image. *)
Definition round_state : State :=
  mkState [mkImage "RGBA" (4, 4) (λ _ _ _, 7)] sample_tree [] 1000 18.

(** A store holding one opaque 48x48 RGBA image, the size of the mdpi icon. *)
Definition mdpi_state : State :=
  mkState [mkImage "RGBA" (48, 48) (λ _ _ _, 7)] sample_tree [] 1000 18.

(** The same project with a stale regular file where the xhdpi mipmap
    directory belongs. *)
Definition stale_state : State :=
  mkState [] (<[sample_res ++ ["mipmap-xhdpi"] := File [] sample_stat]> sample_tree) [] 1000 18.

(** The same project with a regular file in the place of the resource
    directory. *)
Definition flat_res_state : State :=
  mkState [] (<[sample_res := File [] sample_stat]> sample_tree) [] 1000 18.

(** A project that has its icon and no [android] directory at all. *)
Definition fresh_state : State :=
  mkState []
    (<[sample_icon_path := File sample_icon_bytes sample_stat]>
     (<[["proj"; "assets"] := Dir]>
     (<[["proj"] := Dir]> ∅))) [] 1000 18.

(** The manual-fix project with a directory where [styles.xml] should be. *)
Definition dir_source_state : State :=
  mkState [] (<[sample_fix ++ ["values"; "styles.xml"] := Dir]> fix_tree) [] 1000 18.

(** ** The script *)

Section Script.

(** [ellipse_covers box x y]: does [ImageDraw.ellipse] with bounding box
    [box] fill pixel [(x, y)]? *)
Variable ellipse_covers : Box → Z → Z → bool.
(** Pixel data of [Image.resize] for a requested size and filter. *)
Variable resample : Resampling → image → Z * Z → nat → Z → Z → Z.
(** Pixel data of [Image.convert] to another mode. *)
Variable convert_data : image → string → nat → Z → Z → Z.
(** The image a file's bytes decode to, if header and pixel data decode. *)
Variable decode : list byte → option image.
(** The mode and size [Image.open] reads from the header of a file whose
    pixel data does not decode, if the header identifies an image. *)
Variable header : list byte → option (string * (Z * Z)).
(** The bytes of an image in a given file format. *)
Variable encode : string → image → list byte.

Definition convert_image (im : image) (m : string) : image :=
  if decide (im_mode im = m) then im
  else mkImage m (im_size im) (convert_data im m).

Definition resize_image (im : image) (sz : Z * Z) (f : Resampling) : image :=
  mkImage (im_mode im) sz (resample f im sz).

(** Filling an ellipse: the covered pixels inside the image take the ink. *)
Definition draw_ellipse (im : image) (xy : Box) (fill : color) : image :=
  mkImage (im_mode im) (im_size im)
    (λ k x y, if in_bounds (im_size im) x y && ellipse_covers xy x y
              then color_band fill k else im_band im k x y).

(** Pasting [src] with its upper left corner at [pos], clipped to [dst];
    a source of another mode is converted to the destination's first. *)
Definition paste_image (dst src : image) (pos : Z * Z) : image :=
  let src' := convert_image src (im_mode dst) in
  mkImage (im_mode dst) (im_size dst)
    (λ k x y, if in_bounds (im_size dst) x y
                 && in_bounds (im_size src) (x - pos.1) (y - pos.2)
              then im_band src' k (x - pos.1) (y - pos.2)
              else im_band dst k x y).

(** [im.size] and [im.mode] need no pixel data. *)
Definition Image_size (i : img) : M (Z * Z) :=
  match i with
  | Mem r => im ← deref r; ret (im_size im)
  | Undecodable _ sz => ret sz
  end.
Definition Image_mode (i : img) : M string :=
  match i with
  | Mem r => im ← deref r; ret (im_mode im)
  | Undecodable m _ => ret m
  end.

(** [Image.new(mode, size, color)] *)
Definition Image_new (m : string) (sz : Z * Z) (c : color) : M ref :=
  if (sz.1 <? 0) || (sz.2 <? 0) then raise ValueError
  else alloc (new_image m sz c).

(** [ImageDraw.Draw(im)]: the drawing context draws into [im] itself. *)
Definition ImageDraw_Draw (im : ref) : M ref := ret im.

(** [draw.ellipse(xy, fill=fill)] *)
Definition ImageDraw_ellipse (draw : ref) (xy : Box) (fill : color) : M unit :=
  im ← deref draw; assign draw (draw_ellipse im xy fill).

(** [dst.paste(src, pos)] *)
Definition Image_paste (dst src : ref) (pos : Z * Z) : M unit :=
  d ← deref dst; s ← deref src; assign dst (paste_image d s pos).

(** [dst.putalpha(alpha)] for a destination whose mode carries alpha (the
    only case the script produces; promoting an alpha-less destination is
    not modelled and is reported as [ValueError]). *)
Definition Image_putalpha (dst alpha : ref) : M unit :=
  d ← deref dst; a ← deref alpha;
  match alpha_band (im_mode d) with
  | None => raise ValueError
  | Some b =>
      if negb (bool_decide (im_mode a = "1" ∨ im_mode a = "L")) then raise ValueError
      else if negb (bool_decide (im_size a = im_size d)) then raise ValueError
      else assign dst (putband d (convert_image a "L") b)
  end.

(** [Image.open(p)]: reads the file and identifies the image from its
    header; no pixel data is decoded yet. *)
Definition Image_open (p : path) : M img :=
  '(d, _) ← read_file p;
  match decode d with
  | Some im => r ← alloc im; ret (Mem r)
  | None =>
      match header d with
      | Some (m, sz) => ret (Undecodable m sz)
      | None => raise UnidentifiedImageError
      end
  end.

(** [im.convert(mode)]: loads the pixel data first. *)
Definition Image_convert (i : img) (m : string) : M ref :=
  match i with
  | Mem r => im ← deref r; alloc (convert_image im m)
  | Undecodable _ _ => raise OSError
  end.

(** [im.resize(size, resample)]: loads the pixel data first. *)
Definition Image_resize (i : img) (sz : Z * Z) (f : Resampling) : M ref :=
  match i with
  | Mem r =>
      im ← deref r;
      if (sz.1 <=? 0) || (sz.2 <=? 0) then raise ValueError
      else alloc (resize_image im sz f)
  | Undecodable _ _ => raise OSError
  end.

(** [im.save(p, format)] *)
Definition Image_save (r : ref) (p : path) (fmt : string) : M unit :=
  im ← deref r; write_file p (encode fmt im).

Definition create_round_icon (square_image : ref) : M ref :=
  size ← Image_size square_image;
  mask ← Image_new "L" size [0];
  draw ← ImageDraw_Draw mask;
  ImageDraw_ellipse draw (tuple_add (0, 0) size) [255] ;;
  rounded ← Image_new "RGBA" size [0; 0; 0; 0];
  Image_paste rounded square_image (0, 0) ;;
  Image_putalpha rounded mask ;;
  ret rounded.

Definition densities : list (string * Z) :=
  [("mdpi", 48); ("hdpi", 72); ("xhdpi", 96); ("xxhdpi", 144); ("xxxhdpi", 192)].

(** The body of the loop over [densities.items()]. *)
Definition density_body (source_img : img) (output_base_path : path)
    (item : string * Z) : M unit :=
  let '(density, size) := item in
  let mipmap_dir := output_base_path // ("mipmap-" +:+ density) in
  Path_mkdir mipmap_dir true true ;;
  square_resized ← Image_resize source_img (size, size) LANCZOS;
  let square_path := mipmap_dir // "ic_launcher.png" in
  Image_save square_resized square_path "PNG" ;;
  print (Created square_path size size) ;;
  round_resized ← create_round_icon square_resized;
  let round_path := mipmap_dir // "ic_launcher_round.png" in
  Image_save round_resized round_path "PNG" ;;
  print (Created round_path size size).

(** The [try] block: open the source and convert it to RGBA if needed. *)
Definition load_source (source_icon_path : path) : M img :=
  source_img ← Image_open source_icon_path;
  m ← Image_mode source_img;
  if decide (m ≠ "RGBA")
  then converted ← Image_convert source_img "RGBA"; ret (Mem converted)
  else ret source_img.

Definition generate_icons (source_icon_path output_base_path : path) : M bool :=
  print (LoadingSource source_icon_path) ;;
  loaded ← try_except (r ← load_source source_icon_path; ret (Some r)) is_Exception
              (λ e, print (CouldNotLoad source_icon_path e) ;; ret None);
  match loaded with
  | None => ret false
  | Some source_img =>
      sz ← Image_size source_img;
      print (SourceSize sz) ;;
      print (Text "") ;;
      foreach densities (density_body source_img output_base_path) ;;
      print (Text "") ;;
      print (Text "SUCCESS! All Android icons generated.") ;;
      ret true
  end.

(** The text of [print("\nCopying XML resources...")]. *)
Definition copying_message : string :=
  String "010"%char "Copying XML resources...".

Definition xml_files : list (string * string) :=
  [("values/strings.xml", "values");
   ("values/styles.xml", "values");
   ("values/colors.xml", "values");
   ("drawable/splashscreen.xml", "drawable")].

(** The body of the loop over [xml_files]. *)
Definition xml_body (source_dir dest_dir : path) (item : string * string) : M unit :=
  let '(file_path, subdir) := item in
  let src := source_dir // file_path in
  let dest_dir_path := dest_dir // subdir in
  Path_mkdir dest_dir_path true true ;;
  let dest := dest_dir_path // name file_path in
  found ← Path_exists src;
  if (found : bool)
  then shutil_copy2 src dest ;; print (Copied dest)
  else print (SourceNotFound src).

Definition copy_xml_resources (source_dir dest_dir : path) : M unit :=
  print (Text copying_message) ;;
  foreach xml_files (xml_body source_dir dest_dir) ;;
  print (Text "").

Definition banner (title : string) : M unit :=
  print (Text "============================================================") ;;
  print (Text title) ;;
  print (Text "============================================================").

(** [main], for the location [script] of the script file. *)
Definition main (script : path) : M unit :=
  let project_root := parent script in
  let source_icon := project_root // "assets" // "icon.png" in
  let android_res := project_root // "android" // "app" // "src" // "main" // "res" in
  let manual_fix_dir := project_root // "android-resources-manual-fix" in
  banner "  Android Icon & Resource Generator" ;;
  print (Text "") ;;
  icon_found ← Path_exists source_icon;
  (if negb icon_found
   then print (IconNotFound source_icon) ;; sys_exit 1
   else ret tt) ;;
  res_found ← Path_exists android_res;
  (if negb res_found
   then print (ResNotFound android_res) ;;
        print (Text "") ;;
        print (Text "Please ensure you have an android/ directory in your project.") ;;
        print (Text "You may need to run: npx react-native init or similar") ;;
        sys_exit 1
   else ret tt) ;;
  success ← generate_icons source_icon android_res;
  (if negb success then sys_exit 1 else ret tt) ;;
  fix_found ← Path_exists manual_fix_dir;
  (if (fix_found : bool)
   then copy_xml_resources manual_fix_dir android_res
   else print (Text "Note: android-resources-manual-fix directory not found.") ;;
        print (Text "XML resources (strings.xml, styles.xml, etc.) not copied.")) ;;
  banner "  COMPLETE!" ;;
  print (Text "") ;;
  print (Text "Next steps:") ;;
  print (Text "  1. cd android") ;;
  print (Text "  2. .\gradlew clean") ;;
  print (Text "  3. .\gradlew assembleRelease") ;;
  print (Text "").

(** The three paths [main] derives from the script's location. *)
Definition source_icon_path (script : path) : path :=
  parent script // "assets" // "icon.png".
Definition android_res_path (script : path) : path :=
  parent script // "android" // "app" // "src" // "main" // "res".
Definition manual_fix_path (script : path) : path :=
  parent script // "android-resources-manual-fix".

(** ** Pure denotations of the file-system effects *)

(** Replace the node at [p] by a function of what was there. *)
Definition update_at (p : path) (g : option node → node) (t : gmap path node) :
    gmap path node :=
  <[p := g (t !! p)]> t.

(** Effect of a successful [mkdir(parents=True, exist_ok=True)] below an
    existing directory. *)
Definition ensure_dir (p : path) : gmap path node → gmap path node :=
  update_at p (default Dir).

(** The node left by writing [data] at clock [c] under umask [u] over [old]. *)
Definition written (c u : Z) (data : list byte) (old : option node) : node :=
  File data match old with
            | Some (File _ st) => mkStat (st_mode st) c
            | _ => mkStat (Z.ldiff 438 u) c
            end.

Definition put_file (c u : Z) (p : path) (data : list byte) :
    gmap path node → gmap path node :=
  update_at p (written c u data).

(** ** Pure denotations of the image pipeline *)

(** The mask [create_round_icon] draws for an image of size [sz]. *)
Definition round_mask (sz : Z * Z) : image :=
  draw_ellipse (new_image "L" sz [0]) (tuple_add (0, 0) sz) [255].

(** The image [create_round_icon] returns for the square image [sq]. *)
Definition round_of (sq : image) : image :=
  putband (paste_image (new_image "RGBA" (im_size sq) [0; 0; 0; 0]) sq (0, 0))
          (round_mask (im_size sq)) 3.

(** The source image after the [try] block's normalisation. *)
Definition normalize (im : image) : image :=
  if decide (im_mode im ≠ "RGBA") then convert_image im "RGBA" else im.

(** The square icon of edge [n] made from the normalised source. *)
Definition square_of (src : image) (n : Z) : image :=
  resize_image src (n, n) LANCZOS.

(** ** Pure denotation of one loop iteration *)

Definition mipmap_dir (out : path) (density : string) : path :=
  out ++ ["mipmap-" +:+ density].

Definition square_path (out : path) (density : string) : path :=
  mipmap_dir out density ++ ["ic_launcher.png"].

Definition round_path (out : path) (density : string) : path :=
  mipmap_dir out density ++ ["ic_launcher_round.png"].

(** The file system after the iteration for [item], run at clock [c] under
    umask [u] with normalised source [src]. *)
Definition density_fs (c u : Z) (src : image) (out : path) (item : string * Z)
    (t : gmap path node) : gmap path node :=
  put_file c u (round_path out item.1) (encode "PNG" (round_of (square_of src item.2)))
    (put_file c u (square_path out item.1) (encode "PNG" (square_of src item.2))
       (ensure_dir (mipmap_dir out item.1) t)).

(** The image objects the iteration allocates, in order. *)
Definition density_images (src : image) (item : string * Z) : list image :=
  [square_of src item.2; round_mask (item.2, item.2); round_of (square_of src item.2)].

(** The lines the iteration prints. *)
Definition density_lines (out : path) (item : string * Z) : list line :=
  [Created (square_path out item.1) item.2 item.2;
   Created (round_path out item.1) item.2 item.2].

Definition free_or_dir (o : option node) : bool :=
  match o with None | Some Dir => true | Some (File _ _) => false end.

Definition not_dir (o : option node) : bool :=
  match o with Some Dir => false | _ => true end.

(** Nothing in the tree [t] obstructs the iteration for [item]: the
    density label names a single path component, the edge is positive, the
    mipmap directory is absent or a directory, and neither icon path is
    occupied by a directory. *)
Definition density_ok (t : gmap path node) (out : path) (item : string * Z) : bool :=
  bool_decide (parts ("mipmap-" +:+ item.1) = ["mipmap-" +:+ item.1])
  && (0 <? item.2)
  && free_or_dir (t !! mipmap_dir out item.1)
  && not_dir (t !! square_path out item.1)
  && not_dir (t !! round_path out item.1).

(** The output root is a directory and no iteration is obstructed. *)
Definition writable (t : gmap path node) (out : path) (items : list (string * Z)) : bool :=
  is_dir t out && forallb (density_ok t out) items.

(** The file system after the loop over [items]. *)
Definition loop_fs (c u : Z) (src : image) (out : path) (items : list (string * Z))
    (t : gmap path node) : gmap path node :=
  foldl (λ t item, density_fs c u src out item t) t items.

(** The image the source path loads as, when it is a file that decodes. *)
Definition loadable (t : gmap path node) (p : path) : option image :=
  match node_at t p with
  | Some (File d _) => decode d
  | _ => None
  end.

(** The mode and size of the source when it is an image file whose pixel
    data does not decode. *)
Definition undecodable (t : gmap path node) (p : path) : option (string * (Z * Z)) :=
  match node_at t p with
  | Some (File d _) => match decode d with Some _ => None | None => header d end
  | _ => None
  end.

(** The [try] block of [generate_icons] ends in its [except] clause: the
    source does not open as an image, or it is not RGBA and the conversion
    finds pixel data that does not decode. *)
Definition try_fails (t : gmap path node) (p : path) : Prop :=
  loadable t p = None ∧ ∀ sz, undecodable t p ≠ Some ("RGBA", sz).

(** The objects the [try] block allocates for a decoded image, and the
    one among them that [source_img] ends up naming. *)
Definition source_objects (im : image) : list image :=
  if decide (im_mode im ≠ "RGBA") then [im; convert_image im "RGBA"] else [im].

Definition source_ref (h : list image) (im : image) : ref :=
  if decide (im_mode im ≠ "RGBA") then S (length h) else length h.

(** Everything a successful run of [generate_icons] prints. *)
Definition success_lines (p out : path) (src : image) : list line :=
  [LoadingSource p; SourceSize (im_size src); Text ""]
  ++ concat (density_lines out <$> densities)
  ++ [Text ""; Text "SUCCESS! All Android icons generated."].

(** ** Pure denotation of the resource copier *)

Definition xml_src (source_dir : path) (item : string * string) : path :=
  source_dir // item.1.

Definition xml_subdir (dest_dir : path) (item : string * string) : path :=
  dest_dir // item.2.

Definition xml_dest (dest_dir : path) (item : string * string) : path :=
  dest_dir // item.2 // name item.1.

(** The file system after the iteration for [item], where [t0] is the
    tree the source is read from: the subdirectory exists, and a source
    that is a file has been copied, node for node. *)
Definition xml_fs (source_dir dest_dir : path) (t0 : gmap path node)
    (item : string * string) (t : gmap path node) : gmap path node :=
  let t1 := ensure_dir (xml_subdir dest_dir item) t in
  match t0 !! xml_src source_dir item with
  | Some (File d st) => <[xml_dest dest_dir item := File d st]> t1
  | _ => t1
  end.

(** The line the iteration prints. *)
Definition xml_line (source_dir dest_dir : path) (t0 : gmap path node)
    (item : string * string) : line :=
  match t0 !! xml_src source_dir item with
  | Some _ => Copied (xml_dest dest_dir item)
  | None => SourceNotFound (xml_src source_dir item)
  end.

(** Nothing in [t] obstructs copying [item]: the destination subdirectory
    is absent or a directory, and neither the source nor the destination
    file path is occupied by a directory. *)
Definition xml_ok (source_dir dest_dir : path) (t : gmap path node)
    (item : string * string) : bool :=
  free_or_dir (t !! xml_subdir dest_dir item)
  && not_dir (t !! xml_src source_dir item)
  && not_dir (t !! xml_dest dest_dir item).

(** The file system after the loop over [items]. *)
Definition xml_loop_fs (source_dir dest_dir : path) (t0 : gmap path node)
    (items : list (string * string)) (t : gmap path node) : gmap path node :=
  foldl (λ t item, xml_fs source_dir dest_dir t0 item t) t items.

Definition copyable (source_dir dest_dir : path) (t : gmap path node) : bool :=
  bool_decide (source_dir ≠ dest_dir) && is_dir t dest_dir
  && forallb (xml_ok source_dir dest_dir t) xml_files.

(** [main] up to the call of [generate_icons]: the state in which the call
    is made when both existence checks pass. *)
Definition checked (s : State) : State :=
  set_stdout (stdout s ++
    [Text "============================================================";
     Text "  Android Icon & Resource Generator";
     Text "============================================================";
     Text ""]) s.

(** ** The module as a whole *)

(** Running the file: the guarded import of Pillow at the top, then
    [main] when the module runs as a script.  Whether Pillow can be imported
    and the value of [__name__] are given by the environment. *)
Definition program (pillow_installed : bool) (dunder_name : string) (script : path) : M unit :=
  (if pillow_installed then ret tt
   else print (Text "ERROR: Pillow is required. Install with:") ;;
        print (Text "  pip install Pillow") ;;
        sys_exit 1) ;;
  if decide (dunder_name = "__main__") then main script else ret tt.

(** ** Relations between the state before and after a run *)

(** Every run of [m], whatever its outcome, relates the states by [R]. *)
Definition preserves {A} (R : State → State → Prop) (m : M A) : Prop :=
  ∀ s r s', m s = (r, s') → R s s'.

(** [m] raises only exceptions in [E]. *)
Definition raises_only {A} (E : exn → Prop) (m : M A) : Prop :=
  ∀ s e s', m s = (Raise e, s') → E e.

(** Every node present before is still there, unchanged, except possibly
    at the paths in [P]. *)
Definition keeps (P : path → Prop) (s s' : State) : Prop :=
  ∀ q n, fs s !! q = Some n → ¬ P q → fs s' !! q = Some n.

(** Only the file system may differ. *)
Definition fs_only (s s' : State) : Prop :=
  heap s' = heap s ∧ stdout s' = stdout s ∧ clock s' = clock s ∧ umask s' = umask s.

(** The ten paths [generate_icons] writes icons to. *)
Definition icon_path (out : path) (q : path) : Prop :=
  ∃ item, item ∈ densities ∧ (q = square_path out item.1 ∨ q = round_path out item.1).

(** The paths [copy_xml_resources] may write files to: each destination,
    or the same name inside it should the destination be a directory. *)
Definition xml_target (dest_dir : path) (q : path) : Prop :=
  ∃ item, item ∈ xml_files ∧
    (q = xml_dest dest_dir item ∨ q = xml_dest dest_dir item ++ [name item.1]).

(** What a process may end with other than success: [sys.exit(1)] or an
    uncaught exception. *)
Definition exit_or_error (e : exn) : Prop :=
  e = SystemExit 1 ∨ is_Exception e = true.

(** The file system is untouched. *)
Definition same_fs (s s' : State) : Prop := fs s' = fs s.

(** The exceptions a [try ... except Exception] would catch. *)
Definition caught (e : exn) : Prop := is_Exception e = true.

(** ** What a run prints *)

(** From [s] to [s'] the output has only grown, by lines that satisfy [P]. *)
Definition prints (P : line → Prop) (s s' : State) : Prop :=
  ∃ ls, stdout s' = stdout s ++ ls ∧ Forall P ls.

Definition same_out (s s' : State) : Prop := stdout s' = stdout s.

(** The action prints the line [C] exactly when it returns a value that
    satisfies [ok]. *)
Definition announces {A} (C : line) (ok : A → Prop) (m : M A) : Prop :=
  ∀ s r s', m s = (r, s') →
    ∃ ls, stdout s' = stdout s ++ ls ∧ (C ∈ ls ↔ ∃ a, r = Ok a ∧ ok a).

(** ** An output root that does not exist yet *)

(** All prefixes of a path, from the root to the path itself. *)
Fixpoint ancestors (p : path) : list path :=
  match p with
  | [] => [[]]
  | x :: p' => [] :: (cons x <$> ancestors p')
  end.

(** Nothing is stored at or below [out], and [out] can be created: each
    of its ancestors is absent or a directory. *)
Definition fresh_root (t : gmap path node) (out : path) : bool :=
  forallb (λ q, free_or_dir (node_at t q)) (ancestors out)
  && bool_decide (map_Forall (λ q _, ¬ out `prefix_of` q) t).

(** * Properties *)

(** ** Stepping through the monad *)

Lemma run_bind {A B} (m : M A) (k : A → M B) (s : State) :
  (m ≫= k) s = match m s with
               | (Ok a, s') => k a s'
               | (Raise e, s') => (Raise e, s')
               end.
Proof. reflexivity. Qed.

Lemma run_bind_ok {A B} (m : M A) (k : A → M B) (s s' : State) (a : A) :
  m s = (Ok a, s') → (m ≫= k) s = k a s'.
Proof. intros H. rewrite run_bind, H. reflexivity. Qed.

Lemma run_bind_raise {A B} (m : M A) (k : A → M B) (s s' : State) (e : exn) :
  m s = (Raise e, s') → (m ≫= k) s = (Raise e, s').
Proof. intros H. rewrite run_bind, H. reflexivity. Qed.

Lemma lookup_total_new (h : list image) (a : image) (l : list image) :
  (h ++ a :: l) !!! length h = a.
Proof. by apply list_lookup_total_middle. Qed.

Lemma lookup_total_second (h : list image) (a b : image) :
  (h ++ [a; b]) !!! S (length h) = b.
Proof.
  change (h ++ [a; b]) with (h ++ [a] ++ [b]).
  rewrite (assoc_L (++)). apply list_lookup_total_middle.
  rewrite length_app. cbn. lia.
Qed.

Lemma lookup_total_old (h l : list image) (r : ref) :
  (r < length h)%nat → (h ++ l) !!! r = h !!! r.
Proof. intros H. by apply lookup_total_app_l. Qed.

Lemma insert_new (h : list image) (a b : image) (l : list image) :
  <[length h := b]> (h ++ a :: l) = h ++ b :: l.
Proof.
  rewrite insert_app_r_alt by lia.
  by rewrite Nat.sub_diag.
Qed.

Lemma Image_size_run (r : ref) (s : State) :
  Image_size r s = (Ok (im_size (heap s !!! r)), s).
Proof. reflexivity. Qed.

Lemma Image_mode_run (r : ref) (s : State) :
  Image_mode r s = (Ok (im_mode (heap s !!! r)), s).
Proof. reflexivity. Qed.

Lemma ImageDraw_Draw_run (r : ref) (s : State) : ImageDraw_Draw r s = (Ok r, s).
Proof. reflexivity. Qed.

Lemma ImageDraw_ellipse_run (r : ref) (xy : Box) (fill : color) (s : State) :
  ImageDraw_ellipse r xy fill s =
    (Ok tt, set_heap (<[r := draw_ellipse (heap s !!! r) xy fill]> (heap s)) s).
Proof. reflexivity. Qed.

Lemma Image_paste_run (dst src : ref) (pos : Z * Z) (s : State) :
  Image_paste dst src pos s =
    (Ok tt, set_heap (<[dst := paste_image (heap s !!! dst) (heap s !!! src) pos]> (heap s)) s).
Proof. reflexivity. Qed.

Lemma print_run (l : line) (s : State) :
  print l s = (Ok tt, set_stdout (stdout s ++ [l]) s).
Proof. reflexivity. Qed.

(** One step of symbolic execution: run the first action of a sequence
    with the given equation. *)
Ltac step_with L :=
  erewrite run_bind_ok; [ | solve [ apply L; first [ done | lia ] ] ];
  cbv beta; unfold set_heap, set_fs, set_stdout;
  cbn [heap fs stdout clock umask].

Lemma Image_new_run (m : string) (sz : Z * Z) (c : color) (s : State) :
  0 ≤ sz.1 → 0 ≤ sz.2 →
  Image_new m sz c s = (Ok (length (heap s)), set_heap (heap s ++ [new_image m sz c]) s).
Proof.
  intros Hw Hh. unfold Image_new.
  destruct (sz.1 <? 0) eqn:E1; [lia|].
  destruct (sz.2 <? 0) eqn:E2; [lia|].
  reflexivity.
Qed.

Lemma Image_putalpha_run (dst alpha : ref) (s : State) :
  im_mode (heap s !!! dst) = "RGBA" →
  im_mode (heap s !!! alpha) = "L" →
  im_size (heap s !!! alpha) = im_size (heap s !!! dst) →
  Image_putalpha dst alpha s =
    (Ok tt, set_heap (<[dst := putband (heap s !!! dst) (heap s !!! alpha) 3]> (heap s)) s).
Proof.
  intros Hd Ha Hsz. unfold Image_putalpha.
  rewrite !run_bind. cbn [deref]. rewrite !run_bind. cbn [deref].
  unfold convert_image. rewrite Hd, Ha, Hsz.
  rewrite (bool_decide_eq_true_2 (_ ∨ _)) by (by right).
  rewrite bool_decide_eq_true_2 by reflexivity.
  reflexivity.
Qed.

Lemma create_round_icon_run (s : State) (sq : ref) :
  (sq < length (heap s))%nat →
  0 ≤ (im_size (heap s !!! sq)).1 →
  0 ≤ (im_size (heap s !!! sq)).2 →
  create_round_icon sq s =
    (Ok (S (length (heap s))),
     set_heap (heap s ++ [round_mask (im_size (heap s !!! sq)); round_of (heap s !!! sq)]) s).
Proof.
  intros Hsq Hw Hh. destruct s as [h t o c u]. cbn [heap] in Hsq, Hw, Hh |- *.
  unfold create_round_icon.
  step_with Image_size_run.
  step_with Image_new_run.
  step_with ImageDraw_Draw_run.
  step_with ImageDraw_ellipse_run.
  rewrite lookup_total_new, insert_new.
  step_with Image_new_run.
  step_with Image_paste_run.
  rewrite lookup_total_new, insert_new.
  rewrite !lookup_total_old by (rewrite ?length_app; cbn; lia).
  fold (round_mask (im_size (h !!! sq))).
  erewrite run_bind_ok; cycle 1.
  { apply Image_putalpha_run; cbn [heap].
    - by rewrite lookup_total_new.
    - rewrite lookup_total_old by (rewrite length_app; cbn; lia).
      by rewrite lookup_total_new.
    - rewrite lookup_total_old by (rewrite length_app; cbn; lia).
      by rewrite !lookup_total_new. }
  cbn [heap set_heap ret fs stdout clock umask].
  rewrite lookup_total_new, insert_new.
  rewrite lookup_total_old by (rewrite length_app; cbn; lia).
  rewrite lookup_total_new.
  rewrite length_app, <- (assoc_L (++)). cbn [length app].
  unfold ret, set_heap. cbn [heap fs stdout clock umask].
  rewrite Nat.add_1_r. reflexivity.
Qed.

(** ** File-system steps *)

Lemma lookup_update_at (p q : path) (g : option node → node) (t : gmap path node) :
  update_at p g t !! q = if decide (p = q) then Some (g (t !! p)) else t !! q.
Proof. unfold update_at. by rewrite lookup_insert. Qed.

Lemma update_at_commute (p q : path) (g g' : option node → node) (t : gmap path node) :
  p ≠ q → update_at p g (update_at q g' t) = update_at q g' (update_at p g t).
Proof.
  intros Hne. apply map_eq. intros r.
  rewrite !lookup_update_at. repeat case_decide; congruence.
Qed.

Lemma node_at_snoc (t : gmap path node) (p : path) (x : string) :
  node_at t (p ++ [x]) = t !! (p ++ [x]).
Proof. by destruct p. Qed.

Lemma node_at_app_cons (t : gmap path node) (p : path) (x : string) (l : list string) :
  node_at t (p ++ x :: l) = t !! (p ++ x :: l).
Proof. by destruct p. Qed.

Lemma parent_snoc (p : path) (x : string) : parent (p ++ [x]) = p.
Proof. apply removelast_last. Qed.

Lemma snoc_ne_self (p : path) (x : string) (l : list string) : p ++ x :: l ≠ p.
Proof.
  intros H. apply (f_equal length) in H. rewrite length_app in H. cbn in H. lia.
Qed.

Lemma node_at_update_below (t : gmap path node) (p : path) (x : string)
    (l : list string) (g : option node → node) :
  node_at (update_at (p ++ x :: l) g t) p = node_at t p.
Proof.
  destruct p as [|a p]; [done|]. cbn [node_at].
  rewrite lookup_update_at, decide_False; [done|]. apply snoc_ne_self.
Qed.

Lemma Path_mkdir_run (out : path) (nm : string) (s : State) :
  node_at (fs s) out = Some Dir →
  fs s !! (out ++ [nm]) = None ∨ fs s !! (out ++ [nm]) = Some Dir →
  Path_mkdir (out ++ [nm]) true true s =
    (Ok tt, set_fs (ensure_dir (out ++ [nm]) (fs s)) s).
Proof.
  intros Hout Hdir. destruct s as [h t o c u]. cbn [fs] in Hout, Hdir |- *.
  unfold Path_mkdir. rewrite rev_unit. cbn [mkdir_rev].
  change (rev (nm :: rev out)) with (rev (rev out) ++ [nm]).
  rewrite rev_involutive.
  unfold try_except, os_mkdir. cbn [fs].
  rewrite node_at_snoc, parent_snoc, Hout.
  unfold ensure_dir, update_at, set_fs, is_dir. cbn [heap fs stdout clock umask].
  destruct (t !! (out ++ [nm])) as [[|d st]|] eqn:E.
  - cbn. rewrite node_at_snoc, E. by rewrite insert_id.
  - by destruct Hdir.
  - reflexivity.
Qed.

Lemma Path_mkdir_blocked (out : path) (nm : string) (d : list byte) (st : stat) (s : State) :
  fs s !! (out ++ [nm]) = Some (File d st) →
  Path_mkdir (out ++ [nm]) true true s = (Raise FileExistsError, s).
Proof.
  intros Hf. unfold Path_mkdir. rewrite rev_unit. cbn [mkdir_rev].
  change (rev (nm :: rev out)) with (rev (rev out) ++ [nm]).
  rewrite rev_involutive.
  unfold try_except, os_mkdir. rewrite node_at_snoc, Hf.
  cbn [is_OSError andb]. unfold is_dir. by rewrite node_at_snoc, Hf.
Qed.

Lemma write_file_run (dir : path) (f : string) (data : list byte) (s : State) :
  node_at (fs s) dir = Some Dir →
  fs s !! (dir ++ [f]) ≠ Some Dir →
  write_file (dir ++ [f]) data s =
    (Ok tt, set_fs (put_file (clock s) (umask s) (dir ++ [f]) data (fs s)) s).
Proof.
  intros Hdir Hf. unfold write_file.
  rewrite node_at_snoc, parent_snoc, Hdir.
  unfold put_file, update_at, written, create_mode.
  destruct (fs s !! (dir ++ [f])) as [[|d st]|]; done.
Qed.

Lemma Image_save_run (r : ref) (dir : path) (f fmt : string) (s : State) :
  node_at (fs s) dir = Some Dir →
  fs s !! (dir ++ [f]) ≠ Some Dir →
  Image_save r (dir ++ [f]) fmt s =
    (Ok tt, set_fs (put_file (clock s) (umask s) (dir ++ [f])
                      (encode fmt (heap s !!! r)) (fs s)) s).
Proof.
  intros Hdir Hf. unfold Image_save. rewrite run_bind. cbn [deref].
  by apply write_file_run.
Qed.

Lemma Image_resize_run (r : ref) (sz : Z * Z) (f : Resampling) (s : State) :
  0 < sz.1 → 0 < sz.2 →
  Image_resize r sz f s =
    (Ok (length (heap s)), set_heap (heap s ++ [resize_image (heap s !!! r) sz f]) s).
Proof.
  intros Hw Hh. unfold Image_resize. rewrite run_bind. cbn [deref].
  destruct (sz.1 <=? 0) eqn:E1; [lia|].
  destruct (sz.2 <=? 0) eqn:E2; [lia|].
  reflexivity.
Qed.

Lemma is_dir_true (t : gmap path node) (p : path) :
  is_dir t p = true ↔ node_at t p = Some Dir.
Proof. unfold is_dir. destruct (node_at t p) as [[|]|]; split; congruence. Qed.

Lemma not_dir_true (o : option node) : not_dir o = true ↔ o ≠ Some Dir.
Proof. destruct o as [[|]|]; cbn; split; congruence. Qed.

Lemma free_or_dir_true (o : option node) :
  free_or_dir o = true ↔ o = None ∨ o = Some Dir.
Proof.
  destruct o as [[|]|]; cbn; split; try (intros [? | ?]); try congruence; auto.
Qed.

Lemma density_ok_spec (t : gmap path node) (out : path) (item : string * Z) :
  density_ok t out item = true ↔
    parts ("mipmap-" +:+ item.1) = ["mipmap-" +:+ item.1] ∧
    0 < item.2 ∧
    (t !! mipmap_dir out item.1 = None ∨ t !! mipmap_dir out item.1 = Some Dir) ∧
    t !! square_path out item.1 ≠ Some Dir ∧
    t !! round_path out item.1 ≠ Some Dir.
Proof.
  unfold density_ok.
  rewrite !andb_true_iff, bool_decide_eq_true, Z.ltb_lt,
    free_or_dir_true, !not_dir_true.
  split; [intros [[[[? ?] ?] ?] ?] | intros (? & ? & ? & ? & ?)]; done.
Qed.

(** ** One iteration of the density loop *)

Lemma density_body_run (s : State) (r : ref) (out : path) (item : string * Z) :
  (r < length (heap s))%nat →
  is_dir (fs s) out = true →
  density_ok (fs s) out item = true →
  density_body r out item s =
    (Ok tt,
     mkState (heap s ++ density_images (heap s !!! r) item)
             (density_fs (clock s) (umask s) (heap s !!! r) out item (fs s))
             (stdout s ++ density_lines out item)
             (clock s) (umask s)).
Proof.
  intros Hr Hout Hok.
  apply is_dir_true in Hout.
  apply density_ok_spec in Hok as (Hparts & Hn & Hdir & Hsq & Hrd).
  destruct s as [h t o c u], item as [d n].
  cbn [heap fs stdout clock umask fst snd] in Hr, Hout, Hparts, Hn, Hdir, Hsq, Hrd |- *.
  unfold density_body, joinpath. rewrite Hparts.
  change (parts "ic_launcher.png") with ["ic_launcher.png"].
  change (parts "ic_launcher_round.png") with ["ic_launcher_round.png"].
  fold (mipmap_dir out d). fold (square_path out d) (round_path out d).
  step_with Path_mkdir_run.
  step_with Image_resize_run.
  fold (square_of (h !!! r) n).
  set (t1 := ensure_dir (mipmap_dir out d) t).
  assert (Hd1 : node_at t1 (mipmap_dir out d) = Some Dir).
  { unfold t1, mipmap_dir, ensure_dir. rewrite node_at_snoc, lookup_update_at, decide_True by done.
    fold (mipmap_dir out d). destruct Hdir as [E | E]; by rewrite E. }
  assert (Hs1 : t1 !! square_path out d ≠ Some Dir).
  { unfold t1, ensure_dir. rewrite lookup_update_at, decide_False; [done|].
    unfold square_path. intros E. symmetry in E. by apply snoc_ne_self in E. }
  erewrite run_bind_ok; cycle 1.
  { apply Image_save_run; cbn [fs]; done. }
  cbn [set_fs heap fs stdout clock umask]. rewrite lookup_total_new.
  step_with print_run.
  set (t2 := put_file c u (square_path out d) (encode "PNG" (square_of (h !!! r) n)) t1).
  assert (Hd2 : node_at t2 (mipmap_dir out d) = Some Dir).
  { unfold t2, put_file, square_path. by rewrite node_at_update_below. }
  assert (Hr2 : t2 !! round_path out d ≠ Some Dir).
  { unfold t2, put_file. rewrite lookup_update_at, decide_False.
    - unfold t1, ensure_dir. rewrite lookup_update_at, decide_False; [done|].
      unfold round_path. intros E. symmetry in E. by apply snoc_ne_self in E.
    - unfold square_path, round_path. intros E. by apply app_inv_head in E. }
  erewrite run_bind_ok; cycle 1.
  { apply create_round_icon_run; cbn [heap]; rewrite ?lookup_total_new; cbn.
    - rewrite length_app. cbn. lia.
    - lia.
    - lia. }
  cbn [set_heap heap fs stdout clock umask]. rewrite lookup_total_new.
  change (im_size (square_of (h !!! r) n)) with (n, n).
  erewrite run_bind_ok; cycle 1.
  { apply Image_save_run; cbn [fs]; done. }
  cbn [set_fs heap fs stdout clock umask].
  unfold set_heap, set_fs. cbn [heap fs stdout clock umask].
  rewrite lookup_total_second.
  unfold print, set_stdout, density_images, density_lines, density_fs.
  cbn [heap fs stdout clock umask fst snd].
  rewrite <- !(assoc_L (++)). reflexivity.
Qed.

(** ** The density loop *)

Lemma mipmap_name_inj (d d' : string) : "mipmap-" +:+ d = "mipmap-" +:+ d' → d = d'.
Proof. intros H. cbn in H. by simplify_eq. Qed.

Lemma mipmap_dir_prefix (out : path) (d d' : string) (l : list string) :
  mipmap_dir out d `prefix_of` mipmap_dir out d' ++ l → d = d'.
Proof.
  intros [k Hk]. unfold mipmap_dir in Hk.
  rewrite <- !(assoc_L (++)) in Hk. apply app_inv_head in Hk.
  cbn [app] in Hk. assert (Hn : "mipmap-" +:+ d' = "mipmap-" +:+ d) by congruence.
  symmetry. by apply mipmap_name_inj.
Qed.

Lemma mipmap_dir_not_prefix_out (out : path) (d : string) :
  ¬ mipmap_dir out d `prefix_of` out.
Proof.
  intros H. apply prefix_length in H. unfold mipmap_dir in H.
  rewrite length_app in H. cbn in H. lia.
Qed.

(** An iteration only touches paths at or below its own mipmap directory. *)
Lemma density_fs_lookup_other (c u : Z) (src : image) (out : path)
    (item : string * Z) (t : gmap path node) (q : path) :
  ¬ mipmap_dir out item.1 `prefix_of` q →
  density_fs c u src out item t !! q = t !! q.
Proof.
  intros Hq. unfold density_fs, put_file, ensure_dir.
  rewrite !lookup_update_at.
  repeat (rewrite decide_False; [|intros <-; apply Hq]); [done|..].
  - done.
  - by apply prefix_app_r.
  - by apply prefix_app_r.
Qed.

Lemma density_fs_is_dir (c u : Z) (src : image) (out : path)
    (item : string * Z) (t : gmap path node) :
  is_dir (density_fs c u src out item t) out = is_dir t out.
Proof.
  unfold is_dir. destruct out as [|a out]; [done|]. cbn [node_at].
  rewrite density_fs_lookup_other; [done|]. apply mipmap_dir_not_prefix_out.
Qed.

Lemma density_fs_ok_other (c u : Z) (src : image) (out : path)
    (item item' : string * Z) (t : gmap path node) :
  item.1 ≠ item'.1 →
  density_ok (density_fs c u src out item t) out item' = density_ok t out item'.
Proof.
  intros Hne. unfold density_ok, square_path, round_path.
  rewrite <- (app_nil_r (mipmap_dir out item'.1)) at 1 4.
  rewrite !density_fs_lookup_other; [done|..];
    intros H%mipmap_dir_prefix; done.
Qed.

Lemma foreach_density_run (r : ref) (out : path) (items : list (string * Z)) (s : State) :
  (r < length (heap s))%nat →
  NoDup items.*1 →
  writable (fs s) out items = true →
  foreach items (density_body r out) s =
    (Ok tt,
     mkState (heap s ++ concat (density_images (heap s !!! r) <$> items))
             (loop_fs (clock s) (umask s) (heap s !!! r) out items (fs s))
             (stdout s ++ concat (density_lines out <$> items))
             (clock s) (umask s)).
Proof.
  unfold writable. rewrite andb_true_iff.
  revert s. induction items as [|item items IH]; intros s Hr Hnd [Hout Hok].
  - cbn. rewrite !app_nil_r. by destruct s.
  - cbn [forallb] in Hok. apply andb_true_iff in Hok as [Hok1 Hok].
    apply NoDup_cons in Hnd as [Hnotin Hnd].
    cbn [foreach].
    erewrite run_bind_ok by (by apply density_body_run).
    rewrite IH; cbn [heap fs stdout clock umask].
    + rewrite lookup_total_old by done.
      cbn [fmap list_fmap concat loop_fs foldl].
      by rewrite <- !(assoc_L (++)).
    + rewrite length_app. lia.
    + done.
    + split; [by rewrite density_fs_is_dir|].
      apply forallb_forall. intros item' Hin.
      rewrite density_fs_ok_other.
      * rewrite forallb_forall in Hok. by apply Hok.
      * intros E. apply Hnotin. rewrite E.
        apply list_elem_of_fmap_2, list_elem_of_In, Hin.
Qed.

(** ** What the loop leaves in the file system *)

Lemma square_ne_round (out : path) (d : string) : square_path out d ≠ round_path out d.
Proof. unfold square_path, round_path. intros E. by apply app_inv_head in E. Qed.

Lemma mipmap_ne_square (out : path) (d : string) : mipmap_dir out d ≠ square_path out d.
Proof. unfold square_path. intros E. symmetry in E. by apply snoc_ne_self in E. Qed.

Lemma mipmap_ne_round (out : path) (d : string) : mipmap_dir out d ≠ round_path out d.
Proof. unfold round_path. intros E. symmetry in E. by apply snoc_ne_self in E. Qed.

Lemma density_fs_lookup (c u : Z) (src : image) (out : path) (item : string * Z)
    (t : gmap path node) (q : path) :
  density_fs c u src out item t !! q =
    if decide (q = round_path out item.1)
    then Some (written c u (encode "PNG" (round_of (square_of src item.2)))
                 (t !! round_path out item.1))
    else if decide (q = square_path out item.1)
    then Some (written c u (encode "PNG" (square_of src item.2))
                 (t !! square_path out item.1))
    else if decide (q = mipmap_dir out item.1)
    then Some (default Dir (t !! mipmap_dir out item.1))
    else t !! q.
Proof.
  pose proof (square_ne_round out item.1).
  pose proof (mipmap_ne_square out item.1).
  pose proof (mipmap_ne_round out item.1).
  unfold density_fs, put_file, ensure_dir.
  rewrite !lookup_update_at.
  repeat case_decide; try congruence.
Qed.

Lemma density_fs_lookup_ext (c u : Z) (src : image) (out : path) (item : string * Z)
    (t1 t2 : gmap path node) (q : path) :
  (∀ q', mipmap_dir out item.1 `prefix_of` q' → t1 !! q' = t2 !! q') →
  mipmap_dir out item.1 `prefix_of` q →
  density_fs c u src out item t1 !! q = density_fs c u src out item t2 !! q.
Proof.
  intros Hext Hq. rewrite !density_fs_lookup.
  rewrite !Hext; [done|..]; try done.
  - by apply prefix_app_r.
  - by apply prefix_app_r.
Qed.

Lemma loop_fs_cons (c u : Z) (src : image) (out : path) (item : string * Z)
    (items : list (string * Z)) (t : gmap path node) :
  loop_fs c u src out (item :: items) t =
    loop_fs c u src out items (density_fs c u src out item t).
Proof. reflexivity. Qed.

Lemma loop_fs_lookup_other (c u : Z) (src : image) (out : path)
    (items : list (string * Z)) (t : gmap path node) (q : path) :
  (∀ item, item ∈ items → ¬ mipmap_dir out item.1 `prefix_of` q) →
  loop_fs c u src out items t !! q = t !! q.
Proof.
  revert t. induction items as [|item items IH]; intros t Hq; [done|].
  rewrite loop_fs_cons, IH.
  - apply density_fs_lookup_other, Hq. by left.
  - intros item' Hin. apply Hq. by right.
Qed.

Lemma loop_fs_lookup_in (c u : Z) (src : image) (out : path)
    (items : list (string * Z)) (item : string * Z) (t : gmap path node) (q : path) :
  NoDup items.*1 → item ∈ items →
  mipmap_dir out item.1 `prefix_of` q →
  loop_fs c u src out items t !! q = density_fs c u src out item t !! q.
Proof.
  revert t. induction items as [|i items IH]; intros t Hnd Hin Hq.
  { by apply elem_of_nil in Hin. }
  cbn [fmap list_fmap] in Hnd. apply NoDup_cons in Hnd as [Hni Hnd].
  rewrite loop_fs_cons.
  apply elem_of_cons in Hin as [-> | Hin].
  - apply loop_fs_lookup_other. intros item' Hin' Hpre.
    apply Hni. apply list_elem_of_fmap. exists item'. split; [|done].
    destruct Hq as [k ->]. by apply mipmap_dir_prefix in Hpre.
  - rewrite IH by done.
    apply density_fs_lookup_ext; [|done].
    intros q' Hq'. apply density_fs_lookup_other. intros Hpre.
    apply Hni. apply list_elem_of_fmap. exists item. split; [|done].
    destruct Hq' as [k ->]. by apply mipmap_dir_prefix in Hpre.
Qed.

Lemma loop_fs_is_dir (c u : Z) (src : image) (out : path)
    (items : list (string * Z)) (t : gmap path node) :
  is_dir (loop_fs c u src out items t) out = is_dir t out.
Proof.
  revert t. induction items as [|item items IH]; intros t; [done|].
  by rewrite loop_fs_cons, IH, density_fs_is_dir.
Qed.

(** ** Loading the source *)

Lemma source_ref_valid (h : list image) (im : image) :
  (source_ref h im < length (h ++ source_objects im))%nat.
Proof.
  unfold source_ref, source_objects. rewrite length_app.
  case_decide; cbn; lia.
Qed.

Lemma source_ref_lookup (h : list image) (im : image) :
  (h ++ source_objects im) !!! source_ref h im = normalize im.
Proof.
  unfold source_ref, source_objects, normalize. case_decide.
  - apply lookup_total_second.
  - apply lookup_total_new.
Qed.

Lemma load_source_run (p : path) (s : State) (im : image) :
  loadable (fs s) p = Some im →
  load_source p s =
    (Ok (Mem (source_ref (heap s) im)), set_heap (heap s ++ source_objects im) s).
Proof.
  unfold loadable. intros Hl.
  destruct (node_at (fs s) p) as [[|d st]|] eqn:Hp; try done.
  destruct s as [h t o c u]. cbn [fs heap] in Hp, Hl |- *.
  unfold load_source, Image_open.
  rewrite !run_bind. unfold read_file at 1. cbn [fs]. rewrite Hp, Hl.
  rewrite run_bind. unfold alloc at 1. cbn [heap ret].
  unfold Image_mode at 1. rewrite !run_bind. cbn [deref set_heap heap ret].
  rewrite lookup_total_new.
  unfold source_ref, source_objects. case_decide.
  - unfold Image_convert. rewrite !run_bind. cbn [deref heap].
    unfold alloc, set_heap, ret. cbn [heap fs stdout clock umask].
    rewrite lookup_total_new.
    rewrite length_app, <- (assoc_L (++)). cbn. by rewrite Nat.add_1_r.
  - reflexivity.
Qed.

(** The three ways a source can be: it decodes, its header alone parses,
    or it does not open as an image. *)
Lemma undecodable_not_loadable (t : gmap path node) (p : path) (hd : string * (Z * Z)) :
  undecodable t p = Some hd → loadable t p = None.
Proof.
  unfold undecodable, loadable.
  destruct (node_at t p) as [[|d st]|]; try done. by destruct (decode d).
Qed.

Lemma load_source_fails (p : path) (s : State) :
  try_fails (fs s) p →
  ∃ e, load_source p s = (Raise e, s) ∧ is_Exception e = true.
Proof.
  unfold try_fails, loadable, undecodable. intros [Hl Hu].
  unfold load_source, Image_open.
  rewrite !run_bind. unfold read_file at 1.
  destruct (node_at (fs s) p) as [[|d st]|] eqn:Hp.
  - by exists IsADirectoryError.
  - rewrite Hl in Hu |- *. destruct (header d) as [[m sz]|] eqn:Hh.
    + cbn [ret Image_mode]. rewrite run_bind. cbn [ret]. case_decide as Hm.
      * by exists OSError.
      * destruct (decide (m = "RGBA")) as [->|Hne]; [|by destruct Hm].
        by destruct (Hu sz).
    + by exists UnidentifiedImageError.
  - by exists FileNotFoundError.
Qed.

(** An RGBA file whose pixel data does not decode passes the [try] block:
    nothing in it needs the pixel data. *)
Lemma load_source_undecodable (p : path) (s : State) (sz : Z * Z) :
  undecodable (fs s) p = Some ("RGBA", sz) →
  load_source p s = (Ok (Undecodable "RGBA" sz), s).
Proof.
  unfold undecodable. intros Hu.
  unfold load_source, Image_open.
  rewrite !run_bind. unfold read_file at 1.
  destruct (node_at (fs s) p) as [[|d st]|] eqn:Hp; try done.
  destruct (decode d); [done|]. rewrite Hu.
  cbn [ret Image_mode]. rewrite run_bind. cbn [ret].
  by rewrite decide_False by (by intros []).
Qed.

Lemma source_cases (t : gmap path node) (p : path) :
  (∃ im, loadable t p = Some im) ∨ (∃ sz, undecodable t p = Some ("RGBA", sz))
  ∨ try_fails t p.
Proof.
  destruct (loadable t p) as [im|] eqn:Hl; [left; by eexists|]. right.
  destruct (undecodable t p) as [[m sz]|] eqn:Hu.
  - destruct (decide (m = "RGBA")) as [->|Hne]; [left; by eexists|].
    right. split; [done|]. intros sz' E. by simplify_eq.
  - right. split; [done|]. intros sz. by rewrite Hu.
Qed.

(** ** [generate_icons] *)

Lemma densities_NoDup : NoDup densities.*1.
Proof. compute_done. Qed.

Lemma generate_icons_fails (p out : path) (s : State) :
  try_fails (fs s) p →
  ∃ e, generate_icons p out s =
         (Ok false, set_stdout (stdout s ++ [LoadingSource p; CouldNotLoad p e]) s).
Proof.
  intros Hl.
  destruct (load_source_fails p (set_stdout (stdout s ++ [LoadingSource p]) s) Hl)
    as (e & He & Hexc).
  exists e. unfold generate_icons.
  rewrite run_bind, print_run, run_bind. unfold try_except at 1.
  rewrite run_bind, He, Hexc, run_bind, print_run.
  destruct s as [h t o c u]. unfold ret, set_stdout. cbn [heap fs stdout clock umask].
  by rewrite <- (assoc_L (++)).
Qed.

(** With an RGBA source whose pixel data does not decode the loop is
    entered: the first [mkdir] runs, and the first [resize] then raises. *)
Lemma generate_icons_undecodable (p out : path) (s : State) (sz : Z * Z) :
  undecodable (fs s) p = Some ("RGBA", sz) →
  generate_icons p out s =
    match Path_mkdir (out // "mipmap-mdpi") true true
            (set_stdout (stdout s ++ [LoadingSource p; SourceSize sz; Text ""]) s) with
    | (Ok _, s1) => (Raise OSError, s1)
    | (Raise e, s1) => (Raise e, s1)
    end.
Proof.
  intros Hu. unfold generate_icons.
  rewrite run_bind, print_run, run_bind. unfold try_except at 1.
  rewrite run_bind.
  rewrite (load_source_undecodable p _ sz) by done.
  cbn [ret Image_size]. rewrite run_bind. unfold ret at 1. cbv beta iota.
  rewrite run_bind, print_run, run_bind, print_run, run_bind.
  unfold densities at 1. cbn [foreach]. rewrite run_bind.
  unfold density_body at 1. rewrite run_bind.
  change ("mipmap-" +:+ "mdpi") with "mipmap-mdpi".
  replace (set_stdout _ (set_stdout _ (set_stdout _ s)))
    with (set_stdout (stdout s ++ [LoadingSource p; SourceSize sz; Text ""]) s)
    by (destruct s; unfold set_stdout; cbn; by rewrite <- !(assoc_L (++))).
  destruct (Path_mkdir _ true true _) as [[[]|e] s1]; [|done].
  by rewrite run_bind.
Qed.

Lemma generate_icons_succeeds (p out : path) (s : State) (im : image) :
  loadable (fs s) p = Some im →
  writable (fs s) out densities = true →
  generate_icons p out s =
    (Ok true,
     mkState (heap s ++ source_objects im
                ++ concat (density_images (normalize im) <$> densities))
             (loop_fs (clock s) (umask s) (normalize im) out densities (fs s))
             (stdout s ++ success_lines p out (normalize im))
             (clock s) (umask s)).
Proof.
  intros Hl Hw. destruct s as [h t o c u]. cbn [heap fs stdout clock umask] in Hl, Hw |- *.
  unfold generate_icons.
  rewrite run_bind, print_run, run_bind. unfold try_except at 1.
  rewrite run_bind.
  unfold set_stdout. cbn [heap fs stdout clock umask].
  rewrite (load_source_run p _ im) by done.
  unfold set_heap. cbn [heap fs stdout clock umask ret].
  step_with Image_size_run. rewrite source_ref_lookup.
  step_with print_run.
  step_with print_run.
  erewrite run_bind_ok; cycle 1.
  { apply foreach_density_run; cbn [heap fs].
    - apply source_ref_valid.
    - apply densities_NoDup.
    - done. }
  cbn [heap fs stdout clock umask]. rewrite source_ref_lookup.
  step_with print_run.
  step_with print_run.
  unfold ret, success_lines.
  by rewrite <- !(assoc_L (++)).
Qed.

Lemma loop_fs_outputs (c u : Z) (src : image) (out : path)
    (items : list (string * Z)) (item : string * Z) (t : gmap path node) :
  NoDup items.*1 → item ∈ items →
  let t' := loop_fs c u src out items t in
  t' !! mipmap_dir out item.1 = Some (default Dir (t !! mipmap_dir out item.1)) ∧
  t' !! square_path out item.1 =
    Some (written c u (encode "PNG" (square_of src item.2)) (t !! square_path out item.1)) ∧
  t' !! round_path out item.1 =
    Some (written c u (encode "PNG" (round_of (square_of src item.2)))
            (t !! round_path out item.1)).
Proof.
  intros Hnd Hin.
  pose proof (square_ne_round out item.1).
  pose proof (mipmap_ne_square out item.1).
  pose proof (mipmap_ne_round out item.1).
  cbn zeta. repeat split.
  - rewrite (loop_fs_lookup_in _ _ _ _ _ item) by done.
    rewrite density_fs_lookup. repeat case_decide; congruence.
  - rewrite (loop_fs_lookup_in _ _ _ _ _ item) by (done || by apply prefix_app_r).
    rewrite density_fs_lookup. repeat case_decide; congruence.
  - rewrite (loop_fs_lookup_in _ _ _ _ _ item) by (done || by apply prefix_app_r).
    rewrite density_fs_lookup. repeat case_decide; congruence.
Qed.

Lemma writable_item (t : gmap path node) (out : path) (items : list (string * Z))
    (item : string * Z) :
  writable t out items = true → item ∈ items →
  is_dir t out = true ∧ density_ok t out item = true.
Proof.
  unfold writable. rewrite andb_true_iff, forallb_forall.
  intros [Hd Hall] Hin. split; [done|]. by apply Hall, list_elem_of_In.
Qed.

(** For a density of the table the paths the loop computes with [/] are
    those of the denotation. *)
Lemma density_paths (t : gmap path node) (out : path) (item : string * Z) :
  density_ok t out item = true →
  out // ("mipmap-" +:+ item.1) = mipmap_dir out item.1 ∧
  out // ("mipmap-" +:+ item.1) // "ic_launcher.png" = square_path out item.1 ∧
  out // ("mipmap-" +:+ item.1) // "ic_launcher_round.png" = round_path out item.1.
Proof.
  intros (Hparts & _)%density_ok_spec.
  unfold joinpath. by rewrite Hparts.
Qed.

(** ** The round icon *)

Lemma round_mask_band (sz : Z * Z) (x y : Z) :
  im_band (round_mask sz) 0 x y =
    if in_bounds sz x y && ellipse_covers (tuple_add (0, 0) sz) x y then 255 else 0.
Proof. reflexivity. Qed.

Lemma round_of_alpha (sq : image) (x y : Z) :
  im_band (round_of sq) 3 x y = im_band (round_mask (im_size sq)) 0 x y.
Proof. reflexivity. Qed.

Lemma round_of_colour (sq : image) (k : nat) (x y : Z) :
  k ≠ 3%nat → in_bounds (im_size sq) x y = true →
  im_band (round_of sq) k x y = im_band (convert_image sq "RGBA") k x y.
Proof.
  intros Hk Hin. unfold round_of, putband, paste_image. cbn.
  destruct (decide (k = 3%nat)); [done|].
  rewrite !Z.sub_0_r, Hin. reflexivity.
Qed.

Lemma centre_in_bounds (sz : Z * Z) :
  0 < sz.1 → 0 < sz.2 → in_bounds sz (sz.1 / 2) (sz.2 / 2) = true.
Proof.
  intros Hw Hh. unfold in_bounds.
  assert (0 ≤ sz.1 / 2 < sz.1) by (split; [apply Z.div_pos | apply Z.div_lt]; lia).
  assert (0 ≤ sz.2 / 2 < sz.2) by (split; [apply Z.div_pos | apply Z.div_lt]; lia).
  repeat (apply andb_true_intro; split); lia.
Qed.

(** Whatever the rasteriser: for a square image [sq] of size [(w, h)],
    [create_round_icon] returns a new RGBA image of the same size.  Its alpha
    band is exactly the single-band mask the function draws (the square
    image's own alpha plays no part): 255 on the pixels the rasteriser fills
    for the bounding box [(0, 0, w, h)] and 0 on all others.  Its colour
    bands are those of the square image. *)
Lemma create_round_icon_alpha (s : State) (sq : ref) :
  (sq < length (heap s))%nat →
  0 ≤ (im_size (heap s !!! sq)).1 →
  0 ≤ (im_size (heap s !!! sq)).2 →
  ∃ (r : ref) (s' : State),
    create_round_icon sq s = (Ok r, s') ∧
    let im := heap s !!! sq in
    let w := (im_size im).1 in
    let h := (im_size im).2 in
    let mask := heap s' !!! length (heap s) in
    let out := heap s' !!! r in
    im_mode out = "RGBA" ∧
    im_size out = im_size im ∧
    nbands (im_mode mask) = 1%nat ∧
    im_size mask = im_size im ∧
    (∀ x y, in_bounds (im_size im) x y = true →
       im_band mask 0 x y = (if ellipse_covers (0, 0, w, h) x y then 255 else 0)) ∧
    (∀ x y, im_band out 3 x y = im_band mask 0 x y) ∧
    (∀ k x y, k ≠ 3%nat → in_bounds (im_size im) x y = true →
       im_band out k x y = im_band (convert_image im "RGBA") k x y) ∧
    (∀ x y, in_bounds (im_size im) x y = true →
       ellipse_covers (0, 0, w, h) x y = false → im_band out 3 x y = 0) ∧
    (0 < w → 0 < h → ellipse_covers (0, 0, w, h) (w / 2) (h / 2) = true →
       im_band out 3 (w / 2) (h / 2) = 255).
Proof.
  intros Hsq Hw Hh.
  eexists _, _. split; [by apply create_round_icon_run|].
  cbn [set_heap heap].
  rewrite lookup_total_new, lookup_total_second.
  set (im := heap s !!! sq).
  assert (Hmask : ∀ x y, in_bounds (im_size im) x y = true →
            im_band (round_mask (im_size im)) 0 x y =
              (if ellipse_covers (0, 0, (im_size im).1, (im_size im).2) x y
               then 255 else 0)).
  { intros x y Hin. rewrite round_mask_band, Hin. reflexivity. }
  repeat split; try done.
  - intros k x y Hk Hin. by apply round_of_colour.
  - intros x y Hin Hout. rewrite round_of_alpha, Hmask, Hout; done.
  - intros Hw' Hh' Hc. rewrite round_of_alpha, Hmask, Hc; [done|].
    by apply centre_in_bounds.
Qed.

(** ** The icons written by [generate_icons] *)

Lemma generate_icons_outputs (p out : path) (s : State) (im : image) (item : string * Z) :
  loadable (fs s) p = Some im →
  writable (fs s) out densities = true →
  item ∈ densities →
  let t' := fs (generate_icons p out s).2 in
  let sq := square_of (normalize im) item.2 in
  is_dir t' (mipmap_dir out item.1) = true ∧
  t' !! square_path out item.1 =
    Some (written (clock s) (umask s) (encode "PNG" sq) (fs s !! square_path out item.1)) ∧
  t' !! round_path out item.1 =
    Some (written (clock s) (umask s) (encode "PNG" (round_of sq))
            (fs s !! round_path out item.1)).
Proof.
  intros Hl Hw Hin. rewrite (generate_icons_succeeds p out s im) by done.
  cbn [snd fs].
  destruct (loop_fs_outputs (clock s) (umask s) (normalize im) out densities item (fs s)
              densities_NoDup Hin) as (Hd & Hs & Hr).
  destruct (writable_item _ _ _ _ Hw Hin) as [_ Hok].
  apply density_ok_spec in Hok as (_ & _ & Hfree & _).
  repeat split; try done.
  apply is_dir_true. unfold mipmap_dir at 1. rewrite node_at_snoc.
  fold (mipmap_dir out item.1). rewrite Hd.
  by destruct Hfree as [-> | ->].
Qed.

(** C2. When the source loads and nothing obstructs the output, then for
    each of the five densities [generate_icons] resizes the normalised
    source with the LANCZOS filter to exactly [(edge, edge)] pixels and leaves
    that image, PNG-encoded and stamped with the time of the run, at
    [mipmap-<density>/ic_launcher.png] under the output root, whatever file
    was there before. *)
Theorem generate_icons_square_icons (p out : path) (s : State) (im : image) :
  loadable (fs s) p = Some im →
  writable (fs s) out densities = true →
  ∃ s', generate_icons p out s = (Ok true, s') ∧
    ∀ density edge, (density, edge) ∈ densities →
      let square_resized := resize_image (normalize im) (edge, edge) LANCZOS in
      im_size square_resized = (edge, edge) ∧
      is_dir (fs s') (out // ("mipmap-" +:+ density)) = true ∧
      ∃ st, fs s' !! (out // ("mipmap-" +:+ density) // "ic_launcher.png")
              = Some (File (encode "PNG" square_resized) st)
            ∧ st_mtime st = clock s.
Proof.
  intros Hl Hw. eexists. split; [by apply generate_icons_succeeds|].
  intros d n Hin.
  destruct (generate_icons_outputs p out s im (d, n) Hl Hw Hin) as (Hd & Hs & _).
  rewrite (generate_icons_succeeds p out s im) in Hd, Hs by done.
  cbn [fst snd fs] in Hd, Hs.
  destruct (writable_item _ _ _ _ Hw Hin) as [_ Hok].
  destruct (density_paths _ _ _ Hok) as (Hp1 & Hp2 & _). cbn [fst] in Hp1, Hp2.
  rewrite Hp2, Hp1. cbn [fs].
  repeat split; [done|].
  rewrite Hs. unfold written, square_of.
  destruct (fs s !! square_path out d) as [[|? ?]|]; by eexists.
Qed.

(** C3. The density table has exactly the five entries mdpi 48, hdpi 72,
    xhdpi 96, xxhdpi 144, xxxhdpi 192, in this order and with strictly
    increasing edges, and a run of [generate_icons] goes through them in
    this order: the two progress lines of each density are printed, and its
    three image objects allocated, in table order. *)
Theorem densities_fixed_order (p out : path) (s : State) (im : image) :
  loadable (fs s) p = Some im →
  writable (fs s) out densities = true →
  densities = [("mdpi", 48); ("hdpi", 72); ("xhdpi", 96); ("xxhdpi", 144); ("xxxhdpi", 192)] ∧
  length densities = 5%nat ∧
  (∀ i j a b, (i < j)%nat → densities !! i = Some a → densities !! j = Some b → a.2 < b.2) ∧
  ∃ s', generate_icons p out s = (Ok true, s') ∧
    stdout s' =
      stdout s ++ [LoadingSource p; SourceSize (im_size (normalize im)); Text ""]
        ++ concat ((λ item, [Created (square_path out item.1) item.2 item.2;
                              Created (round_path out item.1) item.2 item.2])
                     <$> [("mdpi", 48); ("hdpi", 72); ("xhdpi", 96);
                          ("xxhdpi", 144); ("xxxhdpi", 192)])
        ++ [Text ""; Text "SUCCESS! All Android icons generated."] ∧
    heap s' =
      heap s ++ source_objects im
        ++ concat (density_images (normalize im)
                     <$> [("mdpi", 48); ("hdpi", 72); ("xhdpi", 96);
                          ("xxhdpi", 144); ("xxxhdpi", 192)]).
Proof.
  intros Hl Hw. repeat split.
  - intros i j a b Hij Hi Hj.
    do 5 (destruct i as [|i]; [do 5 (destruct j as [|j]; [cbn in Hi, Hj; simplify_eq; cbn; lia|]);
                               by cbn in Hj|]).
    by cbn in Hi.
  - eexists. split; [by apply generate_icons_succeeds|]. done.
Qed.

(** C4. Whatever the pixel format of the decoded source, the image that is
    resized is 4-band RGBA: a source whose mode has no alpha channel is first
    converted to RGBA.  Hence every square icon, being resized from it, and
    every round icon written is RGBA. *)
Theorem generate_icons_rgba (p out : path) (s : State) (im : image) :
  loadable (fs s) p = Some im →
  writable (fs s) out densities = true →
  ∃ s', generate_icons p out s = (Ok true, s') ∧
    let src := normalize im in
    im_mode src = "RGBA" ∧
    nbands (im_mode src) = 4%nat ∧
    (has_alpha (im_mode im) = false → src = convert_image im "RGBA") ∧
    ∀ density edge, (density, edge) ∈ densities →
      ∃ square round st1 st2,
        square = resize_image src (edge, edge) LANCZOS ∧
        round = round_of square ∧
        im_mode square = "RGBA" ∧
        im_mode round = "RGBA" ∧
        fs s' !! (out // ("mipmap-" +:+ density) // "ic_launcher.png")
          = Some (File (encode "PNG" square) st1) ∧
        fs s' !! (out // ("mipmap-" +:+ density) // "ic_launcher_round.png")
          = Some (File (encode "PNG" round) st2).
Proof.
  intros Hl Hw. eexists. split; [by apply generate_icons_succeeds|].
  assert (Hmode : im_mode (normalize im) = "RGBA").
  { unfold normalize, convert_image. repeat case_decide; done. }
  cbn zeta. split; [done|]. split; [by rewrite Hmode|]. split.
  { intros Ha. unfold normalize. case_decide as Hm; [done|].
    destruct (decide (im_mode im = "RGBA")) as [E|]; [|done].
    rewrite E in Ha. done. }
  intros d n Hin.
  destruct (generate_icons_outputs p out s im (d, n) Hl Hw Hin) as (_ & Hs & Hr).
  rewrite (generate_icons_succeeds p out s im) in Hs, Hr by done.
  cbn [fst snd fs] in Hs, Hr.
  destruct (writable_item _ _ _ _ Hw Hin) as [_ Hok].
  destruct (density_paths _ _ _ Hok) as (_ & Hp2 & Hp3). cbn [fst] in Hp2, Hp3.
  cbn [fs]. rewrite Hp2, Hp3, Hs, Hr. unfold written, square_of.
  eexists _, _, _, _. repeat split; done.
Qed.

(** When the [try] block fails (the path is missing, is a directory, holds
    bytes that are no image, or holds an image that is not RGBA and whose
    pixel data does not decode), [generate_icons] returns false having only
    printed: the file system and the image store are exactly as before. *)
Lemma generate_icons_failure_frame (p out : path) (s : State) :
  try_fails (fs s) p →
  ∃ s', generate_icons p out s = (Ok false, s') ∧
    fs s' = fs s ∧ heap s' = heap s ∧
    ∃ e, stdout s' = stdout s ++ [LoadingSource p; CouldNotLoad p e].
Proof.
  intros Hl. destruct (generate_icons_fails p out s Hl) as [e He].
  eexists. split; [exact He|]. repeat split. by exists e.
Qed.

(** ** The outcome of [generate_icons] and the orchestrator's checks *)

Lemma generate_icons_loaded_outcome (p out : path) (s s' : State) (im : image) (v : bool) :
  loadable (fs s) p = Some im →
  generate_icons p out s = (Ok v, s') → v = true.
Proof.
  intros Hl. unfold generate_icons.
  rewrite run_bind, print_run, run_bind. unfold try_except at 1.
  rewrite run_bind.
  rewrite (load_source_run p _ im) by done.
  cbn [ret]. rewrite run_bind, Image_size_run.
  rewrite run_bind, print_run, run_bind, print_run, run_bind.
  match goal with
  | |- context [foreach ?l ?b ?st] => destruct (foreach l b st) as [[[]|e] s2]
  end.
  - rewrite run_bind, print_run, run_bind, print_run. by intros [= <- _].
  - by intros [=].
Qed.

(** What a returned value tells about the source. *)
Lemma generate_icons_returns (p out : path) (s s' : State) (v : bool) :
  generate_icons p out s = (Ok v, s') →
  if v then is_Some (loadable (fs s) p) else try_fails (fs s) p.
Proof.
  intros Hrun.
  destruct (source_cases (fs s) p) as [[im Hl]|[[sz Hu]|Hf]].
  - rewrite (generate_icons_loaded_outcome p out s s' im v Hl Hrun). by exists im.
  - rewrite (generate_icons_undecodable p out s sz Hu) in Hrun.
    by destruct (Path_mkdir _ true true _) as [[[]|e] s1].
  - destruct (generate_icons_fails p out s Hf) as [e He].
    rewrite He in Hrun. by injection Hrun as <- _.
Qed.

Lemma banner_run (title : string) (s : State) :
  banner title s =
    (Ok tt, set_stdout (stdout s ++
       [Text "============================================================";
        Text title;
        Text "============================================================"]) s).
Proof.
  unfold banner. rewrite run_bind, print_run, run_bind, print_run, print_run.
  destruct s as [h t o c u]. unfold set_stdout. cbn [heap fs stdout clock umask].
  by rewrite <- !(assoc_L (++)).
Qed.

Lemma main_missing_icon (script : path) (s : State) :
  path_exists (fs s) (source_icon_path script) = false →
  main script s =
    (Raise (SystemExit 1),
     set_stdout (stdout (checked s) ++ [IconNotFound (source_icon_path script)]) (checked s)).
Proof.
  intros Hex. unfold main.
  fold (source_icon_path script) (android_res_path script) (manual_fix_path script).
  rewrite run_bind, banner_run, run_bind, print_run.
  rewrite run_bind. unfold Path_exists at 1.
  replace (set_stdout _ (set_stdout _ s)) with (checked s)
    by (destruct s; unfold checked, set_stdout; cbn; by rewrite <- !(assoc_L (++))).
  change (fs (checked s)) with (fs s). rewrite Hex. cbn [negb].
  rewrite !run_bind, print_run. reflexivity.
Qed.

Lemma main_missing_res (script : path) (s : State) :
  path_exists (fs s) (source_icon_path script) = true →
  path_exists (fs s) (android_res_path script) = false →
  ∃ s', main script s = (Raise (SystemExit 1), s') ∧ fs s' = fs s ∧ heap s' = heap s.
Proof.
  intros Hex Hres. unfold main.
  fold (source_icon_path script) (android_res_path script) (manual_fix_path script).
  rewrite run_bind, banner_run, run_bind, print_run.
  rewrite run_bind. unfold Path_exists at 1.
  replace (set_stdout _ (set_stdout _ s)) with (checked s)
    by (destruct s; unfold checked, set_stdout; cbn; by rewrite <- !(assoc_L (++))).
  change (fs (checked s)) with (fs s). rewrite Hex. cbn [negb].
  rewrite run_bind. cbn [ret]. rewrite run_bind. unfold Path_exists at 1.
  change (fs (checked s)) with (fs s). rewrite Hres. cbn [negb].
  rewrite !run_bind, !print_run.
  eexists. split; [reflexivity|]. by destruct s.
Qed.

Lemma main_checked (script : path) (s : State) :
  path_exists (fs s) (source_icon_path script) = true →
  path_exists (fs s) (android_res_path script) = true →
  main script s =
    match generate_icons (source_icon_path script) (android_res_path script) (checked s) with
    | (Ok true, s1) =>
        ((fix_found ← Path_exists (manual_fix_path script);
          (if (fix_found : bool)
           then copy_xml_resources (manual_fix_path script) (android_res_path script)
           else print (Text "Note: android-resources-manual-fix directory not found.") ;;
                print (Text "XML resources (strings.xml, styles.xml, etc.) not copied.")) ;;
          banner "  COMPLETE!" ;;
          print (Text "") ;;
          print (Text "Next steps:") ;;
          print (Text "  1. cd android") ;;
          print (Text "  2. .\gradlew clean") ;;
          print (Text "  3. .\gradlew assembleRelease") ;;
          print (Text "")) : M unit) s1
    | (Ok false, s1) => (Raise (SystemExit 1), s1)
    | (Raise e, s1) => (Raise e, s1)
    end.
Proof.
  intros Hex Hres. unfold main.
  fold (source_icon_path script) (android_res_path script) (manual_fix_path script).
  rewrite run_bind, banner_run, run_bind, print_run.
  rewrite run_bind. unfold Path_exists at 1.
  replace (set_stdout _ (set_stdout _ s)) with (checked s)
    by (destruct s; unfold checked, set_stdout; cbn; by rewrite <- !(assoc_L (++))).
  change (fs (checked s)) with (fs s). rewrite Hex. cbn [negb].
  rewrite run_bind. cbn [ret]. rewrite run_bind. unfold Path_exists at 1.
  change (fs (checked s)) with (fs s). rewrite Hres. cbn [negb].
  rewrite run_bind. cbn [ret]. rewrite run_bind.
  destruct (generate_icons _ _ (checked s)) as [[[|]|e] s1]; reflexivity.
Qed.

(** C6. If the source icon does not exist, or the destination root does
    not exist, [main] ends the process through [sys.exit(1)], a non-zero
    status, and at that point the file system is exactly as it was found:
    no directory has been created and no image written. *)
Theorem main_missing_paths_exit (script : path) (s : State) :
  path_exists (fs s) (source_icon_path script) = false
    ∨ path_exists (fs s) (android_res_path script) = false →
  ∃ s', main script s = (Raise (SystemExit 1), s') ∧
    exit_status (main script s).1 ≠ 0 ∧
    fs s' = fs s ∧ heap s' = heap s.
Proof.
  intros Hmiss.
  destruct (path_exists (fs s) (source_icon_path script)) eqn:Hex.
  - destruct Hmiss as [|Hres]; [done|].
    destruct (main_missing_res script s Hex Hres) as (s' & Hm & Hfs & Hh).
    exists s'. rewrite Hm. done.
  - rewrite (main_missing_icon script s Hex).
    eexists. split; [reflexivity|]. by destruct s.
Qed.

Lemma main_decode_failure (script : path) (s : State) :
  try_fails (fs s) (source_icon_path script) →
  ∃ s', main script s = (Raise (SystemExit 1), s') ∧ fs s' = fs s.
Proof.
  intros Hl.
  destruct (path_exists (fs s) (source_icon_path script)) eqn:Hex.
  - destruct (path_exists (fs s) (android_res_path script)) eqn:Hres.
    + rewrite main_checked by done.
      destruct (generate_icons_fails (source_icon_path script) (android_res_path script)
                  (checked s) Hl) as [e ->].
      eexists. split; [reflexivity|]. by destruct s.
    + destruct (main_missing_res script s Hex Hres) as (s' & Hm & Hfs & _). by exists s'.
  - rewrite main_missing_icon by done. eexists. split; [reflexivity|]. by destruct s.
Qed.

(** C5, as the code has it.  [generate_icons] returns false whenever
    loading fails inside its [try] block, that is, when the source cannot be
    opened as an image, or is not RGBA and its pixel data fails to decode
    during the conversion; it returns false only if the source failed to
    load or decode; and after a false [main] leaves through [sys.exit(1)].
    It returns true only if the source loaded and decoded, and it does
    return true when, in addition, nothing obstructs the output (no mipmap
    directory path is taken by a file, no icon path by a directory); a
    failing [mkdir] or [save] is not caught, and [generate_icons] then
    returns nothing. *)
Theorem generate_icons_result (p out script : path) (s : State) :
  (try_fails (fs s) p → ∃ s', generate_icons p out s = (Ok false, s')) ∧
  (∀ s', generate_icons p out s = (Ok false, s') → loadable (fs s) p = None) ∧
  (∀ s', generate_icons p out s = (Ok true, s') → is_Some (loadable (fs s) p)) ∧
  (is_Some (loadable (fs s) p) → writable (fs s) out densities = true →
     ∃ s', generate_icons p out s = (Ok true, s')) ∧
  (try_fails (fs s) (source_icon_path script) →
     ∃ s', main script s = (Raise (SystemExit 1), s') ∧
           exit_status (main script s).1 = 1).
Proof.
  split; [|split; [|split; [|split]]].
  - intros Hl. destruct (generate_icons_fails p out s Hl) as [e He]. by eexists.
  - intros s' Hrun. by destruct (generate_icons_returns p out s s' false Hrun).
  - intros s' Hrun. exact (generate_icons_returns p out s s' true Hrun).
  - intros [im Hl] Hw. eexists. by apply generate_icons_succeeds.
  - intros Hl. destruct (main_decode_failure script s Hl) as (s' & Hm & _).
    exists s'. by rewrite Hm.
Qed.

(** ** Running the generation again *)

Lemma loop_fs_writable (c u : Z) (src : image) (out : path)
    (items : list (string * Z)) (t : gmap path node) :
  NoDup items.*1 →
  writable t out items = true →
  writable (loop_fs c u src out items t) out items = true.
Proof.
  intros Hnd Hw. unfold writable. rewrite andb_true_iff, forallb_forall. split.
  - rewrite loop_fs_is_dir. by apply andb_true_iff in Hw as [? _].
  - intros item Hin%list_elem_of_In.
    destruct (writable_item _ _ _ _ Hw Hin) as [_ Hok].
    apply density_ok_spec in Hok as (Hparts & Hn & Hfree & _).
    destruct (loop_fs_outputs c u src out items item t Hnd Hin) as (Hd & Hs & Hr).
    apply density_ok_spec. rewrite Hd, Hs, Hr. repeat split; try done.
    right. by destruct Hfree as [-> | ->].
Qed.

Lemma written_again_data (c u c' u' : Z) (d : list byte) (o : option node) :
  node_data (written c' u' d (Some (written c u d o))) = node_data (written c u d o).
Proof. by destruct o as [[|? ?]|]. Qed.

Lemma written_again_same (c u : Z) (d : list byte) (o : option node) :
  written c u d (Some (written c u d o)) = written c u d o.
Proof. by destruct o as [[|? ?]|]. Qed.

Lemma loop_fs_again (c u c' u' : Z) (src : image) (out : path)
    (items : list (string * Z)) (t : gmap path node) :
  NoDup items.*1 →
  let t1 := loop_fs c u src out items t in
  node_data <$> loop_fs c' u' src out items t1 = node_data <$> t1 ∧
  loop_fs c u src out items t1 = t1.
Proof.
  intros Hnd t1.
  assert (Hcase : ∀ q,
    (∃ item, item ∈ items ∧ mipmap_dir out item.1 `prefix_of` q)
    ∨ (∀ item, item ∈ items → ¬ mipmap_dir out item.1 `prefix_of` q)).
  { intros q.
    destruct (decide (Exists (λ item, mipmap_dir out item.1 `prefix_of` q) items))
      as [Hex|Hnex].
    - left. by apply Exists_exists in Hex.
    - right. intros item Hin Hpre. apply Hnex, Exists_exists. eauto. }
  assert (Hq : ∀ c2 u2 q,
    (node_data <$> loop_fs c2 u2 src out items t1 !! q) = (node_data <$> t1 !! q)
    ∧ (c2 = c → u2 = u → loop_fs c2 u2 src out items t1 !! q = t1 !! q)).
  { intros c2 u2 q. destruct (Hcase q) as [(item & Hin & Hpre)|Hnone].
    - rewrite (loop_fs_lookup_in c2 u2 _ _ _ item) by done.
      rewrite density_fs_lookup.
      destruct (loop_fs_outputs c u src out items item t Hnd Hin) as (Hd & Hs & Hr).
      fold t1 in Hd, Hs, Hr.
      repeat case_decide; try subst q; rewrite ?Hd, ?Hs, ?Hr; cbn [fmap option_fmap option_map default].
      + split; [f_equal; apply written_again_data|].
        intros -> ->. f_equal. apply written_again_same.
      + split; [f_equal; apply written_again_data|].
        intros -> ->. f_equal. apply written_again_same.
      + done.
      + done.
    - by rewrite loop_fs_lookup_other. }
  split.
  - apply map_eq. intros q. rewrite !lookup_fmap. apply Hq.
  - apply map_eq. intros q. by apply Hq.
Qed.

(** C7. Run [generate_icons] on an output root where nothing blocks it
    (mipmap directories and icon files may already exist), then run it
    again, at any later time, on the resulting file system with the source
    icon still as it was.  The second run succeeds as well, and it leaves
    every path with the same kind and the same bytes as the first run did;
    run at the same clock and umask it leaves the very same file system. *)
Theorem generate_icons_idempotent (p out : path) (s : State) (im : image) :
  loadable (fs s) p = Some im →
  writable (fs s) out densities = true →
  ∃ s1, generate_icons p out s = (Ok true, s1) ∧
    ∀ s1', fs s1' = fs s1 →
      node_at (fs s1) p = node_at (fs s) p →
      ∃ s2, generate_icons p out s1' = (Ok true, s2) ∧
        node_data <$> fs s2 = node_data <$> fs s1 ∧
        (clock s1' = clock s → umask s1' = umask s → fs s2 = fs s1).
Proof.
  intros Hl Hw. eexists. split; [by apply generate_icons_succeeds|].
  cbn [fs]. intros s1' Hfs Hsrc.
  set (t1 := loop_fs (clock s) (umask s) (normalize im) out densities (fs s)).
  assert (Hl' : loadable (fs s1') p = Some im).
  { unfold loadable in Hl |- *. by rewrite Hfs, Hsrc. }
  assert (Hw' : writable (fs s1') out densities = true).
  { rewrite Hfs. apply loop_fs_writable; [apply densities_NoDup | done]. }
  eexists. split; [by apply generate_icons_succeeds|].
  cbn [fs]. rewrite Hfs.
  destruct (loop_fs_again (clock s) (umask s) (clock s1') (umask s1') (normalize im) out
              densities (fs s) densities_NoDup) as [Herase Hsame].
  split; [done|]. by intros -> ->.
Qed.

(** ** Independence of the densities *)

Lemma density_fs_commute (c u : Z) (src : image) (out : path)
    (i j : string * Z) (t : gmap path node) :
  i.1 ≠ j.1 →
  density_fs c u src out i (density_fs c u src out j t) =
  density_fs c u src out j (density_fs c u src out i t).
Proof.
  intros Hne. apply map_eq. intros q.
  assert (Hij : ∀ q', mipmap_dir out i.1 `prefix_of` q' →
                       ¬ mipmap_dir out j.1 `prefix_of` q').
  { intros q' [k ->] Hpre. apply mipmap_dir_prefix in Hpre. congruence. }
  destruct (decide (mipmap_dir out i.1 `prefix_of` q)) as [Hi|Hi];
    destruct (decide (mipmap_dir out j.1 `prefix_of` q)) as [Hj|Hj].
  - by destruct (Hij q).
  - rewrite (density_fs_lookup_other _ _ _ _ j) by done.
    apply density_fs_lookup_ext; [|done].
    intros q' Hq'. apply density_fs_lookup_other. by apply Hij.
  - rewrite (density_fs_lookup_other _ _ _ _ i) by done.
    symmetry. apply density_fs_lookup_ext; [|done].
    intros q' Hq'. apply density_fs_lookup_other. intros Hpre. by destruct (Hij q').
  - by rewrite !density_fs_lookup_other.
Qed.

Lemma loop_fs_perm (c u : Z) (src : image) (out : path)
    (items items' : list (string * Z)) :
  items ≡ₚ items' → NoDup items.*1 →
  ∀ t, loop_fs c u src out items t = loop_fs c u src out items' t.
Proof.
  induction 1 as [|x l l' Hp IH|x y l|l1 l2 l3 Hp1 IH1 Hp2 IH2]; intros Hnd t.
  - done.
  - rewrite !loop_fs_cons. apply IH.
    cbn [fmap list_fmap] in Hnd. by apply NoDup_cons in Hnd as [_ ?].
  - rewrite !loop_fs_cons. f_equal. apply density_fs_commute.
    cbn [fmap list_fmap] in Hnd. apply NoDup_cons in Hnd as [Hni _].
    intros E. apply Hni. rewrite E. by left.
  - rewrite IH1 by done. apply IH2. by rewrite <- Hp1.
Qed.

Lemma writable_perm (t : gmap path node) (out : path) (items items' : list (string * Z)) :
  items ≡ₚ items' → writable t out items' = true → writable t out items = true.
Proof.
  intros Hp. unfold writable. rewrite !andb_true_iff, !forallb_forall.
  intros [Hd Hall]. split; [done|].
  intros item Hin. apply Hall. apply list_elem_of_In.
  rewrite <- Hp. by apply list_elem_of_In.
Qed.

(** C10. For any image object [r] of the store, [create_round_icon]
    returns a newly allocated object and leaves every object that existed
    before, [r] included, as it was; it touches neither files nor output.
    The density loop, run over the table in any order, resizes each square
    icon from the one source object [r] (which stays as it was), so that each
    file it writes is determined by the source, that density's edge and what
    the path held before, and the resulting file system is the same for
    every processing order. *)
Theorem densities_independent (s : State) (r : ref) (out : path)
    (items : list (string * Z)) :
  (r < length (heap s))%nat →
  0 ≤ (im_size (heap s !!! r)).1 →
  0 ≤ (im_size (heap s !!! r)).2 →
  items ≡ₚ densities →
  writable (fs s) out densities = true →
  (∃ rounded s', create_round_icon r s = (Ok rounded, s') ∧
     (length (heap s) ≤ rounded)%nat ∧
     (∀ r', (r' < length (heap s))%nat → heap s' !! r' = heap s !! r') ∧
     fs s' = fs s ∧ stdout s' = stdout s) ∧
  (∃ s', foreach items (density_body r out) s = (Ok tt, s') ∧
     (∀ r', (r' < length (heap s))%nat → heap s' !! r' = heap s !! r') ∧
     heap s' = heap s ++ concat (density_images (heap s !!! r) <$> items) ∧
     fs s' = loop_fs (clock s) (umask s) (heap s !!! r) out densities (fs s) ∧
     ∀ density edge, (density, edge) ∈ densities →
       let square := resize_image (heap s !!! r) (edge, edge) LANCZOS in
       fs s' !! square_path out density =
         Some (written (clock s) (umask s) (encode "PNG" square)
                 (fs s !! square_path out density)) ∧
       fs s' !! round_path out density =
         Some (written (clock s) (umask s) (encode "PNG" (round_of square))
                 (fs s !! round_path out density))).
Proof.
  intros Hr Hw Hh Hperm Hwr.
  assert (Hnd : NoDup items.*1).
  { rewrite Hperm. apply densities_NoDup. }
  split.
  - eexists _, _. split; [by apply create_round_icon_run|].
    cbn [set_heap heap fs stdout]. repeat split; [lia|].
    intros r' Hr'. by apply lookup_app_l.
  - eexists. split.
    { apply foreach_density_run; [done..|]. by apply (writable_perm _ _ _ densities). }
    cbn [heap fs]. split; [|split; [done|split]].
    + intros r' Hr'. by apply lookup_app_l.
    + by apply loop_fs_perm.
    + intros d n Hin.
      rewrite (loop_fs_perm _ _ _ _ items densities) by done.
      destruct (loop_fs_outputs (clock s) (umask s) (heap s !!! r) out densities (d, n)
                  (fs s) densities_NoDup Hin) as (_ & Hs & Hrd).
      done.
Qed.

(** ** The resource copier *)

Lemma shutil_copy2_run (src dir : path) (nm : string) (d : list byte) (st : stat) (s : State) :
  node_at (fs s) src = Some (File d st) →
  src ≠ dir ++ [nm] →
  node_at (fs s) dir = Some Dir →
  fs s !! (dir ++ [nm]) ≠ Some Dir →
  shutil_copy2 src (dir ++ [nm]) s = (Ok tt, set_fs (<[dir ++ [nm] := File d st]> (fs s)) s).
Proof.
  intros Hsrc Hne Hdir Hdst. unfold shutil_copy2.
  rewrite run_bind. unfold is_dir. rewrite node_at_snoc.
  assert (Hnd : match fs s !! (dir ++ [nm]) with Some Dir => true | _ => false end = false).
  { destruct (fs s !! (dir ++ [nm])) as [[|? ?]|]; done. }
  rewrite Hnd. rewrite run_bind.
  rewrite bool_decide_eq_false_2 by done. cbn [andb].
  rewrite run_bind. unfold read_file at 1. rewrite Hsrc.
  erewrite run_bind_ok by (by apply write_file_run).
  destruct s as [h t o c u]. unfold set_fs, put_file, update_at.
  cbn [heap fs stdout clock umask]. by rewrite insert_insert_eq.
Qed.

Lemma xml_body_run (S D : path) (fp sub a nm : string) (s : State) :
  parts fp = [a; nm] → parts sub = [sub] → parts nm = [nm] → nm ≠ sub →
  S ≠ D ∨ a ≠ sub →
  is_dir (fs s) D = true →
  xml_ok S D (fs s) (fp, sub) = true →
  xml_body S D (fp, sub) s =
    (Ok tt,
     mkState (heap s) (xml_fs S D (fs s) (fp, sub) (fs s))
       (stdout s ++ [xml_line S D (fs s) (fp, sub)]) (clock s) (umask s)).
Proof.
  intros Hfp Hsub Hnm Hns Hsd HD Hok.
  apply is_dir_true in HD.
  unfold xml_ok in Hok. rewrite !andb_true_iff, free_or_dir_true, !not_dir_true in Hok.
  destruct Hok as [[Hfree Hsrc] Hdst].
  unfold xml_fs, xml_line.
  unfold xml_src, xml_subdir, xml_dest, name, joinpath in Hfree, Hsrc, Hdst |- *.
  cbn [fst snd] in Hfree, Hsrc, Hdst |- *.
  rewrite Hfp in Hsrc, Hdst |- *. rewrite Hsub in Hfree, Hdst |- *.
  cbn [List.last] in Hdst |- *. rewrite Hnm in Hdst |- *.
  destruct s as [h t o c u]. cbn [heap fs stdout clock umask] in HD, Hfree, Hsrc, Hdst |- *.
  unfold xml_body, name, joinpath. rewrite Hfp, Hsub. cbn [List.last]. rewrite Hnm.
  step_with Path_mkdir_run.
  set (t1 := ensure_dir (D ++ [sub]) t).
  assert (Hne1 : S ++ [a; nm] ≠ D ++ [sub]).
  { intros E. apply (f_equal last) in E.
    change (S ++ [a; nm]) with (S ++ [a] ++ [nm]) in E.
    rewrite (assoc_L (++)), !last_snoc in E. congruence. }
  assert (Hne2 : S ++ [a; nm] ≠ (D ++ [sub]) ++ [nm]).
  { rewrite <- (assoc_L (++)). cbn [app]. intros E.
    apply app_inj_2 in E as [E1 E2]; [|done]. destruct Hsd; congruence. }
  assert (Hs1 : t1 !! (S ++ [a; nm]) = t !! (S ++ [a; nm])).
  { unfold t1, ensure_dir. by rewrite lookup_update_at, decide_False. }
  assert (Hd1 : node_at t1 (D ++ [sub]) = Some Dir).
  { unfold t1, ensure_dir. rewrite node_at_snoc, lookup_update_at, decide_True by done.
    destruct Hfree as [E | E]; by rewrite E. }
  assert (Hx1 : t1 !! ((D ++ [sub]) ++ [nm]) ≠ Some Dir).
  { unfold t1, ensure_dir. rewrite lookup_update_at, decide_False; [done|].
    intros E. symmetry in E. by apply snoc_ne_self in E. }
  rewrite run_bind. unfold Path_exists at 1. cbn [fs].
  unfold path_exists.
  rewrite node_at_app_cons, Hs1.
  destruct (t !! (S ++ [a; nm])) as [[|d st]|] eqn:Esrc.
  - done.
  - rewrite bool_decide_eq_true_2 by eauto.
    erewrite run_bind_ok; cycle 1.
    { apply (shutil_copy2_run _ _ _ d st); cbn [fs]; try done.
      by rewrite node_at_app_cons. }
    reflexivity.
  - rewrite bool_decide_eq_false_2 by (by intros [? ?]).
    reflexivity.
Qed.

(** Every entry of [xml_files] is a file name inside its own subdirectory;
    no file name is a subdirectory name, and the file names are distinct. *)
Lemma xml_files_shape :
  Forall (λ item, parts item.1 = [item.2; name item.1]
                  ∧ parts item.2 = [item.2]
                  ∧ parts (name item.1) = [name item.1]
                  ∧ Forall (λ item', name item.1 ≠ item'.2
                                     ∧ (name item.1 = name item'.1 → item = item'))
                           xml_files)
         xml_files.
Proof. compute_done. Qed.

Lemma xml_item_paths (S D : path) (item : string * string) :
  item ∈ xml_files →
  xml_src S item = S ++ [item.2; name item.1] ∧
  xml_subdir D item = D ++ [item.2] ∧
  xml_dest D item = (D ++ [item.2]) ++ [name item.1].
Proof.
  intros Hin. pose proof xml_files_shape as Hsh.
  rewrite Forall_forall in Hsh. destruct (Hsh item Hin) as (H1 & H2 & H3 & _).
  unfold xml_src, xml_subdir, xml_dest, joinpath. by rewrite H1, H2, H3.
Qed.

Lemma xml_src_untouched (S D : path) (item item' : string * string) :
  S ≠ D → item ∈ xml_files → item' ∈ xml_files →
  xml_src S item ≠ xml_subdir D item' ∧ xml_src S item ≠ xml_dest D item'.
Proof.
  intros Hne Hin Hin'.
  destruct (xml_item_paths S D item Hin) as (-> & _ & _).
  destruct (xml_item_paths S D item' Hin') as (_ & -> & ->).
  pose proof xml_files_shape as Hsh. rewrite Forall_forall in Hsh.
  destruct (Hsh item Hin) as (_ & _ & _ & Hnames). rewrite Forall_forall in Hnames.
  destruct (Hnames item' Hin') as [Hns _].
  split.
  - intros E. apply (f_equal last) in E.
    change (S ++ [item.2; name item.1]) with (S ++ [item.2] ++ [name item.1]) in E.
    rewrite (assoc_L (++)), !last_snoc in E. congruence.
  - rewrite <- (assoc_L (++)). cbn [app]. intros E.
    apply app_inj_2 in E as [E1 E2]; done.
Qed.

Lemma xml_dest_ne_subdir (D : path) (item item' : string * string) :
  item ∈ xml_files → item' ∈ xml_files → xml_dest D item ≠ xml_subdir D item'.
Proof.
  intros Hin Hin'.
  destruct (xml_item_paths D D item Hin) as (_ & _ & ->).
  destruct (xml_item_paths D D item' Hin') as (_ & -> & _).
  intros E. apply (f_equal length) in E. rewrite !length_app in E. cbn in E. lia.
Qed.

Lemma xml_dest_inj (D : path) (item item' : string * string) :
  item ∈ xml_files → item' ∈ xml_files →
  xml_dest D item = xml_dest D item' → item = item'.
Proof.
  intros Hin Hin'.
  destruct (xml_item_paths D D item Hin) as (_ & _ & ->).
  destruct (xml_item_paths D D item' Hin') as (_ & _ & ->).
  pose proof xml_files_shape as Hsh. rewrite Forall_forall in Hsh.
  destruct (Hsh item Hin) as (_ & _ & _ & Hnames). rewrite Forall_forall in Hnames.
  destruct (Hnames item' Hin') as [_ Hinj].
  intros E. apply Hinj. apply (f_equal last) in E. rewrite !last_snoc in E. congruence.
Qed.

Lemma xml_fs_lookup_other (S D : path) (t0 : gmap path node) (item : string * string)
    (t : gmap path node) (q : path) :
  q ≠ xml_subdir D item → q ≠ xml_dest D item →
  xml_fs S D t0 item t !! q = t !! q.
Proof.
  intros H1 H2. unfold xml_fs, ensure_dir.
  destruct (t0 !! xml_src S item) as [[|d st]|];
    rewrite ?lookup_insert_ne by done; by rewrite lookup_update_at, decide_False.
Qed.

Lemma xml_fs_subdir (S D : path) (t0 : gmap path node) (item : string * string)
    (t : gmap path node) :
  item ∈ xml_files →
  xml_fs S D t0 item t !! xml_subdir D item = Some (default Dir (t !! xml_subdir D item)).
Proof.
  intros Hin. pose proof (xml_dest_ne_subdir D item item Hin Hin).
  unfold xml_fs, ensure_dir.
  destruct (t0 !! xml_src S item) as [[|d st]|];
    rewrite ?lookup_insert_ne by done; by rewrite lookup_update_at, decide_True.
Qed.

Lemma xml_fs_dest (S D : path) (t0 : gmap path node) (item : string * string)
    (t : gmap path node) :
  item ∈ xml_files →
  xml_fs S D t0 item t !! xml_dest D item =
    match t0 !! xml_src S item with
    | Some (File d st) => Some (File d st)
    | _ => t !! xml_dest D item
    end.
Proof.
  intros Hin. pose proof (xml_dest_ne_subdir D item item Hin Hin).
  unfold xml_fs, ensure_dir.
  destruct (t0 !! xml_src S item) as [[|d st]|];
    rewrite ?lookup_insert_eq; try done; by rewrite lookup_update_at, decide_False.
Qed.

Lemma xml_fs_is_dir (S D : path) (t0 : gmap path node) (item : string * string)
    (t : gmap path node) :
  item ∈ xml_files → is_dir (xml_fs S D t0 item t) D = is_dir t D.
Proof.
  intros Hin. unfold is_dir. destruct D as [|x D]; [done|]. cbn [node_at].
  destruct (xml_item_paths (x :: D) (x :: D) item Hin) as (_ & Hs & Hd).
  rewrite xml_fs_lookup_other; [done|..].
  - rewrite Hs. intros E. symmetry in E. by apply snoc_ne_self in E.
  - rewrite Hd, <- (assoc_L (++)). intros E. symmetry in E. by apply snoc_ne_self in E.
Qed.

Lemma xml_fs_ok (S D : path) (t0 : gmap path node) (item item' : string * string)
    (t : gmap path node) :
  S ≠ D → item ∈ xml_files → item' ∈ xml_files →
  xml_ok S D t item = true → xml_ok S D t item' = true →
  xml_ok S D (xml_fs S D t0 item t) item' = true.
Proof.
  intros Hne Hin Hin'. unfold xml_ok. rewrite !andb_true_iff.
  intros [[Hf _] _] [[Hf' Hs'] Hd'].
  destruct (xml_src_untouched S D item' item Hne Hin' Hin) as [Hn1 Hn2].
  pose proof (xml_dest_ne_subdir D item item' Hin Hin') as Hn3.
  pose proof (xml_dest_ne_subdir D item' item Hin' Hin) as Hn4.
  repeat split.
  - destruct (decide (xml_subdir D item' = xml_subdir D item)) as [E|E].
    + rewrite E, xml_fs_subdir by done.
      by destruct (t !! xml_subdir D item) as [[|? ?]|].
    + by rewrite xml_fs_lookup_other.
  - by rewrite xml_fs_lookup_other.
  - destruct (decide (xml_dest D item' = xml_dest D item)) as [E|E].
    + rewrite E, xml_fs_dest by done. rewrite E in Hd'.
      by destruct (t0 !! xml_src S item) as [[|? ?]|].
    + by rewrite xml_fs_lookup_other.
Qed.

Lemma foreach_xml_run (S D : path) (t0 : gmap path node)
    (items : list (string * string)) (s : State) :
  S ≠ D →
  (∀ item, item ∈ items → item ∈ xml_files) →
  is_dir (fs s) D = true →
  (∀ item, item ∈ items → xml_ok S D (fs s) item = true) →
  (∀ item, item ∈ xml_files → fs s !! xml_src S item = t0 !! xml_src S item) →
  foreach items (xml_body S D) s =
    (Ok tt,
     mkState (heap s) (xml_loop_fs S D t0 items (fs s))
       (stdout s ++ (xml_line S D t0 <$> items)) (clock s) (umask s)).
Proof.
  intros Hne. revert s.
  induction items as [|item items IH]; intros s Hsub HD Hok Hsnap.
  { cbn. rewrite app_nil_r. by destruct s. }
  assert (Hin : item ∈ xml_files) by (apply Hsub; by left).
  pose proof xml_files_shape as Hsh. rewrite Forall_forall in Hsh.
  destruct (Hsh item Hin) as (H1 & H2 & H3 & Hnames). rewrite Forall_forall in Hnames.
  destruct (Hnames item Hin) as [Hns _].
  cbn [foreach].
  erewrite run_bind_ok; cycle 1.
  { destruct item as [fp sub].
    apply (xml_body_run S D fp sub sub (name fp)); try done.
    - by left.
    - apply Hok. by left. }
  rewrite IH; cbn [heap fs stdout clock umask].
  - assert (Hfs : xml_fs S D (fs s) item (fs s) = xml_fs S D t0 item (fs s)).
    { unfold xml_fs. by rewrite Hsnap. }
    assert (Hln : xml_line S D (fs s) item = xml_line S D t0 item).
    { unfold xml_line. by rewrite Hsnap. }
    rewrite Hfs, Hln. cbn [fmap list_fmap xml_loop_fs foldl].
    by rewrite <- (assoc_L (++)).
  - intros item' Hin'. apply Hsub. by right.
  - by rewrite xml_fs_is_dir.
  - intros item' Hin'. apply xml_fs_ok; try done.
    + apply Hsub. by right.
    + apply Hok. by left.
    + apply Hok. by right.
  - intros item' Hin'.
    destruct (xml_src_untouched S D item' item Hne Hin' Hin) as [Hn1 Hn2].
    rewrite xml_fs_lookup_other by done. by apply Hsnap.
Qed.

Lemma xml_files_NoDup : NoDup xml_files.
Proof. compute_done. Qed.

Lemma xml_loop_fs_cons (S D : path) (t0 : gmap path node) (item : string * string)
    (items : list (string * string)) (t : gmap path node) :
  xml_loop_fs S D t0 (item :: items) t = xml_loop_fs S D t0 items (xml_fs S D t0 item t).
Proof. reflexivity. Qed.

Lemma xml_loop_lookup_other (S D : path) (t0 : gmap path node)
    (items : list (string * string)) (t : gmap path node) (q : path) :
  (∀ item, item ∈ items → q ≠ xml_subdir D item ∧ q ≠ xml_dest D item) →
  xml_loop_fs S D t0 items t !! q = t !! q.
Proof.
  revert t. induction items as [|item items IH]; intros t Hq; [done|].
  rewrite xml_loop_fs_cons, IH.
  - destruct (Hq item) as [H1 H2]; [by left|]. by apply xml_fs_lookup_other.
  - intros item' Hin. apply Hq. by right.
Qed.

Lemma xml_loop_dest (S D : path) (t0 : gmap path node)
    (items : list (string * string)) (item : string * string) (t : gmap path node) :
  (∀ item', item' ∈ items → item' ∈ xml_files) → NoDup items → item ∈ items →
  xml_loop_fs S D t0 items t !! xml_dest D item =
    match t0 !! xml_src S item with
    | Some (File d st) => Some (File d st)
    | _ => t !! xml_dest D item
    end.
Proof.
  revert t. induction items as [|i items IH]; intros t Hsub Hnd Hin.
  { by apply elem_of_nil in Hin. }
  apply NoDup_cons in Hnd as [Hni Hnd].
  assert (Hi : i ∈ xml_files) by (apply Hsub; by left).
  rewrite xml_loop_fs_cons.
  apply elem_of_cons in Hin as [-> | Hin].
  - rewrite xml_loop_lookup_other; [by apply xml_fs_dest|].
    intros item' Hin'. assert (item' ∈ xml_files) by (apply Hsub; by right). split.
    + by apply xml_dest_ne_subdir.
    + intros E. apply xml_dest_inj in E; [|done..]. congruence.
  - assert (Hitem : item ∈ xml_files) by (apply Hsub; by right).
    rewrite IH; [|intros; apply Hsub; by right|done..].
    rewrite xml_fs_lookup_other; [done|..].
    + by apply xml_dest_ne_subdir.
    + intros E. apply xml_dest_inj in E; [|done..]. congruence.
Qed.

Lemma xml_loop_subdir (S D : path) (t0 : gmap path node)
    (items : list (string * string)) (item : string * string) (t : gmap path node) :
  (∀ item', item' ∈ items → item' ∈ xml_files) → item ∈ xml_files →
  t !! xml_subdir D item = Some Dir
    ∨ (item ∈ items ∧ free_or_dir (t !! xml_subdir D item) = true) →
  xml_loop_fs S D t0 items t !! xml_subdir D item = Some Dir.
Proof.
  revert t. induction items as [|i items IH]; intros t Hsub Hitem Hcase.
  { destruct Hcase as [|[Hin _]]; [done|]. by apply elem_of_nil in Hin. }
  assert (Hi : i ∈ xml_files) by (apply Hsub; by left).
  rewrite xml_loop_fs_cons.
  apply IH; [intros; apply Hsub; by right|done|].
  destruct (decide (xml_subdir D item = xml_subdir D i)) as [E|E].
  - left. rewrite E, xml_fs_subdir by done. rewrite E in Hcase.
    destruct Hcase as [-> | [_ Hfree]]; [done|].
    by destruct (t !! xml_subdir D i) as [[|? ?]|].
  - assert (Hkeep : xml_fs S D t0 i t !! xml_subdir D item = t !! xml_subdir D item).
    { apply xml_fs_lookup_other; [done|].
      intros E'. symmetry in E'. by apply xml_dest_ne_subdir in E'. }
    rewrite Hkeep. destruct Hcase as [|[Hin Hfree]]; [by left|].
    right. split; [|done].
    apply elem_of_cons in Hin as [-> | Hin]; done.
Qed.

Lemma copy_xml_resources_run (S D : path) (s : State) :
  copyable S D (fs s) = true →
  copy_xml_resources S D s =
    (Ok tt,
     mkState (heap s) (xml_loop_fs S D (fs s) xml_files (fs s))
       (stdout s ++ [Text copying_message]
          ++ (xml_line S D (fs s) <$> xml_files) ++ [Text ""])
       (clock s) (umask s)).
Proof.
  unfold copyable. rewrite !andb_true_iff, bool_decide_eq_true, forallb_forall.
  intros [[Hne HD] Hok].
  unfold copy_xml_resources.
  step_with print_run.
  erewrite run_bind_ok; cycle 1.
  { apply (foreach_xml_run S D (fs s)); cbn [fs]; try done.
    intros item Hin. by apply Hok, list_elem_of_In. }
  cbn [heap fs stdout clock umask].
  rewrite print_run. unfold set_stdout. cbn [heap fs stdout clock umask].
  by rewrite <- !(assoc_L (++)).
Qed.

(** ** A complete run of [main] *)

Lemma android_res_path_eq (script : path) :
  android_res_path script = parent script ++ ["android"; "app"; "src"; "main"; "res"].
Proof. unfold android_res_path, joinpath. cbn. by rewrite <- !(assoc_L (++)). Qed.

Lemma manual_fix_path_eq (script : path) :
  manual_fix_path script = parent script ++ ["android-resources-manual-fix"].
Proof. reflexivity. Qed.

Lemma source_icon_path_eq (script : path) :
  source_icon_path script = parent script ++ ["assets"; "icon.png"].
Proof. unfold source_icon_path, joinpath. cbn. by rewrite <- !(assoc_L (++)). Qed.

Lemma manual_fix_ne_res (script : path) : manual_fix_path script ≠ android_res_path script.
Proof.
  rewrite android_res_path_eq, manual_fix_path_eq. intros E.
  by apply app_inv_head in E.
Qed.

(** No path the copier reads or writes lies in a mipmap directory. *)
Lemma xml_paths_apart (script : path) (item : string * string) (d : string) (q : path) :
  item ∈ xml_files →
  q = xml_subdir (android_res_path script) item
    ∨ q = xml_dest (android_res_path script) item
    ∨ q = xml_src (manual_fix_path script) item →
  ¬ mipmap_dir (android_res_path script) d `prefix_of` q.
Proof.
  intros Hin Hq Hpre.
  destruct (xml_item_paths (manual_fix_path script) (android_res_path script) item Hin)
    as (Hs & Hsub & Hd).
  assert (Hv : item.2 = "values" ∨ item.2 = "drawable").
  { revert Hin. clear. set_unfold. intros [->|[->|[->|[->|[]]]]]; cbn; auto. }
  unfold mipmap_dir in Hpre.
  destruct Hq as [-> | [-> | ->]].
  - rewrite Hsub in Hpre. apply prefix_app_inv in Hpre.
    apply prefix_cons_inv_1 in Hpre. cbn in Hpre. destruct Hv as [E|E]; rewrite E in Hpre; done.
  - rewrite Hd, <- (assoc_L (++)) in Hpre. apply prefix_app_inv in Hpre.
    apply prefix_cons_inv_1 in Hpre. cbn in Hpre. destruct Hv as [E|E]; rewrite E in Hpre; done.
  - rewrite Hs, android_res_path_eq, manual_fix_path_eq in Hpre.
    rewrite <- !(assoc_L (++)) in Hpre. apply prefix_app_inv in Hpre.
    by apply prefix_cons_inv_1 in Hpre.
Qed.

Lemma loop_fs_copyable (script : path) (c u : Z) (src : image) (t : gmap path node) :
  let S := manual_fix_path script in
  let D := android_res_path script in
  copyable S D t = true →
  copyable S D (loop_fs c u src D densities t) = true
  ∧ (∀ item, item ∈ xml_files →
       loop_fs c u src D densities t !! xml_src S item = t !! xml_src S item
       ∧ loop_fs c u src D densities t !! xml_dest D item = t !! xml_dest D item).
Proof.
  intros S D. unfold copyable. rewrite !andb_true_iff, !forallb_forall.
  intros [[Hne HD] Hok].
  assert (Hsame : ∀ item q, item ∈ xml_files →
            q = xml_subdir D item ∨ q = xml_dest D item ∨ q = xml_src S item →
            loop_fs c u src D densities t !! q = t !! q).
  { intros item q Hin Hq. apply loop_fs_lookup_other.
    intros [d n] _. by apply (xml_paths_apart script item). }
  split; [split; [split|]|].
  - done.
  - by rewrite loop_fs_is_dir.
  - intros item Hin. apply list_elem_of_In in Hin as Hin'.
    specialize (Hok item Hin). unfold xml_ok in Hok |- *.
    rewrite !(Hsame item) by auto. done.
  - intros item Hin. by rewrite !(Hsame item) by auto.
Qed.

Lemma loop_fs_manual_fix_exists (script : path) (c u : Z) (src : image) (t : gmap path node) :
  path_exists (loop_fs c u src (android_res_path script) densities t) (manual_fix_path script)
  = path_exists t (manual_fix_path script).
Proof.
  unfold path_exists. rewrite manual_fix_path_eq, !node_at_snoc.
  rewrite loop_fs_lookup_other; [done|].
  intros [d n] _ Hpre. apply prefix_length in Hpre.
  unfold mipmap_dir in Hpre. rewrite android_res_path_eq, !length_app in Hpre.
  cbn in Hpre. lia.
Qed.

Lemma main_completes (script : path) (s : State) (im : image) :
  loadable (fs s) (source_icon_path script) = Some im →
  writable (fs s) (android_res_path script) densities = true →
  path_exists (fs s) (manual_fix_path script) = true →
  copyable (manual_fix_path script) (android_res_path script) (fs s) = true →
  ∃ s', main script s = (Ok tt, s') ∧
    fs s' = xml_loop_fs (manual_fix_path script) (android_res_path script) (fs s) xml_files
              (loop_fs (clock s) (umask s) (normalize im) (android_res_path script)
                 densities (fs s)).
Proof.
  intros Hl Hw Hfix Hc.
  assert (Hicon : path_exists (fs s) (source_icon_path script) = true).
  { unfold loadable in Hl. unfold path_exists. apply bool_decide_eq_true_2.
    destruct (node_at (fs s) (source_icon_path script)); [by eexists|done]. }
  assert (Hres : path_exists (fs s) (android_res_path script) = true).
  { apply andb_true_iff in Hw as [Hd _]. apply is_dir_true in Hd.
    unfold path_exists. apply bool_decide_eq_true_2. rewrite Hd. by eexists. }
  rewrite main_checked by done.
  rewrite (generate_icons_succeeds _ _ (checked s) im) by done.
  cbn [checked set_stdout heap fs stdout clock umask].
  rewrite run_bind. unfold Path_exists at 1. cbn [fs].
  rewrite loop_fs_manual_fix_exists, Hfix.
  destruct (loop_fs_copyable script (clock s) (umask s) (normalize im) (fs s) Hc)
    as [Hc' Hsame].
  erewrite run_bind_ok by (by apply copy_xml_resources_run).
  cbn [heap fs stdout clock umask].
  rewrite run_bind, banner_run, !run_bind, !print_run.
  eexists. split; [reflexivity|]. cbn [set_stdout fs].
  clear Hc'. revert Hsame.
  generalize (loop_fs (clock s) (umask s) (normalize im) (android_res_path script)
                densities (fs s)).
  intros t1 Hsame.
  assert (Hgen : ∀ items t, (∀ item, item ∈ items → item ∈ xml_files) →
            xml_loop_fs (manual_fix_path script) (android_res_path script) t1 items t =
            xml_loop_fs (manual_fix_path script) (android_res_path script) (fs s) items t).
  { induction items as [|item items IH]; intros t Hsub; [done|].
    rewrite !xml_loop_fs_cons, IH by (intros; apply Hsub; by right).
    f_equal. unfold xml_fs.
    destruct (Hsame item) as [-> _]; [apply Hsub; by left|]. done. }
  by apply Hgen.
Qed.

(** C8. [copy_xml_resources] goes through its fixed list of four
    (relative path, subdirectory) pairs in order.  Provided source and
    destination directories differ, the destination is a directory, and no
    path involved is occupied by a node of the wrong kind, it returns
    normally having, for every pair: made the destination subdirectory a
    directory (creating it only if absent); copied a source that exists, with
    its bytes and its metadata, over whatever file was at
    [dest_dir/subdir/<basename>], and printed a success line; or, for a
    source that is missing, printed a warning and left the destination as it
    was, going on with the remaining pairs.  A run of [main] that reaches the
    copier under these conditions ends normally, with exit status 0, however
    many of the four sources are missing. *)
Theorem copy_xml_resources_best_effort (source_dir dest_dir : path) (s : State) :
  copyable source_dir dest_dir (fs s) = true →
  xml_files = [("values/strings.xml", "values"); ("values/styles.xml", "values");
               ("values/colors.xml", "values"); ("drawable/splashscreen.xml", "drawable")] ∧
  length xml_files = 4%nat ∧
  (∃ s', copy_xml_resources source_dir dest_dir s = (Ok tt, s') ∧
     heap s' = heap s ∧
     stdout s' = stdout s ++ [Text copying_message]
                   ++ (xml_line source_dir dest_dir (fs s) <$> xml_files) ++ [Text ""] ∧
     ∀ file_path subdir, (file_path, subdir) ∈ xml_files →
       let src := source_dir // file_path in
       let dest := dest_dir // subdir // name file_path in
       is_dir (fs s') (dest_dir // subdir) = true ∧
       (∀ d st, fs s !! src = Some (File d st) →
          fs s' !! dest = Some (File d st) ∧ Copied dest ∈ stdout s') ∧
       (fs s !! src = None →
          fs s' !! dest = fs s !! dest ∧ SourceNotFound src ∈ stdout s')) ∧
  (∀ script s0 im,
     loadable (fs s0) (source_icon_path script) = Some im →
     writable (fs s0) (android_res_path script) densities = true →
     path_exists (fs s0) (manual_fix_path script) = true →
     copyable (manual_fix_path script) (android_res_path script) (fs s0) = true →
     ∃ s', main script s0 = (Ok tt, s') ∧ exit_status (main script s0).1 = 0).
Proof.
  intros Hc. split; [done|]. split; [done|]. split.
  - eexists. split; [by apply copy_xml_resources_run|].
    cbn [heap fs stdout]. split; [done|]. split; [done|].
    intros fp sub Hin. cbn zeta.
    change (dest_dir // sub // name fp) with (xml_dest dest_dir (fp, sub)).
    change (dest_dir // sub) with (xml_subdir dest_dir (fp, sub)).
    change (source_dir // fp) with (xml_src source_dir (fp, sub)).
    unfold copyable in Hc. rewrite !andb_true_iff, forallb_forall in Hc.
    destruct Hc as [[_ HD] Hok].
    specialize (Hok (fp, sub)). rewrite <- list_elem_of_In in Hok. specialize (Hok Hin).
    unfold xml_ok in Hok. rewrite !andb_true_iff in Hok. destruct Hok as [[Hfree _] _].
    assert (Hline : xml_line source_dir dest_dir (fs s) (fp, sub)
                      ∈ stdout s ++ [Text copying_message]
                          ++ (xml_line source_dir dest_dir (fs s) <$> xml_files)
                          ++ [Text ""]).
    { rewrite !elem_of_app. right. right. left. by apply list_elem_of_fmap_2. }
    repeat split.
    + apply is_dir_true.
      destruct (xml_item_paths source_dir dest_dir (fp, sub) Hin) as (_ & Hs & _).
      rewrite Hs at 1. rewrite node_at_snoc, <- Hs.
      apply xml_loop_subdir; [done..|]. right. by split.
    + rewrite xml_loop_dest by (done || apply xml_files_NoDup). by rewrite H.
    + unfold xml_line in Hline. by rewrite H in Hline.
    + rewrite xml_loop_dest by (done || apply xml_files_NoDup). by rewrite H.
    + unfold xml_line in Hline. by rewrite H in Hline.
  - intros script s0 im Hl Hw Hfix Hc0.
    destruct (main_completes script s0 im Hl Hw Hfix Hc0) as (s' & Hm & _).
    exists s'. by rewrite Hm.
Qed.

(** * Further properties *)

(** ** Composing invariants *)

Section Invariants.
Context (R : State → State → Prop) `{!PreOrder R}.

Lemma preserves_ret {A} (a : A) : preserves R (ret a).
Proof. intros s r s' [= _ <-]. reflexivity. Qed.

Lemma preserves_raise {A} (e : exn) : preserves R (raise (A := A) e).
Proof. intros s r s' [= _ <-]. reflexivity. Qed.

Lemma preserves_bind {A B} (m : M A) (k : A → M B) :
  preserves R m → (∀ a, preserves R (k a)) → preserves R (m ≫= k).
Proof.
  intros Hm Hk s r s'. rewrite run_bind.
  destruct (m s) as [[a|e] s1] eqn:E; intros Hrun.
  - etrans; [by eapply Hm | by eapply Hk].
  - injection Hrun as _ <-. by eapply Hm.
Qed.

Lemma preserves_try_except {A} (m : M A) (c : exn → bool) (h : exn → M A) :
  preserves R m → (∀ e, preserves R (h e)) → preserves R (try_except m c h).
Proof.
  intros Hm Hh s r s'. unfold try_except.
  destruct (m s) as [[a|e] s1] eqn:E; intros Hrun.
  - injection Hrun as _ <-. by eapply Hm.
  - destruct (c e).
    + etrans; [by eapply Hm | by eapply Hh].
    + injection Hrun as _ <-. by eapply Hm.
Qed.

Lemma preserves_foreach {A} (l : list A) (body : A → M unit) :
  (∀ x, x ∈ l → preserves R (body x)) → preserves R (foreach l body).
Proof.
  induction l as [|x l IH]; intros Hb; cbn [foreach].
  - apply preserves_ret.
  - apply preserves_bind; [apply Hb; by left|].
    intros _. apply IH. intros y Hy. apply Hb. by right.
Qed.

Lemma preserves_print (l : line) :
  (∀ s o, R s (set_stdout o s)) → preserves R (print l).
Proof. intros HR s r s' [= _ <-]. apply HR. Qed.
End Invariants.

Lemma preserves_weaken {A} (R R' : State → State → Prop) (m : M A) :
  (∀ s s', R s s' → R' s s') → preserves R m → preserves R' m.
Proof. intros HRR Hm s r s' Hrun. eapply HRR, Hm, Hrun. Qed.

#[local] Instance keeps_preorder (P : path → Prop) : PreOrder (keeps P).
Proof.
  split.
  - by intros s q n Hq _.
  - intros s1 s2 s3 H12 H23 q n Hq HP. by apply H23; [apply H12|].
Qed.

#[local] Instance fs_only_preorder : PreOrder fs_only.
Proof.
  split.
  - by intros s.
  - intros s1 s2 s3 (? & ? & ? & ?) (? & ? & ? & ?). repeat split; congruence.
Qed.

Lemma keeps_weaken (P P' : path → Prop) (s s' : State) :
  (∀ q, P q → P' q) → keeps P s s' → keeps P' s s'.
Proof. intros HPP Hk q n Hq HP. apply Hk; [done|]. intros HPq. by apply HP, HPP. Qed.

Lemma keeps_same_fs (P : path → Prop) (s s' : State) : fs s' = fs s → keeps P s s'.
Proof. intros E q n Hq _. by rewrite E. Qed.

Section Raises.
Context (E : exn → Prop).

Lemma raises_only_ret {A} (a : A) : raises_only E (ret a).
Proof. by intros s e s'. Qed.

Lemma raises_only_raise {A} (e : exn) : E e → raises_only E (raise (A := A) e).
Proof. intros He s e' s' [= <- _]. done. Qed.

Lemma raises_only_bind {A B} (m : M A) (k : A → M B) :
  raises_only E m → (∀ a, raises_only E (k a)) → raises_only E (m ≫= k).
Proof.
  intros Hm Hk s e s'. rewrite run_bind.
  destruct (m s) as [[a|e1] s1] eqn:Em; intros Hrun.
  - by eapply Hk.
  - injection Hrun as <- _. by eapply Hm.
Qed.

Lemma raises_only_try_except {A} (m : M A) (c : exn → bool) (h : exn → M A) :
  raises_only E m → (∀ e, E e → raises_only E (h e)) → raises_only E (try_except m c h).
Proof.
  intros Hm Hh s e s'. unfold try_except.
  destruct (m s) as [[a|e1] s1] eqn:Em; intros Hrun; [done|].
  destruct (c e1).
  - eapply Hh; [|done]. by eapply Hm.
  - injection Hrun as <- _. by eapply Hm.
Qed.

Lemma raises_only_foreach {A} (l : list A) (body : A → M unit) :
  (∀ x, raises_only E (body x)) → raises_only E (foreach l body).
Proof.
  intros Hb. induction l as [|x l IH]; cbn [foreach].
  - apply raises_only_ret.
  - apply raises_only_bind; [apply Hb | by intros _].
Qed.
End Raises.

Lemma raises_only_weaken {A} (E E' : exn → Prop) (m : M A) :
  (∀ e, E e → E' e) → raises_only E m → raises_only E' m.
Proof. intros HEE Hm s e s' Hrun. eapply HEE, Hm, Hrun. Qed.

(** ** Invariants of the primitives *)

#[local] Instance same_fs_preorder : PreOrder same_fs.
Proof. split; [by intros s | intros s1 s2 s3 H12 H23; unfold same_fs in *; congruence]. Qed.

Lemma same_fs_keeps (P : path → Prop) (s s' : State) : same_fs s s' → keeps P s s'.
Proof. intros E. by apply keeps_same_fs. Qed.

Lemma caught_exit_or_error (e : exn) : caught e → exit_or_error e.
Proof. by right. Qed.

Lemma os_mkdir_adds (p : path) (s s' : State) (r : result unit) :
  os_mkdir p s = (r, s') →
  fs_only s s' ∧ keeps (λ _, False) s s' ∧
  match r with
  | Ok _ => fs s !! p = None ∧ fs s' = <[p := Dir]> (fs s)
  | Raise e => caught e ∧ s' = s
  end.
Proof.
  unfold os_mkdir. intros Hrun.
  destruct (node_at (fs s) p) as [n|] eqn:Hp.
  { injection Hrun as <- <-. by repeat split. }
  destruct (node_at (fs s) (parent p)) as [[|d st]|] eqn:Hpar; injection Hrun as <- <-;
    try by repeat split.
  assert (Hnone : fs s !! p = None) by (destruct p; [done | exact Hp]).
  repeat split; try done.
  intros q n Hq _. cbn [set_fs fs]. rewrite lookup_insert_ne; [done|]. congruence.
Qed.

Lemma mkdir_single_adds (p : path) (exist_ok : bool) (s s' : State) (r : result unit) :
  mkdir_single p exist_ok s = (r, s') →
  fs_only s s' ∧ keeps (λ _, False) s s' ∧
  match r with
  | Ok _ => is_dir (fs s') p = true
  | Raise e => caught e
  end.
Proof.
  unfold mkdir_single, try_except. intros Hrun.
  destruct (os_mkdir p s) as [[[]|e] s1] eqn:Hos;
    apply os_mkdir_adds in Hos as (Hfo & Hk & Hres).
  - injection Hrun as <- <-. repeat split; try done; try apply Hfo.
    destruct Hres as [_ ->]. unfold is_dir.
    destruct p as [|x p]; [done|]. cbn [node_at]. by rewrite lookup_insert_eq.
  - destruct Hres as [He ->].
    destruct e; cbn [is_OSError] in Hrun;
      try (injection Hrun as <- <-; by repeat split);
      try (destruct (exist_ok && is_dir (fs s) p) eqn:Eok; injection Hrun as <- <-;
           [apply andb_true_iff in Eok as [_ ?] |]; by repeat split).
Qed.

Lemma mkdir_rev_adds (rp : list string) (parents exist_ok : bool) (s s' : State)
    (r : result unit) :
  mkdir_rev rp parents exist_ok s = (r, s') →
  fs_only s s' ∧ keeps (λ _, False) s s' ∧
  match r with
  | Ok _ => is_dir (fs s') (rev rp) = true
  | Raise e => caught e
  end.
Proof.
  revert parents exist_ok s s' r.
  induction rp as [|x rp IH]; intros parents exist_ok s s' r Hrun.
  - destruct exist_ok; cbn in Hrun; injection Hrun as <- <-; by repeat split.
  - cbn [mkdir_rev] in Hrun. unfold try_except in Hrun.
    destruct (os_mkdir (rev (x :: rp)) s) as [[[]|e] s1] eqn:Hos;
      apply os_mkdir_adds in Hos as (Hfo & Hk & Hres).
    + injection Hrun as <- <-. repeat split; try done; try apply Hfo.
      destruct Hres as [_ ->]. unfold is_dir.
      change (rev (x :: rp)) with (rev rp ++ [x]).
      by rewrite node_at_snoc, lookup_insert_eq.
    + destruct Hres as [He ->].
      destruct e; cbn [is_OSError] in Hrun;
        try (injection Hrun as <- <-; by repeat split);
        try (destruct (exist_ok && is_dir (fs s) (rev (x :: rp))) eqn:Eok;
             injection Hrun as <- <-;
             [apply andb_true_iff in Eok as [_ ?] |]; by repeat split).
      destruct parents; [|injection Hrun as <- <-; by repeat split].
      rewrite run_bind in Hrun.
      destruct (mkdir_rev rp true true s) as [[[]|e] s1] eqn:Hrec;
        apply IH in Hrec as (Hfo1 & Hk1 & Hres1).
      * apply mkdir_single_adds in Hrun as (Hfo2 & Hk2 & Hres2).
        split; [by etrans|]. split; [by etrans|]. done.
      * injection Hrun as <- <-. split; [done|]. split; done.
Qed.

(** [Path.mkdir(parents, exist_ok)] only ever adds directories: it leaves
    the image store and the output alone, keeps every node of the tree as
    it is, raises nothing but ordinary exceptions, and when it returns the
    path is a directory. *)
Lemma Path_mkdir_adds (p : path) (parents exist_ok : bool) (s s' : State)
    (r : result unit) :
  Path_mkdir p parents exist_ok s = (r, s') →
  fs_only s s' ∧ keeps (λ _, False) s s' ∧
  match r with
  | Ok _ => is_dir (fs s') p = true
  | Raise e => caught e
  end.
Proof.
  unfold Path_mkdir. intros Hrun. apply mkdir_rev_adds in Hrun.
  by rewrite rev_involutive in Hrun.
Qed.

Lemma write_file_writes (p : path) (data : list byte) (s s' : State) (r : result unit) :
  write_file p data s = (r, s') →
  fs_only s s' ∧ keeps (λ q, q = p) s s' ∧
  match r with
  | Ok _ => ∃ st, fs s' = <[p := File data st]> (fs s) ∧ st_mtime st = clock s
  | Raise e => caught e ∧ s' = s
  end.
Proof.
  unfold write_file. intros Hrun.
  assert (Hins : ∀ n, keeps (λ q, q = p) s (set_fs (<[p := n]> (fs s)) s)).
  { intros n q n' Hq Hne. cbn [set_fs fs]. rewrite lookup_insert_ne; [done|]. congruence. }
  destruct (node_at (fs s) p) as [[|d st]|] eqn:Hp.
  - injection Hrun as <- <-. by repeat split.
  - injection Hrun as <- <-. repeat split; try done. by eexists.
  - destruct (node_at (fs s) (parent p)) as [[|d st]|] eqn:Hpar; injection Hrun as <- <-;
      try by repeat split.
    repeat split; try done. by eexists.
Qed.

Lemma shutil_copy2_writes (src dst : path) (s s' : State) (r : result unit) :
  shutil_copy2 src dst s = (r, s') →
  fs_only s s' ∧ keeps (λ q, q = dst ∨ q = dst ++ [basename src]) s s' ∧
  match r with Ok _ => True | Raise e => caught e end.
Proof.
  unfold shutil_copy2. rewrite !run_bind.
  set (target := if is_dir (fs s) dst then dst ++ [basename src] else dst).
  assert (Htarget : target = dst ∨ target = dst ++ [basename src]).
  { unfold target. destruct (is_dir (fs s) dst); auto. }
  destruct (bool_decide (src = target) && path_exists (fs s) src).
  { intros [= <- <-]. by repeat split. }
  rewrite run_bind. unfold read_file at 1.
  destruct (node_at (fs s) src) as [[|d st]|] eqn:Hsrc;
    try (intros [= <- <-]; by repeat split).
  rewrite run_bind.
  destruct (write_file target d s) as [[[]|e] s1] eqn:Hw;
    apply write_file_writes in Hw as (Hfo & Hk & Hres).
  - intros [= <- <-]. split; [|split; [|done]].
    + destruct Hfo as (? & ? & ? & ?). by repeat split.
    + intros q n Hq Hne. cbn [set_fs fs]. rewrite lookup_insert_ne.
      * apply Hk; [done|]. intros ->. apply Hne. destruct Htarget; auto.
      * intros <-. apply Hne. destruct Htarget; auto.
  - intros [= <- <-]. destruct Hres as [He ->]. by repeat split.
Qed.

(** ** Invariants of the image operations *)

Lemma preserves_same_fs_keeps {A} (P : path → Prop) (m : M A) :
  preserves same_fs m → preserves (keeps P) m.
Proof. apply preserves_weaken. intros s s'. apply same_fs_keeps. Qed.

Lemma deref_same_fs (r : ref) : preserves same_fs (deref r).
Proof. by intros s x s' [= _ <-]. Qed.

Lemma alloc_same_fs (im : image) : preserves same_fs (alloc im).
Proof. by intros s x s' [= _ <-]. Qed.

Lemma assign_same_fs (r : ref) (im : image) : preserves same_fs (assign r im).
Proof. by intros s x s' [= _ <-]. Qed.

Lemma print_same_fs (l : line) : preserves same_fs (print l).
Proof. by intros s x s' [= _ <-]. Qed.

Lemma read_file_same_fs (p : path) : preserves same_fs (read_file p).
Proof.
  intros s x s'. unfold read_file.
  destruct (node_at (fs s) p) as [[|d st]|]; by intros [= _ <-].
Qed.

Lemma Path_exists_same_fs (p : path) : preserves same_fs (Path_exists p).
Proof. by intros s x s' [= _ <-]. Qed.

(** Breaks an action down along [bind], [if] and [match] and closes the
    leaves with the given tactic. *)
Ltac by_parts leaf :=
  repeat first
    [ progress intros
    | progress cbv zeta
    | leaf
    | match goal with
      | |- PreOrder _ => tc_solve
      | |- preserves _ (ret _) => apply preserves_ret
      | |- preserves _ (raise _) => apply preserves_raise
      | |- preserves _ (_ ≫= _) => apply preserves_bind
      | |- raises_only _ (ret _) => apply raises_only_ret
      | |- raises_only _ (_ ≫= _) => apply raises_only_bind
      | |- preserves _ (if ?b then _ else _) => destruct b
      | |- preserves _ (match ?x with _ => _ end) => destruct x
      | |- raises_only _ (if ?b then _ else _) => destruct b
      | |- raises_only _ (match ?x with _ => _ end) => destruct x
      end ].

Ltac same_fs_leaf :=
  first [ apply deref_same_fs | apply alloc_same_fs | apply assign_same_fs
        | apply print_same_fs | apply read_file_same_fs | apply Path_exists_same_fs ].

Lemma create_round_icon_same_fs (sq : ref) : preserves same_fs (create_round_icon sq).
Proof.
  unfold create_round_icon, Image_size, Image_new, ImageDraw_Draw, ImageDraw_ellipse,
    Image_paste, Image_putalpha.
  by_parts same_fs_leaf.
Qed.

Lemma Image_resize_same_fs (r : img) (sz : Z * Z) (f : Resampling) :
  preserves same_fs (Image_resize r sz f).
Proof. unfold Image_resize. by_parts same_fs_leaf. Qed.

Lemma load_source_same_fs (p : path) : preserves same_fs (load_source p).
Proof.
  unfold load_source, Image_open, Image_mode, Image_convert. by_parts same_fs_leaf.
Qed.

(** ** What can be raised *)

Lemma deref_quiet (E : exn → Prop) (r : ref) : raises_only E (deref r).
Proof. by intros s e s'. Qed.

Lemma alloc_quiet (E : exn → Prop) (im : image) : raises_only E (alloc im).
Proof. by intros s e s'. Qed.

Lemma assign_quiet (E : exn → Prop) (r : ref) (im : image) : raises_only E (assign r im).
Proof. by intros s e s'. Qed.

Lemma print_quiet (E : exn → Prop) (l : line) : raises_only E (print l).
Proof. by intros s e s'. Qed.

Lemma Path_exists_quiet (E : exn → Prop) (p : path) : raises_only E (Path_exists p).
Proof. by intros s e s'. Qed.

Lemma read_file_caught (p : path) : raises_only caught (read_file p).
Proof.
  intros s e s'. unfold read_file.
  destruct (node_at (fs s) p) as [[|d st]|]; by intros [= <- _].
Qed.

Lemma write_file_caught (p : path) (d : list byte) : raises_only caught (write_file p d).
Proof. intros s e s' Hrun. by apply write_file_writes in Hrun as (_ & _ & ? & _). Qed.

Lemma Path_mkdir_caught (p : path) (parents exist_ok : bool) :
  raises_only caught (Path_mkdir p parents exist_ok).
Proof. intros s e s' Hrun. by apply Path_mkdir_adds in Hrun as (_ & _ & ?). Qed.

Lemma shutil_copy2_caught (src dst : path) : raises_only caught (shutil_copy2 src dst).
Proof. intros s e s' Hrun. by apply shutil_copy2_writes in Hrun as (_ & _ & ?). Qed.

Ltac caught_leaf :=
  first [ apply deref_quiet | apply alloc_quiet | apply assign_quiet | apply print_quiet
        | apply Path_exists_quiet | apply read_file_caught | apply write_file_caught
        | apply Path_mkdir_caught | apply shutil_copy2_caught
        | apply raises_only_raise; reflexivity ].

Lemma create_round_icon_caught (sq : ref) : raises_only caught (create_round_icon sq).
Proof.
  unfold create_round_icon, Image_size, Image_new, ImageDraw_Draw, ImageDraw_ellipse,
    Image_paste, Image_putalpha.
  by_parts caught_leaf.
Qed.

Lemma density_body_caught (r : img) (out : path) (item : string * Z) :
  raises_only caught (density_body r out item).
Proof.
  unfold density_body, Image_resize, Image_save.
  by_parts ltac:(first [caught_leaf | apply create_round_icon_caught]).
Qed.

Lemma load_source_caught (p : path) : raises_only caught (load_source p).
Proof.
  unfold load_source, Image_open, Image_mode, Image_convert. by_parts caught_leaf.
Qed.

Lemma generate_icons_caught (p out : path) : raises_only caught (generate_icons p out).
Proof.
  unfold generate_icons, Image_size.
  by_parts ltac:(first
    [ caught_leaf
    | apply raises_only_foreach; intros; apply density_body_caught
    | apply load_source_caught
    | apply raises_only_try_except; [|intros ? _]
    | apply raises_only_raise; reflexivity ]).
Qed.

Lemma xml_body_caught (S D : path) (item : string * string) :
  raises_only caught (xml_body S D item).
Proof. unfold xml_body. by_parts caught_leaf. Qed.

Lemma copy_xml_resources_caught (S D : path) : raises_only caught (copy_xml_resources S D).
Proof.
  unfold copy_xml_resources.
  by_parts ltac:(first
    [ caught_leaf | apply raises_only_foreach; intros; apply xml_body_caught ]).
Qed.

(** ** Which paths a run may change *)

Lemma Path_mkdir_keeps (P : path → Prop) (p : path) (parents exist_ok : bool) :
  preserves (keeps P) (Path_mkdir p parents exist_ok).
Proof.
  intros s r s' Hrun. apply Path_mkdir_adds in Hrun as (_ & Hk & _).
  by apply (keeps_weaken (λ _, False)).
Qed.

Lemma Image_save_keeps (P : path → Prop) (r : ref) (p : path) (fmt : string) :
  P p → preserves (keeps P) (Image_save r p fmt).
Proof.
  intros HP. unfold Image_save. apply preserves_bind; [tc_solve | |].
  - apply preserves_same_fs_keeps, deref_same_fs.
  - intros im s x s' Hrun. apply write_file_writes in Hrun as (_ & Hk & _).
    apply (keeps_weaken (λ q, q = p)); [by intros q ->|done].
Qed.

Ltac keeps_leaf :=
  first [ apply Path_mkdir_keeps
        | apply preserves_same_fs_keeps;
          first [ same_fs_leaf | apply create_round_icon_same_fs
                | apply Image_resize_same_fs | apply load_source_same_fs ] ].

Lemma density_body_keeps (r : img) (out : path) (item : string * Z) :
  preserves
    (keeps (λ q, q = out // ("mipmap-" +:+ item.1) // "ic_launcher.png"
                 ∨ q = out // ("mipmap-" +:+ item.1) // "ic_launcher_round.png"))
    (density_body r out item).
Proof.
  destruct item as [d n]. unfold density_body. cbn [fst].
  by_parts ltac:(first [ keeps_leaf | apply Image_save_keeps; auto ]).
Qed.

Lemma densities_shape :
  Forall (λ item, parts ("mipmap-" +:+ item.1) = ["mipmap-" +:+ item.1] ∧ 0 < item.2)
         densities.
Proof. compute_done. Qed.

Lemma densities_paths (out : path) (item : string * Z) :
  item ∈ densities →
  out // ("mipmap-" +:+ item.1) = mipmap_dir out item.1 ∧
  out // ("mipmap-" +:+ item.1) // "ic_launcher.png" = square_path out item.1 ∧
  out // ("mipmap-" +:+ item.1) // "ic_launcher_round.png" = round_path out item.1.
Proof.
  intros Hin. pose proof densities_shape as Hsh. rewrite Forall_forall in Hsh.
  destruct (Hsh item Hin) as [Hp _]. unfold joinpath. by rewrite Hp.
Qed.

Lemma foreach_densities_keeps (r : img) (out : path) :
  preserves (keeps (icon_path out)) (foreach densities (density_body r out)).
Proof.
  apply preserves_foreach; [tc_solve|]. intros item Hin.
  eapply preserves_weaken; [|apply density_body_keeps].
  intros s s'. apply keeps_weaken. intros q Hq. exists item. split; [done|].
  destruct (densities_paths out item Hin) as (_ & E1 & E2). by rewrite E1, E2 in Hq.
Qed.

Lemma generate_icons_keeps (p out : path) :
  preserves (keeps (icon_path out)) (generate_icons p out).
Proof.
  unfold generate_icons, Image_size.
  by_parts ltac:(first
    [ keeps_leaf | apply foreach_densities_keeps | apply preserves_try_except ]).
Qed.

Lemma xml_body_keeps (S D : path) (item : string * string) :
  preserves
    (keeps (λ q, q = xml_dest D item ∨ q = xml_dest D item ++ [basename (xml_src S item)]))
    (xml_body S D item).
Proof.
  destruct item as [fp sub]. unfold xml_body.
  by_parts ltac:(first
    [ keeps_leaf
    | intros s x s' Hrun; apply shutil_copy2_writes in Hrun as (_ & Hk & _); exact Hk ]).
Qed.

Lemma xml_src_basename (S : path) (item : string * string) :
  item ∈ xml_files → basename (xml_src S item) = name item.1.
Proof.
  intros Hin. destruct (xml_item_paths S S item Hin) as (-> & _ & _).
  unfold basename. change (S ++ [item.2; name item.1]) with (S ++ [item.2] ++ [name item.1]).
  by rewrite (assoc_L (++)), last_last.
Qed.

Lemma foreach_xml_keeps (S D : path) :
  preserves (keeps (xml_target D)) (foreach xml_files (xml_body S D)).
Proof.
  apply preserves_foreach; [tc_solve|]. intros item Hin.
  eapply preserves_weaken; [|apply xml_body_keeps].
  intros s s'. apply keeps_weaken. intros q Hq. exists item. split; [done|].
  by rewrite (xml_src_basename S item Hin) in Hq.
Qed.

Lemma copy_xml_resources_keeps (S D : path) :
  preserves (keeps (xml_target D)) (copy_xml_resources S D).
Proof.
  unfold copy_xml_resources.
  by_parts ltac:(first [ keeps_leaf | apply foreach_xml_keeps ]).
Qed.

Lemma main_keeps (script : path) :
  preserves
    (keeps (λ q, icon_path (android_res_path script) q ∨ xml_target (android_res_path script) q))
    (main script).
Proof.
  unfold main, banner, sys_exit.
  fold (source_icon_path script) (android_res_path script) (manual_fix_path script).
  by_parts ltac:(first
    [ keeps_leaf
    | eapply preserves_weaken; [|apply generate_icons_keeps];
      intros ? ?; apply keeps_weaken; intros ? ?; by left
    | eapply preserves_weaken; [|apply copy_xml_resources_keeps];
      intros ? ?; apply keeps_weaken; intros ? ?; by right ]).
Qed.

Lemma main_exit_or_error (script : path) : raises_only exit_or_error (main script).
Proof.
  unfold main, banner, sys_exit.
  by_parts ltac:(first
    [ caught_leaf
    | apply raises_only_raise; by left
    | apply (raises_only_weaken caught); [apply caught_exit_or_error|];
      first [ apply generate_icons_caught | apply copy_xml_resources_caught ] ]).
Qed.

Lemma program_keeps (pillow_installed : bool) (dunder_name : string) (script : path) :
  preserves
    (keeps (λ q, icon_path (android_res_path script) q ∨ xml_target (android_res_path script) q))
    (program pillow_installed dunder_name script).
Proof.
  unfold program, sys_exit.
  by_parts ltac:(first [ keeps_leaf | apply main_keeps ]).
Qed.

Lemma program_exit_or_error (pillow_installed : bool) (dunder_name : string) (script : path) :
  raises_only exit_or_error (program pillow_installed dunder_name script).
Proof.
  unfold program, sys_exit.
  by_parts ltac:(first
    [ caught_leaf | apply raises_only_raise; by left | apply main_exit_or_error ]).
Qed.

Lemma outputs_under_res (script : path) (q : path) :
  icon_path (android_res_path script) q ∨ xml_target (android_res_path script) q →
  android_res_path script `prefix_of` q.
Proof.
  intros [(item & _ & [-> | ->]) | (item & Hin & Hq)].
  - unfold square_path, mipmap_dir. rewrite <- (assoc_L (++)). by apply prefix_app_r.
  - unfold round_path, mipmap_dir. rewrite <- (assoc_L (++)). by apply prefix_app_r.
  - destruct (xml_item_paths (android_res_path script) (android_res_path script) item Hin)
      as (_ & _ & Hd).
    rewrite Hd in Hq. destruct Hq as [-> | ->];
      rewrite <- !(assoc_L (++)); by apply prefix_app_r.
Qed.

Lemma inputs_not_under_res (script : path) (q : path) :
  q = source_icon_path script ∨ manual_fix_path script `prefix_of` q →
  ¬ android_res_path script `prefix_of` q.
Proof.
  rewrite android_res_path_eq, source_icon_path_eq, manual_fix_path_eq.
  intros [-> | [k ->]] Hpre.
  - apply prefix_app_inv, prefix_cons_inv_1 in Hpre. discriminate Hpre.
  - rewrite <- (assoc_L (++)) in Hpre.
    apply prefix_app_inv, prefix_cons_inv_1 in Hpre. discriminate Hpre.
Qed.

(** X1. The exit status of the program is 0 or 1, and it is 0 exactly when
    the run ends normally: every failure, be it a [sys.exit(1)] of the script
    or an exception nothing catches, ends the process with status 1.  Without
    Pillow the status is 1 and nothing has been touched. *)
Theorem program_exit_status (pillow_installed : bool) (dunder_name : string)
    (script : path) (s : State) :
  let run := program pillow_installed dunder_name script s in
  (exit_status run.1 = 0 ∨ exit_status run.1 = 1) ∧
  (exit_status run.1 = 0 ↔ run.1 = Ok tt) ∧
  (pillow_installed = false →
     run.1 = Raise (SystemExit 1) ∧ fs run.2 = fs s ∧ heap run.2 = heap s).
Proof.
  cbn zeta.
  destruct (program pillow_installed dunder_name script s) as [[[]|e] s'] eqn:Hrun; cbn [fst snd].
  - split; [by left|]. split; [done|].
    intros ->. unfold program in Hrun. rewrite !run_bind in Hrun. by cbn in Hrun.
  - assert (He : exit_or_error e) by (by eapply program_exit_or_error).
    assert (Hst : exit_status (Raise (A := unit) e) = 1).
    { destruct He as [-> | He]; [done|]. by destruct e. }
    split; [by right|]. split; [split; [by rewrite Hst | done]|].
    intros ->. unfold program in Hrun. rewrite !run_bind in Hrun. cbn in Hrun.
    injection Hrun as <- <-. by destruct s.
Qed.

(** X2. Whatever the state it starts in and however it ends, the program
    leaves every existing file and directory as it was, except the ten icon
    paths and the four resource destinations (or the same file name inside a
    destination that is a directory).  In particular it never changes or
    removes the source icon or anything in the manual-fix directory, nor
    anything outside the Android resource root. *)
Theorem program_only_overwrites_outputs (pillow_installed : bool) (dunder_name : string)
    (script : path) (s : State) :
  let s' := (program pillow_installed dunder_name script s).2 in
  (∀ q n, fs s !! q = Some n →
     ¬ icon_path (android_res_path script) q →
     ¬ xml_target (android_res_path script) q →
     fs s' !! q = Some n) ∧
  (∀ q n, fs s !! q = Some n →
     ¬ android_res_path script `prefix_of` q → fs s' !! q = Some n) ∧
  (∀ q n, fs s !! q = Some n →
     q = source_icon_path script ∨ manual_fix_path script `prefix_of` q →
     fs s' !! q = Some n).
Proof.
  cbn zeta.
  destruct (program pillow_installed dunder_name script s) as [r s'] eqn:Hrun. cbn [snd].
  pose proof (program_keeps _ _ _ _ _ _ Hrun) as Hk.
  assert (Hout : ∀ q n, fs s !! q = Some n →
            ¬ android_res_path script `prefix_of` q → fs s' !! q = Some n).
  { intros q n Hq Hpre. apply Hk; [done|]. intros Hp. by apply Hpre, outputs_under_res. }
  split; [|split; [done|]].
  - intros q n Hq Hi Hx. apply Hk; [done|]. by intros [?|?].
  - intros q n Hq Hin. apply Hout; [done|]. by apply inputs_not_under_res.
Qed.

(** ** What a successful run has written *)

Lemma fs_only_set_fs (s s' : State) : fs_only s s' → s' = set_fs (fs s') s.
Proof.
  destruct s as [h t o c u], s' as [h' t' o' c' u']. unfold fs_only, set_fs.
  cbn [heap fs stdout clock umask]. by intros (-> & -> & -> & ->).
Qed.

Lemma Image_save_ok (r : ref) (p : path) (fmt : string) (s s' : State) :
  Image_save r p fmt s = (Ok tt, s') →
  ∃ st, s' = set_fs (<[p := File (encode fmt (heap s !!! r)) st]> (fs s)) s
        ∧ st_mtime st = clock s.
Proof.
  unfold Image_save. rewrite run_bind. cbn [deref]. intros Hrun.
  apply write_file_writes in Hrun as (Hfo & _ & st & Hfs & Hst).
  exists st. split; [|done].
  rewrite <- Hfs. by apply fs_only_set_fs.
Qed.

Lemma Path_mkdir_ok (p : path) (s s' : State) :
  Path_mkdir p true true s = (Ok tt, s') →
  ∃ t1, s' = set_fs t1 s ∧ is_dir t1 p = true ∧ (∀ q n, fs s !! q = Some n → t1 !! q = Some n).
Proof.
  intros Hrun. apply Path_mkdir_adds in Hrun as (Hfo & Hk & Hd).
  exists (fs s'). split; [|split; [done|]].
  - by apply fs_only_set_fs.
  - intros q n Hq. apply Hk; [done | by intros []].
Qed.

Lemma density_body_ok (r : ref) (out : path) (item : string * Z) (s s' : State) :
  item ∈ densities →
  (r < length (heap s))%nat →
  density_body r out item s = (Ok tt, s') →
  ∃ t1 st1 st2,
    is_dir t1 (mipmap_dir out item.1) = true ∧
    (∀ q n, fs s !! q = Some n → t1 !! q = Some n) ∧
    fs s' = <[round_path out item.1 :=
                File (encode "PNG" (round_of (square_of (heap s !!! r) item.2))) st2]>
              (<[square_path out item.1 :=
                   File (encode "PNG" (square_of (heap s !!! r) item.2)) st1]> t1) ∧
    heap s' = heap s ++ density_images (heap s !!! r) item.
Proof.
  intros Hin Hr.
  pose proof densities_shape as Hsh. rewrite Forall_forall in Hsh.
  destruct (Hsh item Hin) as [_ Hn].
  destruct (densities_paths out item Hin) as (Hp1 & Hp2 & Hp3).
  destruct item as [d n]. cbn [fst snd] in Hn, Hp1, Hp2, Hp3 |- *.
  unfold density_body. rewrite Hp2, Hp3, Hp1.
  rewrite run_bind.
  destruct (Path_mkdir (mipmap_dir out d) true true s) as [[[]|e] s1] eqn:Hmk; [|done].
  apply Path_mkdir_ok in Hmk as (t1 & -> & Hdir & Hkeep).
  destruct s as [h t o c u]. unfold set_fs. cbn [heap fs stdout clock umask] in Hr, Hkeep |- *.
  erewrite run_bind_ok by (apply Image_resize_run; cbn; lia).
  unfold set_heap. cbn [heap fs stdout clock umask].
  fold (square_of (h !!! r) n).
  rewrite run_bind.
  match goal with
  | |- context [Image_save ?a ?b ?c ?st] =>
      destruct (Image_save a b c st) as [[[]|e] s2] eqn:Hsv; [|done]
  end.
  apply Image_save_ok in Hsv as (st1 & -> & _).
  unfold set_fs. cbn [heap fs stdout clock umask]. rewrite lookup_total_new.
  rewrite run_bind, print_run.
  unfold set_stdout. cbn [heap fs stdout clock umask].
  erewrite run_bind_ok; cycle 1.
  { apply create_round_icon_run; cbn [heap].
    - rewrite length_app. cbn. lia.
    - rewrite lookup_total_new. cbn. lia.
    - rewrite lookup_total_new. cbn. lia. }
  unfold set_heap. cbn [heap fs stdout clock umask].
  rewrite lookup_total_new. change (im_size (square_of (h !!! r) n)) with (n, n).
  rewrite run_bind.
  match goal with
  | |- context [Image_save ?a ?b ?c ?st] =>
      destruct (Image_save a b c st) as [[[]|e] s3] eqn:Hsv; [|done]
  end.
  apply Image_save_ok in Hsv as (st2 & -> & _).
  unfold set_fs. cbn [heap fs stdout clock umask].
  rewrite lookup_total_second.
  rewrite print_run. intros [= <-]. cbn [set_stdout heap fs].
  exists t1, st1, st2. repeat split; try done.
  by rewrite <- (assoc_L (++)).
Qed.

Lemma foreach_sub_keeps (r : ref) (out : path) (items : list (string * Z)) :
  (∀ item, item ∈ items → item ∈ densities) →
  preserves
    (keeps (λ q, ∃ item, item ∈ items ∧
                   (q = square_path out item.1 ∨ q = round_path out item.1)))
    (foreach items (density_body r out)).
Proof.
  intros Hsub. apply preserves_foreach; [tc_solve|]. intros item Hin.
  eapply preserves_weaken; [|apply density_body_keeps].
  intros s s'. apply keeps_weaken. intros q Hq. exists item. split; [done|].
  destruct (densities_paths out item (Hsub item Hin)) as (_ & E1 & E2).
  by rewrite E1, E2 in Hq.
Qed.

Lemma other_density_paths (out : path) (items : list (string * Z)) (i : string * Z)
    (q : path) :
  i.1 ∉ items.*1 →
  mipmap_dir out i.1 `prefix_of` q →
  ¬ ∃ item, item ∈ items ∧ (q = square_path out item.1 ∨ q = round_path out item.1).
Proof.
  intros Hni Hpre (item & Hin & Hq). apply Hni.
  apply list_elem_of_fmap. exists item. split; [|done].
  destruct Hq as [-> | ->]; by apply mipmap_dir_prefix in Hpre.
Qed.

Lemma foreach_density_post (r : ref) (out : path) (items : list (string * Z))
    (s s' : State) :
  (∀ item, item ∈ items → item ∈ densities) →
  NoDup items.*1 →
  (r < length (heap s))%nat →
  foreach items (density_body r out) s = (Ok tt, s') →
  ∀ item, item ∈ items →
    is_dir (fs s') (mipmap_dir out item.1) = true ∧
    ∃ st1 st2,
      fs s' !! square_path out item.1
        = Some (File (encode "PNG" (square_of (heap s !!! r) item.2)) st1) ∧
      fs s' !! round_path out item.1
        = Some (File (encode "PNG" (round_of (square_of (heap s !!! r) item.2))) st2).
Proof.
  revert s. induction items as [|i items IH]; intros s Hsub Hnd Hr Hrun item Hin.
  { by apply elem_of_nil in Hin. }
  cbn [fmap list_fmap] in Hnd. apply NoDup_cons in Hnd as [Hni Hnd].
  cbn [foreach] in Hrun. rewrite run_bind in Hrun.
  destruct (density_body r out i s) as [[[]|e] s1] eqn:Hb; [|done].
  apply density_body_ok in Hb as (t1 & st1 & st2 & Hdir & _ & Hfs & Hheap);
    [|apply Hsub; by left|done].
  assert (Hr1 : (r < length (heap s1))%nat) by (rewrite Hheap, length_app; lia).
  assert (Hsrc : heap s1 !!! r = heap s !!! r) by (rewrite Hheap; by apply lookup_total_old).
  apply elem_of_cons in Hin as [-> | Hin].
  - pose proof (foreach_sub_keeps r out items (λ x Hx, Hsub x (list_elem_of_further _ _ _ Hx))
                  _ _ _ Hrun) as Hk.
    assert (Hd1 : fs s1 !! mipmap_dir out i.1 = Some Dir).
    { rewrite Hfs, !lookup_insert_ne by (symmetry; apply mipmap_ne_round || apply mipmap_ne_square).
      apply is_dir_true in Hdir. unfold mipmap_dir in Hdir |- *.
      by rewrite node_at_snoc in Hdir. }
    assert (Hs1 : fs s1 !! square_path out i.1
                  = Some (File (encode "PNG" (square_of (heap s !!! r) i.2)) st1)).
    { rewrite Hfs, lookup_insert_ne by (symmetry; apply square_ne_round).
      by rewrite lookup_insert_eq. }
    assert (Hr2 : fs s1 !! round_path out i.1
                  = Some (File (encode "PNG" (round_of (square_of (heap s !!! r) i.2))) st2)).
    { by rewrite Hfs, lookup_insert_eq. }
    split; [|exists st1, st2; split].
    + apply is_dir_true. unfold mipmap_dir at 1. rewrite node_at_snoc.
      apply Hk; [done|]. apply other_density_paths with (i := i); [done|].
      exists []. by rewrite app_nil_r.
    + apply Hk; [done|]. apply other_density_paths with (i := i); [done|].
      by apply prefix_app_r.
    + apply Hk; [done|]. apply other_density_paths with (i := i); [done|].
      by apply prefix_app_r.
  - rewrite <- Hsrc. apply (IH s1); try done.
    intros x Hx. apply Hsub. by right.
Qed.

(** X3. Whatever the file system looked like, if [generate_icons] returns
    true then the source had loaded, and afterwards every one of the five
    mipmap directories is a directory holding both icons: [ic_launcher.png]
    with the PNG of the normalised source resized to that density's edge, and
    [ic_launcher_round.png] with the PNG of its round variant. *)
Theorem generate_icons_true_means_written (p out : path) (s s' : State) :
  generate_icons p out s = (Ok true, s') →
  ∃ im, loadable (fs s) p = Some im ∧
    ∀ density edge, (density, edge) ∈ densities →
      let square := resize_image (normalize im) (edge, edge) LANCZOS in
      is_dir (fs s') (out // ("mipmap-" +:+ density)) = true ∧
      ∃ st1 st2,
        fs s' !! (out // ("mipmap-" +:+ density) // "ic_launcher.png")
          = Some (File (encode "PNG" square) st1) ∧
        fs s' !! (out // ("mipmap-" +:+ density) // "ic_launcher_round.png")
          = Some (File (encode "PNG" (round_of square)) st2).
Proof.
  intros Hrun.
  destruct (loadable (fs s) p) as [im|] eqn:Hl; cycle 1.
  { destruct (generate_icons_returns p out s s' true Hrun) as [im' Him]. congruence. }
  exists im. split; [done|]. intros d n Hin.
  revert Hrun. unfold generate_icons.
  rewrite run_bind, print_run, run_bind. unfold try_except at 1.
  rewrite run_bind.
  rewrite (load_source_run p _ im) by done.
  cbn [ret]. rewrite run_bind, Image_size_run.
  rewrite run_bind, print_run, run_bind, print_run, run_bind.
  match goal with
  | |- context [foreach ?l ?b ?st] => destruct (foreach l b st) as [[[]|e] s2] eqn:Hloop
  end; [|done].
  rewrite run_bind, print_run, run_bind, print_run. intros [= <-].
  apply foreach_density_post with (item := (d, n)) in Hloop; try done.
  - cbn [set_stdout set_heap heap fs] in Hloop |- *.
    rewrite source_ref_lookup in Hloop.
    destruct (densities_paths out (d, n) Hin) as (E1 & E2 & E3). cbn [fst] in E1, E2, E3.
    cbn zeta. rewrite E2, E3, E1. cbn [fst snd] in Hloop. exact Hloop.
  - apply densities_NoDup.
  - cbn [set_stdout set_heap heap]. apply source_ref_valid.
Qed.


(** ** A run that stops in the middle of the loop *)

Lemma foreach_app {A} (l1 l2 : list A) (body : A → M unit) (s : State) :
  foreach (l1 ++ l2) body s =
    match foreach l1 body s with
    | (Ok _, s1) => foreach l2 body s1
    | (Raise e, s1) => (Raise e, s1)
    end.
Proof.
  revert s. induction l1 as [|a l1 IH]; intros s; cbn [app foreach]; [done|].
  rewrite !run_bind. destruct (body a s) as [[[]|e] s1]; [apply IH | done].
Qed.

Lemma density_body_blocked (r : ref) (out : path) (item : string * Z)
    (d : list byte) (st : stat) (s : State) :
  item ∈ densities →
  fs s !! mipmap_dir out item.1 = Some (File d st) →
  density_body r out item s = (Raise FileExistsError, s).
Proof.
  intros Hin Hf. destruct (densities_paths out item Hin) as (E1 & _).
  destruct item as [dn n]. cbn [fst] in Hf, E1.
  unfold density_body. rewrite run_bind, E1. unfold mipmap_dir.
  by rewrite (Path_mkdir_blocked out _ d st).
Qed.

Lemma densities_split_names (before after : list (string * Z)) (item : string * Z) :
  densities = before ++ item :: after →
  NoDup before.*1 ∧
  ∀ prior later, prior ∈ before → later ∈ item :: after → prior.1 ≠ later.1.
Proof.
  intros Hsplit. pose proof densities_NoDup as Hnd.
  rewrite Hsplit, fmap_app in Hnd. apply NoDup_app in Hnd as (Hnd1 & Hdisj & _).
  split; [done|]. intros prior later Hp Hl E.
  apply (Hdisj prior.1).
  - by apply list_elem_of_fmap_2.
  - rewrite E. by apply list_elem_of_fmap_2.
Qed.

(** X4. The loop of [generate_icons] has no rollback.  When the source loads
    and the densities before some entry of the table are unobstructed, but a
    regular file sits where that entry's mipmap directory should be, the call
    ends with [FileExistsError] (nothing catches it): both icons of every
    earlier density have been written and stay, nothing at or below the
    mipmap directories of the obstructed and the later densities has changed,
    and the output ends with the lines of the earlier densities. *)
Theorem generate_icons_stops_at_obstacle (p out : path) (s : State) (im : image)
    (before after : list (string * Z)) (item : string * Z) (d : list byte) (st : stat) :
  densities = before ++ item :: after →
  loadable (fs s) p = Some im →
  writable (fs s) out before = true →
  fs s !! (out ++ ["mipmap-" +:+ item.1]) = Some (File d st) →
  ∃ s', generate_icons p out s = (Raise FileExistsError, s') ∧
    (∀ prior, prior ∈ before →
       ∃ st1 st2,
         fs s' !! square_path out prior.1
           = Some (File (encode "PNG" (square_of (normalize im) prior.2)) st1) ∧
         fs s' !! round_path out prior.1
           = Some (File (encode "PNG" (round_of (square_of (normalize im) prior.2))) st2)) ∧
    (∀ later q, later ∈ item :: after →
       mipmap_dir out later.1 `prefix_of` q → fs s' !! q = fs s !! q) ∧
    stdout s' = stdout s ++ [LoadingSource p; SourceSize (im_size (normalize im)); Text ""]
                  ++ concat (density_lines out <$> before).
Proof.
  intros Hsplit Hl Hw Hf.
  destruct (densities_split_names _ _ _ Hsplit) as [Hnd Hapart].
  assert (Hitem : item ∈ densities).
  { rewrite Hsplit. apply elem_of_app. right. by left. }
  destruct s as [h t o c u]. cbn [heap fs stdout clock umask] in Hl, Hw, Hf |- *.
  unfold generate_icons.
  rewrite run_bind, print_run, run_bind. unfold try_except at 1.
  rewrite run_bind.
  unfold set_stdout. cbn [heap fs stdout clock umask].
  rewrite (load_source_run p _ im) by done.
  unfold set_heap. cbn [heap fs stdout clock umask ret].
  step_with Image_size_run. rewrite source_ref_lookup.
  step_with print_run.
  step_with print_run.
  rewrite run_bind, Hsplit, foreach_app.
  rewrite foreach_density_run; cbn [heap fs stdout clock umask];
    [|apply source_ref_valid|done|done].
  rewrite source_ref_lookup.
  assert (Hother : ∀ later q, later ∈ item :: after →
            mipmap_dir out later.1 `prefix_of` q →
            loop_fs c u (normalize im) out before t !! q = t !! q).
  { intros later q Hlater Hpre. apply loop_fs_lookup_other.
    intros prior Hprior Hpre'. apply (Hapart prior later); [done|done|].
    destruct Hpre as [k ->]. by apply mipmap_dir_prefix in Hpre'. }
  cbn [foreach]. rewrite run_bind.
  rewrite (density_body_blocked _ _ _ d st); [|done|]; cycle 1.
  { cbn [fs]. rewrite (Hother item); [done|by left|done]. }
  eexists. split; [reflexivity|]. cbn [fs stdout].
  split; [|split].
  - intros prior Hprior.
    destruct (loop_fs_outputs c u (normalize im) out before prior t Hnd Hprior)
      as (_ & Hsq & Hrd).
    unfold written in Hsq, Hrd. eauto.
  - exact Hother.
  - by rewrite <- !(assoc_L (++)).
Qed.


(** ** Complete runs of [main] *)

Lemma loadable_exists (t : gmap path node) (p : path) (im : image) :
  loadable t p = Some im → path_exists t p = true.
Proof.
  unfold loadable, path_exists. intros Hl. apply bool_decide_eq_true_2.
  destruct (node_at t p); [by eexists|done].
Qed.

Lemma writable_exists (t : gmap path node) (out : path) (items : list (string * Z)) :
  writable t out items = true → path_exists t out = true.
Proof.
  intros Hw. apply andb_true_iff in Hw as [Hd _]. apply is_dir_true in Hd.
  unfold path_exists. apply bool_decide_eq_true_2. rewrite Hd. by eexists.
Qed.

Lemma icon_not_xml_path (script : path) (item : string * Z) (xml : string * string)
    (q : path) :
  xml ∈ xml_files →
  mipmap_dir (android_res_path script) item.1 `prefix_of` q →
  q ≠ xml_subdir (android_res_path script) xml ∧ q ≠ xml_dest (android_res_path script) xml.
Proof.
  intros Hin Hpre. split; intros ->;
    apply (xml_paths_apart script xml item.1) in Hpre; auto.
Qed.

(** X5. A run of [main] on a project whose icon loads, whose resource
    directory is unobstructed and which has a usable manual-fix directory ends
    normally with everything in place together: both icons of every density,
    as made from the normalised source, are still there after the copier has
    run, and every XML source that is a file has been copied with its bytes
    and metadata to [res/<subdir>/<basename>]. *)
Theorem main_complete_run (script : path) (s : State) (im : image) :
  loadable (fs s) (source_icon_path script) = Some im →
  writable (fs s) (android_res_path script) densities = true →
  path_exists (fs s) (manual_fix_path script) = true →
  copyable (manual_fix_path script) (android_res_path script) (fs s) = true →
  ∃ s', main script s = (Ok tt, s') ∧
    (∀ density edge, (density, edge) ∈ densities →
       let dir := android_res_path script // ("mipmap-" +:+ density) in
       let square := resize_image (normalize im) (edge, edge) LANCZOS in
       ∃ st1 st2,
         fs s' !! (dir // "ic_launcher.png") = Some (File (encode "PNG" square) st1) ∧
         fs s' !! (dir // "ic_launcher_round.png")
           = Some (File (encode "PNG" (round_of square)) st2)) ∧
    (∀ file_path subdir d st, (file_path, subdir) ∈ xml_files →
       fs s !! (manual_fix_path script // file_path) = Some (File d st) →
       fs s' !! (android_res_path script // subdir // name file_path) = Some (File d st)).
Proof.
  intros Hl Hw Hfix Hc.
  destruct (main_completes script s im Hl Hw Hfix Hc) as (s' & Hrun & Hfs).
  exists s'. split; [done|]. rewrite Hfs. split.
  - intros d n Hin. cbn zeta.
    destruct (densities_paths (android_res_path script) (d, n) Hin) as (_ & E2 & E3).
    cbn [fst] in E2, E3. rewrite E2, E3.
    destruct (loop_fs_outputs (clock s) (umask s) (normalize im) (android_res_path script)
                densities (d, n) (fs s) densities_NoDup Hin) as (_ & Hsq & Hrd).
    cbn [fst snd] in Hsq, Hrd. unfold written in Hsq, Hrd.
    eexists _, _. split.
    + rewrite xml_loop_lookup_other; [exact Hsq|].
      intros xml Hxml. apply (icon_not_xml_path script (d, n)); [done|].
      by apply prefix_app_r.
    + rewrite xml_loop_lookup_other; [exact Hrd|].
      intros xml Hxml. apply (icon_not_xml_path script (d, n)); [done|].
      by apply prefix_app_r.
  - intros fp sub d st Hin Hsrc.
    change (android_res_path script // sub // name fp)
      with (xml_dest (android_res_path script) (fp, sub)).
    change (manual_fix_path script // fp)
      with (xml_src (manual_fix_path script) (fp, sub)) in Hsrc.
    rewrite xml_loop_dest by (done || apply xml_files_NoDup). by rewrite Hsrc.
Qed.

Lemma density_lines_created (out : path) (items : list (string * Z)) (l : line) :
  l ∈ concat (density_lines out <$> items) → ∃ q n m, l = Created q n m.
Proof.
  induction items as [|item items IH]; cbn [fmap list_fmap concat].
  { intros H. by apply elem_of_nil in H. }
  unfold density_lines at 1. cbn [app].
  rewrite !elem_of_cons. intros [-> | [-> | H]]; eauto.
Qed.

(** X6. Without a manual-fix directory [main] still ends normally: after
    generating the icons it prints the two-line note and copies nothing.  The
    file system is then exactly what the icon loop left, so no XML
    destination and no [values] or [drawable] directory has been created or
    changed. *)
Theorem main_without_manual_fix (script : path) (s : State) (im : image) :
  loadable (fs s) (source_icon_path script) = Some im →
  writable (fs s) (android_res_path script) densities = true →
  path_exists (fs s) (manual_fix_path script) = false →
  ∃ s', main script s = (Ok tt, s') ∧
    fs s' = fs (generate_icons (source_icon_path script) (android_res_path script) s).2 ∧
    (∀ item, item ∈ xml_files →
       fs s' !! xml_subdir (android_res_path script) item
         = fs s !! xml_subdir (android_res_path script) item ∧
       fs s' !! xml_dest (android_res_path script) item
         = fs s !! xml_dest (android_res_path script) item) ∧
    Text "Note: android-resources-manual-fix directory not found." ∈ stdout s' ∧
    Text "XML resources (strings.xml, styles.xml, etc.) not copied." ∈ stdout s' ∧
    (∀ q, Copied q ∉ drop (length (stdout s)) (stdout s')).
Proof.
  intros Hl Hw Hfix.
  rewrite main_checked by eauto using loadable_exists, writable_exists.
  rewrite (generate_icons_succeeds _ _ (checked s) im) by done.
  rewrite (generate_icons_succeeds _ _ s im) by done.
  cbn [checked set_stdout heap fs stdout clock umask snd].
  rewrite run_bind. unfold Path_exists at 1. cbn [fs].
  rewrite loop_fs_manual_fix_exists, Hfix.
  repeat first [rewrite run_bind | rewrite print_run | rewrite banner_run].
  eexists. split; [reflexivity|]. cbn [set_stdout heap fs stdout clock umask].
  split; [done|]. split; [|split; [|split]].
  - intros item Hin.
    split; apply loop_fs_lookup_other; intros [d n] _;
      apply (xml_paths_apart script item); auto.
  - rewrite <- !(assoc_L (++)). cbn [app]. rewrite !elem_of_app, !elem_of_cons.
    repeat first [ by left | right ].
  - rewrite <- !(assoc_L (++)). cbn [app]. rewrite !elem_of_app, !elem_of_cons.
    repeat first [ by left | right ].
  - intros q. rewrite <- !(assoc_L (++)), drop_app_length.
    unfold success_lines. rewrite !elem_of_app, !elem_of_cons, elem_of_nil.
    intros Hq.
    repeat match goal with H : _ ∨ _ |- _ => destruct H as [H|H] end; try done.
    apply density_lines_created in Hq as (q' & n & m & Hq). done.
Qed.


(** ** Running the copier again *)

Lemma xml_loop_src (S D : path) (t0 : gmap path node) (item : string * string)
    (t : gmap path node) :
  S ≠ D → item ∈ xml_files →
  xml_loop_fs S D t0 xml_files t !! xml_src S item = t !! xml_src S item.
Proof.
  intros Hne Hin. apply xml_loop_lookup_other. intros item' Hin'.
  by apply xml_src_untouched.
Qed.

Lemma xml_loop_is_dir (S D : path) (t0 : gmap path node)
    (items : list (string * string)) (t : gmap path node) :
  (∀ item, item ∈ items → item ∈ xml_files) →
  is_dir (xml_loop_fs S D t0 items t) D = is_dir t D.
Proof.
  revert t. induction items as [|item items IH]; intros t Hsub; [done|].
  rewrite xml_loop_fs_cons, IH by (intros; apply Hsub; by right).
  apply xml_fs_is_dir, Hsub. by left.
Qed.

Lemma copyable_spec (S D : path) (t : gmap path node) :
  copyable S D t = true ↔
    S ≠ D ∧ is_dir t D = true ∧ ∀ item, item ∈ xml_files → xml_ok S D t item = true.
Proof.
  unfold copyable. rewrite !andb_true_iff, bool_decide_eq_true, forallb_forall.
  split.
  - intros [[Hne HD] Hok]. split; [done|]. split; [done|].
    intros item Hin. by apply Hok, list_elem_of_In.
  - intros (Hne & HD & Hok). split; [done|].
    intros item Hin. by apply Hok, list_elem_of_In.
Qed.

(** The tree the copier leaves is one it maps to itself. *)
Lemma xml_loop_fs_again (S D : path) (t0 : gmap path node) :
  copyable S D t0 = true →
  let t1 := xml_loop_fs S D t0 xml_files t0 in
  copyable S D t1 = true ∧
  xml_loop_fs S D t1 xml_files t1 = t1 ∧
  ∀ item, item ∈ xml_files → xml_line S D t1 item = xml_line S D t0 item.
Proof.
  intros (Hne & HD & Hok)%copyable_spec t1.
  assert (Hsrc : ∀ item, item ∈ xml_files → t1 !! xml_src S item = t0 !! xml_src S item).
  { intros item Hin. by apply xml_loop_src. }
  assert (Hsub : ∀ item, item ∈ xml_files → t1 !! xml_subdir D item = Some Dir).
  { intros item Hin. apply xml_loop_subdir; [done..|]. right. split; [done|].
    specialize (Hok item Hin). unfold xml_ok in Hok.
    rewrite !andb_true_iff in Hok. by destruct Hok as [[? _] _]. }
  assert (Hdest : ∀ item, item ∈ xml_files →
            t1 !! xml_dest D item = match t0 !! xml_src S item with
                                    | Some (File d st) => Some (File d st)
                                    | _ => t0 !! xml_dest D item
                                    end).
  { intros item Hin. apply xml_loop_dest; [done|apply xml_files_NoDup|done]. }
  split; [|split].
  - apply copyable_spec. split; [done|]. split.
    { unfold t1. by rewrite xml_loop_is_dir. }
    intros item Hin. specialize (Hok item Hin). unfold xml_ok in Hok |- *.
    rewrite !andb_true_iff in Hok. destruct Hok as [[_ Hs] Hd].
    rewrite Hsub, Hsrc, Hdest by done. rewrite Hs. cbn [free_or_dir andb].
    by destruct (t0 !! xml_src S item) as [[|d st]|].
  - apply map_eq. intros q.
    destruct (decide (Exists (λ item, q = xml_subdir D item ∨ q = xml_dest D item)
                        xml_files)) as [Hex|Hnex].
    + apply Exists_exists in Hex as (item & Hin & [-> | ->]).
      * rewrite Hsub by done. apply xml_loop_subdir; [done..|]. left. by apply Hsub.
      * rewrite xml_loop_dest by (done || apply xml_files_NoDup).
        rewrite Hsrc by done.
        destruct (t0 !! xml_src S item) as [[|d st]|] eqn:E; try done.
        by rewrite Hdest, E.
    + apply xml_loop_lookup_other. intros item Hin.
      split; intros ->; apply Hnex, Exists_exists; eauto.
  - intros item Hin. unfold xml_line. by rewrite Hsrc.
Qed.

(** X7. [copy_xml_resources] is idempotent, and exactly so: since
    [shutil.copy2] gives the copy the source's metadata, a second run over
    the result of the first, at whatever time, succeeds, leaves the very same
    file system and prints the same lines again. *)
Theorem copy_xml_resources_idempotent (source_dir dest_dir : path) (s : State) :
  copyable source_dir dest_dir (fs s) = true →
  ∃ s1, copy_xml_resources source_dir dest_dir s = (Ok tt, s1) ∧
    ∀ s1', fs s1' = fs s1 →
      ∃ s2, copy_xml_resources source_dir dest_dir s1' = (Ok tt, s2) ∧
        fs s2 = fs s1 ∧
        drop (length (stdout s1')) (stdout s2) = drop (length (stdout s)) (stdout s1).
Proof.
  intros Hc.
  destruct (xml_loop_fs_again source_dir dest_dir (fs s) Hc) as (Hc1 & Hfix & Hlines).
  rewrite copy_xml_resources_run by done.
  eexists. split; [reflexivity|]. cbn [fs stdout].
  intros s1' Hfs. rewrite <- Hfs in Hc1, Hfix, Hlines.
  rewrite copy_xml_resources_run by done.
  eexists. split; [reflexivity|]. cbn [fs stdout].
  split; [by rewrite Hfix|].
  rewrite !drop_app_length. do 2 f_equal.
  apply list_fmap_ext. intros i item Hi. apply Hlines.
  by apply list_elem_of_lookup_2 in Hi.
Qed.


(** ** The round icon and its input *)

(** X8. [create_round_icon] does not touch the image it is given, nor the
    file system or the output: it works on two fresh images.  Called twice on
    the same square image it returns two different objects holding the same
    picture, and every image that existed before is as it was. *)
Theorem create_round_icon_leaves_input (s : State) (sq : ref) :
  (sq < length (heap s))%nat →
  0 ≤ (im_size (heap s !!! sq)).1 →
  0 ≤ (im_size (heap s !!! sq)).2 →
  ∃ r1 s1 r2 s2,
    create_round_icon sq s = (Ok r1, s1) ∧
    create_round_icon sq s1 = (Ok r2, s2) ∧
    r1 ≠ r2 ∧
    heap s2 !!! r2 = heap s2 !!! r1 ∧
    heap s2 !!! r1 = heap s1 !!! r1 ∧
    (∀ i, (i < length (heap s))%nat → heap s2 !!! i = heap s !!! i) ∧
    length (heap s2) = (length (heap s) + 4)%nat ∧
    fs s2 = fs s ∧ stdout s2 = stdout s.
Proof.
  intros Hsq Hw Hh.
  pose proof (create_round_icon_run s sq Hsq Hw Hh) as H1.
  destruct s as [h t o c u]. cbn [heap] in Hsq, Hw, Hh, H1.
  unfold set_heap in H1. cbn [heap fs stdout clock umask] in H1.
  set (m := round_mask (im_size (h !!! sq))) in H1.
  set (rd := round_of (h !!! sq)) in H1.
  set (s1 := mkState (h ++ [m; rd]) t o c u) in H1.
  assert (Hsame : heap s1 !!! sq = h !!! sq) by (by apply lookup_total_old).
  assert (Hsq1 : (sq < length (heap s1))%nat) by (cbn; rewrite length_app; lia).
  pose proof (create_round_icon_run s1 sq Hsq1) as H2.
  rewrite Hsame in H2. specialize (H2 Hw Hh).
  unfold set_heap in H2. cbn [s1 heap fs stdout clock umask] in H2.
  fold m rd in H2.
  eexists _, _, _, _. split; [exact H1|]. split; [exact H2|].
  cbn [heap fs stdout s1].
  split; [rewrite length_app; cbn; lia|].
  rewrite lookup_total_second.
  rewrite (lookup_total_old (h ++ [m; rd])) by (rewrite length_app; cbn; lia).
  rewrite lookup_total_second.
  split; [done|]. split; [done|]. split; [|split; [|done]].
  - intros i Hi. rewrite <- (assoc_L (++)). by apply lookup_total_old.
  - rewrite !length_app. cbn. lia.
Qed.

(** ** A resource path that is not a directory *)

Lemma Path_mkdir_under_file (out : path) (nm : string) (d : list byte) (st : stat)
    (s : State) :
  node_at (fs s) out = Some (File d st) →
  fs s !! (out ++ [nm]) = None →
  Path_mkdir (out ++ [nm]) true true s = (Raise NotADirectoryError, s).
Proof.
  intros Hout Hnone. unfold Path_mkdir. rewrite rev_unit. cbn [mkdir_rev].
  change (rev (nm :: rev out)) with (rev (rev out) ++ [nm]).
  rewrite rev_involutive.
  unfold try_except, os_mkdir. rewrite node_at_snoc, Hnone, parent_snoc, Hout.
  cbn [is_OSError andb]. unfold is_dir. by rewrite node_at_snoc, Hnone.
Qed.

Lemma density_body_under_file (r : ref) (out : path) (item : string * Z)
    (d : list byte) (st : stat) (s : State) :
  item ∈ densities →
  node_at (fs s) out = Some (File d st) →
  fs s !! mipmap_dir out item.1 = None →
  density_body r out item s = (Raise NotADirectoryError, s).
Proof.
  intros Hin Hout Hnone. destruct (densities_paths out item Hin) as (E1 & _).
  destruct item as [dn n]. cbn [fst] in Hnone, E1.
  unfold density_body. rewrite run_bind, E1. unfold mipmap_dir.
  by rewrite (Path_mkdir_under_file out _ d st).
Qed.

Lemma generate_icons_under_file (p out : path) (s : State) (im : image)
    (d : list byte) (st : stat) :
  loadable (fs s) p = Some im →
  node_at (fs s) out = Some (File d st) →
  fs s !! mipmap_dir out "mdpi" = None →
  generate_icons p out s =
    (Raise NotADirectoryError,
     mkState (heap s ++ source_objects im) (fs s)
       (stdout s ++ [LoadingSource p; SourceSize (im_size (normalize im)); Text ""])
       (clock s) (umask s)).
Proof.
  intros Hl Hout Hnone. destruct s as [h t o c u].
  cbn [heap fs stdout clock umask] in Hl, Hout, Hnone |- *.
  unfold generate_icons.
  rewrite run_bind, print_run, run_bind. unfold try_except at 1.
  rewrite run_bind.
  unfold set_stdout. cbn [heap fs stdout clock umask].
  rewrite (load_source_run p _ im) by done.
  unfold set_heap. cbn [heap fs stdout clock umask ret].
  step_with Image_size_run. rewrite source_ref_lookup.
  step_with print_run.
  step_with print_run.
  rewrite run_bind. unfold densities at 1. cbn [foreach]. rewrite run_bind.
  rewrite (density_body_under_file _ _ _ d st); [|apply list_elem_of_here|done|done].
  by rewrite <- !(assoc_L (++)).
Qed.

(** X9. The existence check of [main] does not ask for a directory.  When
    the resource path is a regular file and the icon loads, [main] goes on
    to [generate_icons], whose first [mkdir] raises [NotADirectoryError];
    nothing catches it, so the process ends with status 1 without the
    script's own "not found" message, the file system unchanged. *)
Theorem main_res_not_a_directory (script : path) (s : State) (im : image)
    (d : list byte) (st : stat) :
  loadable (fs s) (source_icon_path script) = Some im →
  fs s !! android_res_path script = Some (File d st) →
  fs s !! (android_res_path script // "mipmap-mdpi") = None →
  ∃ s', main script s = (Raise NotADirectoryError, s') ∧
    exit_status (main script s).1 = 1 ∧
    fs s' = fs s ∧
    stdout s' = stdout (checked s)
                  ++ [LoadingSource (source_icon_path script);
                      SourceSize (im_size (normalize im)); Text ""].
Proof.
  intros Hl Hres Hnone.
  assert (Hnode : node_at (fs s) (android_res_path script) = Some (File d st)).
  { rewrite android_res_path_eq in Hres |- *. by rewrite node_at_app_cons. }
  assert (Hex : path_exists (fs s) (android_res_path script) = true).
  { unfold path_exists. rewrite Hnode. by apply bool_decide_eq_true_2. }
  destruct (densities_paths (android_res_path script) ("mdpi", 48)) as (E1 & _);
    [apply list_elem_of_here|].
  cbn [fst] in E1.
  change (android_res_path script // "mipmap-mdpi")
    with (android_res_path script // ("mipmap-" +:+ "mdpi")) in Hnone.
  rewrite E1 in Hnone.
  rewrite main_checked by eauto using loadable_exists.
  rewrite (generate_icons_under_file _ _ (checked s) im d st) by done.
  eexists. split; [reflexivity|]. by destruct s.
Qed.


(** ** What a run prints *)

#[local] Instance prints_preorder (P : line → Prop) : PreOrder (prints P).
Proof.
  split.
  - intros s. exists []. by rewrite app_nil_r.
  - intros s1 s2 s3 (l1 & E1 & H1) (l2 & E2 & H2). exists (l1 ++ l2).
    split; [by rewrite E2, E1, (assoc_L (++)) | by apply Forall_app].
Qed.

#[local] Instance same_out_preorder : PreOrder same_out.
Proof.
  split; [by intros s|].
  intros s1 s2 s3 H12 H23. unfold same_out in H12, H23 |- *. congruence.
Qed.

Lemma same_out_prints (P : line → Prop) (s s' : State) : same_out s s' → prints P s s'.
Proof. intros E. exists []. rewrite app_nil_r. split; [exact E | constructor]. Qed.

Lemma print_prints (P : line → Prop) (l : line) : P l → preserves (prints P) (print l).
Proof. intros HP s r s' [= _ <-]. exists [l]. split; [done | by constructor]. Qed.

Lemma deref_same_out (r : ref) : preserves same_out (deref r).
Proof. by intros s x s' [= _ <-]. Qed.

Lemma alloc_same_out (im : image) : preserves same_out (alloc im).
Proof. by intros s x s' [= _ <-]. Qed.

Lemma assign_same_out (r : ref) (im : image) : preserves same_out (assign r im).
Proof. by intros s x s' [= _ <-]. Qed.

Lemma Path_exists_same_out (p : path) : preserves same_out (Path_exists p).
Proof. by intros s x s' [= _ <-]. Qed.

Lemma read_file_same_out (p : path) : preserves same_out (read_file p).
Proof.
  intros s x s'. unfold read_file.
  destruct (node_at (fs s) p) as [[|d st]|]; by intros [= _ <-].
Qed.

Lemma write_file_same_out (p : path) (d : list byte) : preserves same_out (write_file p d).
Proof. intros s r s' Hrun. by apply write_file_writes in Hrun as ((_ & ? & _) & _). Qed.

Lemma Path_mkdir_same_out (p : path) (parents exist_ok : bool) :
  preserves same_out (Path_mkdir p parents exist_ok).
Proof. intros s r s' Hrun. by apply Path_mkdir_adds in Hrun as ((_ & ? & _) & _). Qed.

Lemma shutil_copy2_same_out (src dst : path) : preserves same_out (shutil_copy2 src dst).
Proof. intros s r s' Hrun. by apply shutil_copy2_writes in Hrun as ((_ & ? & _) & _). Qed.

Ltac same_out_leaf :=
  idtac;
  lazymatch goal with
  | |- preserves same_out (deref _) => apply deref_same_out
  | |- preserves same_out (alloc _) => apply alloc_same_out
  | |- preserves same_out (assign _ _) => apply assign_same_out
  | |- preserves same_out (Path_exists _) => apply Path_exists_same_out
  | |- preserves same_out (read_file _) => apply read_file_same_out
  | |- preserves same_out (write_file _ _) => apply write_file_same_out
  | |- preserves same_out (Path_mkdir _ _ _) => apply Path_mkdir_same_out
  | |- preserves same_out (shutil_copy2 _ _) => apply shutil_copy2_same_out
  end.

Lemma create_round_icon_same_out (sq : ref) : preserves same_out (create_round_icon sq).
Proof.
  unfold create_round_icon, Image_size, Image_new, ImageDraw_Draw, ImageDraw_ellipse,
    Image_paste, Image_putalpha.
  by_parts same_out_leaf.
Qed.

Lemma Image_resize_same_out (r : img) (sz : Z * Z) (f : Resampling) :
  preserves same_out (Image_resize r sz f).
Proof. unfold Image_resize. by_parts same_out_leaf. Qed.

Lemma Image_save_same_out (r : ref) (p : path) (fmt : string) :
  preserves same_out (Image_save r p fmt).
Proof. unfold Image_save. by_parts same_out_leaf. Qed.

Lemma Image_size_same_out (r : img) : preserves same_out (Image_size r).
Proof. unfold Image_size. by_parts same_out_leaf. Qed.

Lemma load_source_same_out (p : path) : preserves same_out (load_source p).
Proof.
  unfold load_source, Image_open, Image_mode, Image_convert. by_parts same_out_leaf.
Qed.

Ltac silent :=
  apply (preserves_weaken same_out); [apply same_out_prints|];
  lazymatch goal with
  | |- preserves same_out (create_round_icon _) => apply create_round_icon_same_out
  | |- preserves same_out (Image_resize _ _ _) => apply Image_resize_same_out
  | |- preserves same_out (Image_save _ _ _) => apply Image_save_same_out
  | |- preserves same_out (load_source _) => apply load_source_same_out
  | |- preserves same_out (Image_size _) => apply Image_size_same_out
  | |- _ => same_out_leaf
  end.

Ltac prints_leaf :=
  idtac;
  lazymatch goal with
  | |- preserves (prints _) (print _) =>
      apply print_prints; first [ done | by intros [=] | auto ]
  | |- preserves (prints _) (_ ≫= _) => fail
  | |- preserves (prints _) (if _ then _ else _) => fail
  | |- preserves (prints _) (match _ with _ => _ end) => fail
  | |- preserves (prints _) _ => silent
  end.

Lemma density_body_prints (P : line → Prop) (r : img) (out : path) (item : string * Z) :
  (∀ q n m, P (Created q n m)) → preserves (prints P) (density_body r out item).
Proof. intros HP. destruct item as [d n]. unfold density_body. by_parts prints_leaf. Qed.

Lemma xml_body_prints (P : line → Prop) (S D : path) (item : string * string) :
  (∀ q, P (Copied q)) → (∀ q, P (SourceNotFound q)) →
  preserves (prints P) (xml_body S D item).
Proof. intros HP1 HP2. destruct item as [fp sub]. unfold xml_body. by_parts prints_leaf. Qed.

(** ** Announcements *)

Section Announces.
Context {A : Type} (C : line) (ok : A → Prop).

Lemma announces_bind {B} (m : M B) (k : B → M A) :
  preserves (prints (λ l, l ≠ C)) m →
  (∀ b, announces C ok (k b)) →
  announces C ok (m ≫= k).
Proof.
  intros Hm Hk s r s'. rewrite run_bind.
  destruct (m s) as [[b|e] s1] eqn:E; intros Hrun.
  - destruct (Hm _ _ _ E) as (l1 & E1 & H1).
    destruct (Hk b _ _ _ Hrun) as (l2 & E2 & H2).
    exists (l1 ++ l2). split; [by rewrite E2, E1, (assoc_L (++))|].
    rewrite elem_of_app, <- H2. split; [|auto]. intros [Hin|]; [|done].
    rewrite Forall_forall in H1. by destruct (H1 C Hin).
  - injection Hrun as <- <-. destruct (Hm _ _ _ E) as (l1 & E1 & H1).
    exists l1. split; [done|]. split.
    + intros Hin. rewrite Forall_forall in H1. by destruct (H1 C Hin).
    + by intros (a & ? & _).
Qed.

Lemma announces_raise (e : exn) : announces C ok (raise e).
Proof.
  intros s r s' [= <- <-]. exists []. rewrite app_nil_r. split; [done|].
  split; [by intros ?%elem_of_nil | by intros (a & ? & _)].
Qed.

Lemma announces_ret_other (a : A) : ¬ ok a → announces C ok (ret a).
Proof.
  intros Hn s r s' [= <- <-]. exists []. rewrite app_nil_r. split; [done|].
  split; [by intros ?%elem_of_nil|]. intros (a' & [= <-] & Hok). done.
Qed.

Lemma announces_print_ret (a : A) : ok a → announces C ok (print C ;; ret a).
Proof.
  intros Hok s r s'. rewrite run_bind, print_run. intros [= <- <-].
  exists [C]. split; [done|]. split; [by exists a | intros _; by left].
Qed.
End Announces.

Ltac announced tail quiet :=
  repeat first
    [ tail
    | lazymatch goal with
      | |- announces _ _ (raise _) => apply announces_raise
      | |- announces _ _ (ret _) => apply announces_ret_other; done
      | |- announces _ _ (_ ≫= _) => apply announces_bind; [solve [quiet] | intros]
      | |- announces _ _ (match ?x with _ => _ end) => destruct x
      | |- announces _ _ (if ?b then _ else _) => destruct b
      end ].

Lemma generate_icons_announces (p out : path) :
  announces (Text "SUCCESS! All Android icons generated.") (λ v, v = true)
    (generate_icons p out).
Proof.
  unfold generate_icons.
  announced
    ltac:(apply announces_print_ret; reflexivity)
    ltac:(by_parts ltac:(first
      [ prints_leaf
      | apply preserves_try_except
      | apply preserves_foreach; [tc_solve|]; intros; apply density_body_prints; done ])).
Qed.

(** X10. [generate_icons] prints "SUCCESS! All Android icons generated."
    exactly when it returns true: never before returning false, never before
    an exception ends the call, and always before returning true.  Whatever
    happens, the output already there is kept and only extended. *)
Theorem generate_icons_success_message (p out : path) (s : State) :
  let run := generate_icons p out s in
  ∃ ls, stdout run.2 = stdout s ++ ls ∧
    (Text "SUCCESS! All Android icons generated." ∈ ls ↔ run.1 = Ok true).
Proof.
  cbv zeta. destruct (generate_icons p out s) as [r s'] eqn:E.
  destruct (generate_icons_announces p out _ _ _ E) as (ls & E1 & H).
  exists ls. split; [done|]. cbn [fst]. rewrite H.
  split; [by intros (a & -> & ->) | intros ->; eauto].
Qed.


Lemma banner_prints (P : line → Prop) (title : string) :
  P (Text "============================================================") →
  P (Text title) →
  preserves (prints P) (banner title).
Proof. intros H1 H2. unfold banner. by_parts prints_leaf. Qed.

Lemma generate_icons_prints_other (C : string) (p out : path) :
  C ≠ "" → C ≠ "SUCCESS! All Android icons generated." →
  preserves (prints (λ l, l ≠ Text C)) (generate_icons p out).
Proof.
  intros H1 H2.
  assert (Text "" ≠ Text C) by congruence.
  assert (Text "SUCCESS! All Android icons generated." ≠ Text C) by congruence.
  unfold generate_icons.
  by_parts ltac:(first
    [ prints_leaf
    | apply preserves_try_except
    | apply preserves_foreach; [tc_solve|]; intros; apply density_body_prints; done ]).
Qed.

Lemma copy_xml_resources_prints_other (C : string) (S D : path) :
  C ≠ "" → C ≠ copying_message →
  preserves (prints (λ l, l ≠ Text C)) (copy_xml_resources S D).
Proof.
  intros H1 H2.
  assert (Text "" ≠ Text C) by congruence.
  assert (Text copying_message ≠ Text C) by congruence.
  unfold copy_xml_resources.
  by_parts ltac:(first
    [ prints_leaf
    | apply preserves_foreach; [tc_solve|]; intros; apply xml_body_prints; done ]).
Qed.

Lemma main_report_announces :
  announces (Text "  COMPLETE!") (λ _ : unit, True)
    (banner "  COMPLETE!" ;;
     print (Text "") ;;
     print (Text "Next steps:") ;;
     print (Text "  1. cd android") ;;
     print (Text "  2. .\gradlew clean") ;;
     print (Text "  3. .\gradlew assembleRelease") ;;
     print (Text "")).
Proof.
  intros s r s'.
  repeat first [rewrite run_bind | rewrite print_run | rewrite banner_run].
  intros [= <- <-]. cbn [set_stdout stdout].
  eexists. split; [by rewrite <- !(assoc_L (++))|].
  cbn [app]. split; [by exists tt|]. intros _. right. by left.
Qed.

Lemma main_announces (script : path) :
  announces (Text "  COMPLETE!") (λ _ : unit, True) (main script).
Proof.
  unfold main, sys_exit.
  announced
    ltac:(apply main_report_announces)
    ltac:(by_parts ltac:(first
      [ prints_leaf
      | apply banner_prints; done
      | apply generate_icons_prints_other; done
      | apply copy_xml_resources_prints_other; done ])).
Qed.

(** X11. [main] prints the "COMPLETE!" banner exactly when it ends normally,
    that is with exit status 0: no run that stops through [sys.exit(1)] or an
    uncaught error has printed it.  Whatever happens, the output already
    there is kept and only extended. *)
Theorem main_complete_banner (script : path) (s : State) :
  let run := main script s in
  ∃ ls, stdout run.2 = stdout s ++ ls ∧
    (Text "  COMPLETE!" ∈ ls ↔ run.1 = Ok tt) ∧
    (Text "  COMPLETE!" ∈ ls ↔ exit_status run.1 = 0).
Proof.
  cbv zeta. destruct (main script s) as [r s'] eqn:E.
  destruct (main_announces script _ _ _ E) as (ls & E1 & H).
  exists ls. split; [done|]. cbn [fst].
  assert (Hok : Text "  COMPLETE!" ∈ ls ↔ r = Ok tt).
  { rewrite H. split; [by intros ([] & -> & _) | intros ->; eauto]. }
  split; [done|]. rewrite Hok. split; [by intros ->|].
  destruct r as [[]|e]; [done|]. intros Hst.
  pose proof (main_exit_or_error script _ _ _ E) as [-> | He]; [done|].
  by destruct e.
Qed.


(** ** An output root that does not exist yet *)

Lemma is_dir_insert_below (t : gmap path node) (p : path) (x : string) (n : node) :
  is_dir (<[p ++ [x] := n]> t) p = is_dir t p.
Proof.
  unfold is_dir. destruct p as [|a p]; [done|]. cbn [node_at].
  rewrite lookup_insert_ne; [done|]. apply snoc_ne_self.
Qed.

(** [mkdir(parents=True, exist_ok=True)] succeeds whenever the path and
    each of its ancestors is absent or a directory; only the path and its
    ancestors can change. *)
Lemma mkdir_rev_makes (rp : list string) (s : State) :
  (∀ q, q `prefix_of` rev rp → free_or_dir (node_at (fs s) q) = true) →
  ∃ s', mkdir_rev rp true true s = (Ok tt, s') ∧
    is_dir (fs s') (rev rp) = true ∧
    (node_at (fs s) (rev rp) = None → is_dir (fs s') (parent (rev rp)) = true) ∧
    (∀ q, ¬ q `prefix_of` rev rp → fs s' !! q = fs s !! q).
Proof.
  revert s. induction rp as [|x rp IH]; intros s Hfree.
  { exists s. by repeat split. }
  cbn [mkdir_rev]. change (rev (x :: rp)) with (rev rp ++ [x]) in Hfree |- *.
  assert (Hp : free_or_dir (fs s !! (rev rp ++ [x])) = true).
  { rewrite <- node_at_snoc. by apply Hfree. }
  assert (Hpar : free_or_dir (node_at (fs s) (rev rp)) = true).
  { apply Hfree. by apply prefix_app_r. }
  unfold try_except, os_mkdir. rewrite !node_at_snoc.
  destruct (fs s !! (rev rp ++ [x])) as [[|d st]|] eqn:Ep; [|done|].
  - cbn [is_OSError andb]. unfold is_dir at 1. rewrite node_at_snoc, Ep.
    exists s. split; [done|]. split; [|split; [done|done]].
    unfold is_dir. by rewrite node_at_snoc, Ep.
  - rewrite parent_snoc.
    destruct (node_at (fs s) (rev rp)) as [[|d st]|] eqn:Epar; [|done|].
    + eexists. split; [reflexivity|]. cbn [set_fs fs]. split; [|split].
      * unfold is_dir. by rewrite node_at_snoc, lookup_insert_eq.
      * intros _. rewrite is_dir_insert_below. by apply is_dir_true.
      * intros q Hq. rewrite lookup_insert_ne; [done|]. by intros <-.
    + cbn [is_OSError]. rewrite run_bind.
      destruct (IH s) as (s1 & Hrun1 & Hdir1 & _ & Hsame1).
      { intros q Hq. apply Hfree. by apply prefix_app_r. }
      rewrite Hrun1.
      assert (Hp1 : fs s1 !! (rev rp ++ [x]) = None).
      { rewrite Hsame1; [done|]. intros Hpre%prefix_length.
        rewrite length_app in Hpre. cbn in Hpre. lia. }
      apply is_dir_true in Hdir1.
      unfold mkdir_single, try_except, os_mkdir.
      rewrite node_at_snoc, parent_snoc, Hp1, Hdir1.
      eexists. split; [reflexivity|]. cbn [set_fs fs]. split; [|split].
      * unfold is_dir. by rewrite node_at_snoc, lookup_insert_eq.
      * intros _. rewrite is_dir_insert_below. by apply is_dir_true.
      * intros q Hq. rewrite lookup_insert_ne by (by intros <-).
        apply Hsame1. intros Hpre. apply Hq. by apply prefix_app_r.
Qed.

Lemma Path_mkdir_again (p : path) (s : State) :
  is_dir (fs s) p = true → Path_mkdir p true true s = (Ok tt, s).
Proof.
  intros Hd. unfold Path_mkdir.
  destruct (rev p) as [|x rp] eqn:Erev.
  { apply (f_equal (@rev _)) in Erev. rewrite rev_involutive in Erev. by subst p. }
  cbn [mkdir_rev]. rewrite <- Erev, rev_involutive.
  unfold try_except, os_mkdir.
  apply is_dir_true in Hd as Hn. rewrite Hn. cbn [is_OSError andb]. by rewrite Hd.
Qed.

Lemma density_body_after_mkdir (r : ref) (out : path) (item : string * Z) (s s1 : State) :
  Path_mkdir (out // ("mipmap-" +:+ item.1)) true true s = (Ok tt, s1) →
  is_dir (fs s1) (out // ("mipmap-" +:+ item.1)) = true →
  density_body r out item s = density_body r out item s1.
Proof.
  intros H1 Hd. apply Path_mkdir_again in Hd as H2.
  destruct item as [d n]. cbn [fst] in H1, H2. unfold density_body.
  by rewrite (run_bind _ _ s), (run_bind _ _ s1), H1, H2.
Qed.

Lemma node_at_mipmap_dir (t : gmap path node) (out : path) (d : string) :
  node_at t (mipmap_dir out d) = t !! mipmap_dir out d.
Proof. apply node_at_snoc. Qed.

Lemma prefix_of_mipmap_dir (out : path) (d : string) (q : path) :
  q `prefix_of` mipmap_dir out d → q = mipmap_dir out d ∨ q `prefix_of` out.
Proof.
  intros [k Hq]. unfold mipmap_dir in Hq |- *.
  destruct k as [|y k _] using rev_ind.
  - left. by rewrite app_nil_r in Hq.
  - right. rewrite (assoc_L (++)) in Hq. apply app_inj_tail in Hq as [-> _].
    by apply prefix_app_r.
Qed.

Lemma below_out_lengths (out : path) (d f : string) :
  ¬ (mipmap_dir out d ++ [f]) `prefix_of` mipmap_dir out "mdpi" ∧
  out `prefix_of` mipmap_dir out d ++ [f] ∧ mipmap_dir out d ++ [f] ≠ out ∧
  out `prefix_of` mipmap_dir out d ∧ mipmap_dir out d ≠ out.
Proof.
  unfold mipmap_dir. repeat split.
  - intros Hpre%prefix_length. rewrite !length_app in Hpre. cbn in Hpre. lia.
  - rewrite <- (assoc_L (++)). by apply prefix_app_r.
  - intros E. apply (f_equal length) in E. rewrite !length_app in E. cbn in E. lia.
  - by apply prefix_app_r.
  - apply snoc_ne_self.
Qed.

Lemma generate_icons_fresh_root (p out : path) (s : State) (im : image) :
  loadable (fs s) p = Some im →
  (∀ q, q `prefix_of` out → free_or_dir (node_at (fs s) q) = true) →
  (∀ q, out `prefix_of` q → fs s !! q = None) →
  ∃ s', generate_icons p out s = (Ok true, s') ∧ is_dir (fs s') out = true.
Proof.
  intros Hl Hanc Hbelow.
  assert (Hmd : ("mdpi", 48) ∈ densities) by apply list_elem_of_here.
  destruct (densities_paths out ("mdpi", 48) Hmd) as (E1 & _). cbn [fst] in E1.
  assert (Hdirnone : fs s !! mipmap_dir out "mdpi" = None).
  { destruct (below_out_lengths out "mdpi" "") as (_ & _ & _ & ? & ?). by apply Hbelow. }
  destruct s as [h t o c u]. cbn [heap fs stdout clock umask] in Hl, Hanc, Hbelow, Hdirnone.
  unfold generate_icons.
  rewrite run_bind, print_run, run_bind. unfold try_except at 1.
  rewrite run_bind.
  unfold set_stdout. cbn [heap fs stdout clock umask].
  rewrite (load_source_run p _ im) by done.
  unfold set_heap. cbn [heap fs stdout clock umask ret].
  step_with Image_size_run. rewrite source_ref_lookup.
  step_with print_run.
  step_with print_run.
  rewrite run_bind.
  match goal with
  | |- context [foreach densities ?b ?st] => set (body := b); set (s0 := st)
  end.
  destruct (mkdir_rev_makes (rev (mipmap_dir out "mdpi")) s0)
    as (s1 & Hmk & Hd1 & Hpar1 & Hsame1).
  { rewrite rev_involutive. cbn [s0 fs]. intros q [-> | Hq]%prefix_of_mipmap_dir.
    - by rewrite node_at_mipmap_dir, Hdirnone.
    - by apply Hanc. }
  rewrite rev_involutive in Hd1, Hpar1, Hsame1.
  fold (Path_mkdir (mipmap_dir out "mdpi") true true) in Hmk.
  assert (Hfo : fs_only s0 s1) by (by apply Path_mkdir_adds in Hmk as (? & _)).
  assert (Hout1 : is_dir (fs s1) out = true).
  { unfold mipmap_dir in Hpar1 at 2. rewrite parent_snoc in Hpar1. apply Hpar1.
    by rewrite node_at_mipmap_dir. }
  assert (Hloop : foreach densities body s0 = foreach densities body s1).
  { unfold densities at 1 2. cbn [foreach]. rewrite (run_bind _ _ s0), (run_bind _ _ s1).
    unfold body at 1 3. rewrite (density_body_after_mkdir _ out ("mdpi", 48) s0 s1); [done|..].
    - cbn [fst]. by rewrite E1.
    - cbn [fst]. by rewrite E1. }
  assert (Hw1 : writable (fs s1) out densities = true).
  { unfold writable. rewrite Hout1. cbn [andb]. apply forallb_forall.
    intros item Hin%list_elem_of_In. apply density_ok_spec.
    pose proof densities_shape as Hsh. rewrite Forall_forall in Hsh.
    destruct (Hsh item Hin) as [Hparts Hpos].
    split; [done|]. split; [done|].
    assert (Hfile : ∀ f, fs s1 !! (mipmap_dir out item.1 ++ [f]) = None).
    { intros f. destruct (below_out_lengths out item.1 f) as (? & ? & ? & _).
      rewrite Hsame1 by done. by apply Hbelow. }
    unfold square_path, round_path. rewrite !Hfile. split; [|done].
    destruct (decide (item.1 = "mdpi")) as [->|Hne].
    + right. apply is_dir_true in Hd1. by rewrite node_at_mipmap_dir in Hd1.
    + left. destruct (below_out_lengths out item.1 "") as (_ & _ & _ & ? & ?).
      rewrite Hsame1; [by apply Hbelow|].
      intros Hpre. apply Hne.
      rewrite <- (app_nil_r (mipmap_dir out "mdpi")) in Hpre.
      by apply mipmap_dir_prefix in Hpre. }
  assert (Hr1 : (source_ref h im < length (heap s1))%nat).
  { destruct Hfo as (-> & _). cbn [s0 heap]. apply source_ref_valid. }
  rewrite Hloop. unfold body.
  rewrite (foreach_density_run _ out densities s1 Hr1 densities_NoDup Hw1).
  cbv beta iota. rewrite run_bind, print_run, run_bind, print_run.
  eexists. split; [reflexivity|]. cbn [set_stdout fs].
  by rewrite loop_fs_is_dir.
Qed.

Lemma ancestors_prefix (p q : path) : q `prefix_of` p → q ∈ ancestors p.
Proof.
  revert q. induction p as [|x p IH]; intros q Hq; cbn [ancestors].
  - apply prefix_nil_inv in Hq as ->. by left.
  - destruct q as [|y q]; [by left|]. right.
    apply prefix_cons_inv_1 in Hq as Hxy. apply prefix_cons_inv_2 in Hq. subst y.
    by apply list_elem_of_fmap_2, IH.
Qed.

Lemma fresh_root_spec (t : gmap path node) (out : path) :
  fresh_root t out = true →
  (∀ q, q `prefix_of` out → free_or_dir (node_at t q) = true) ∧
  (∀ q, out `prefix_of` q → t !! q = None).
Proof.
  unfold fresh_root. rewrite andb_true_iff, forallb_forall, bool_decide_eq_true.
  intros [Hanc Hbelow]. split.
  - intros q Hq. by apply Hanc, list_elem_of_In, ancestors_prefix.
  - intros q Hq. destruct (t !! q) as [n|] eqn:E; [|done].
    by destruct (Hbelow q n E).
Qed.

(** X12. [generate_icons] does not need the output directory to exist:
    [mkdir(parents=True, exist_ok=True)] creates it with every missing
    ancestor on the way to the first mipmap directory.  When the source loads,
    nothing is stored at or below the output path and each of its ancestors is
    absent or a directory, the call returns true, the output path is a
    directory afterwards, and every node that existed before is unchanged. *)
Theorem generate_icons_creates_output_root (p out : path) (s : State) (im : image) :
  loadable (fs s) p = Some im →
  fresh_root (fs s) out = true →
  ∃ s', generate_icons p out s = (Ok true, s') ∧
    is_dir (fs s') out = true ∧
    (∀ q n, fs s !! q = Some n → fs s' !! q = Some n).
Proof.
  intros Hl [Hanc Hbelow]%fresh_root_spec.
  destruct (generate_icons_fresh_root p out s im Hl Hanc Hbelow) as (s' & Hrun & Hd).
  exists s'. split; [done|]. split; [done|].
  intros q n Hq. apply (generate_icons_keeps p out _ _ _ Hrun); [done|].
  intros (item & _ & Hpath).
  assert (Hpre : out `prefix_of` q).
  { destruct Hpath as [-> | ->]; unfold square_path, round_path, mipmap_dir;
      rewrite <- (assoc_L (++)); by apply prefix_app_r. }
  by rewrite (Hbelow q Hpre) in Hq.
Qed.


(** ** A directory in the place of an XML source *)

Lemma shutil_copy2_dir_source (src dst : path) (s : State) :
  node_at (fs s) src = Some Dir →
  src ≠ dst → src ≠ dst ++ [basename src] →
  shutil_copy2 src dst s = (Raise IsADirectoryError, s).
Proof.
  intros Hsrc H1 H2. unfold shutil_copy2. rewrite run_bind.
  destruct (is_dir (fs s) dst);
    rewrite run_bind, bool_decide_eq_false_2 by done; cbn [andb];
    rewrite run_bind; unfold read_file; by rewrite Hsrc.
Qed.

Lemma xml_body_dir_source (S D : path) (item : string * string) (s : State) :
  item ∈ xml_files → S ≠ D →
  is_dir (fs s) D = true →
  free_or_dir (fs s !! xml_subdir D item) = true →
  fs s !! xml_src S item = Some Dir →
  xml_body S D item s =
    (Raise IsADirectoryError, set_fs (ensure_dir (xml_subdir D item) (fs s)) s).
Proof.
  intros Hin Hne HD Hfree Hsrc.
  pose proof xml_files_shape as Hsh. rewrite Forall_forall in Hsh.
  destruct (Hsh item Hin) as (Hfp & Hsub & Hnm & Hnames). rewrite Forall_forall in Hnames.
  destruct (Hnames item Hin) as [Hns _].
  pose proof (xml_src_basename S item Hin) as Hbase.
  destruct (xml_src_untouched S D item item Hne Hin Hin) as [Hn1 Hn2].
  apply is_dir_true in HD. apply free_or_dir_true in Hfree.
  destruct item as [fp sub].
  unfold xml_src, xml_subdir, xml_dest, joinpath in Hfree, Hsrc, Hbase, Hn1, Hn2 |- *.
  cbn [fst snd] in Hfp, Hsub, Hnm, Hns, Hfree, Hsrc, Hbase, Hn1, Hn2 |- *.
  rewrite Hfp in Hsrc, Hbase, Hn1, Hn2. rewrite Hsub in Hfree, Hn1, Hn2 |- *.
  rewrite Hnm in Hn2.
  destruct s as [h t o c u]. cbn [heap fs stdout clock umask] in HD, Hfree, Hsrc |- *.
  unfold xml_body, joinpath. rewrite Hfp, Hsub, Hnm.
  step_with Path_mkdir_run.
  set (t1 := ensure_dir (D ++ [sub]) t).
  assert (Hs1 : t1 !! (S ++ [sub; name fp]) = Some Dir).
  { unfold t1, ensure_dir. by rewrite lookup_update_at, decide_False. }
  rewrite run_bind. unfold Path_exists at 1. cbn [fs]. unfold path_exists.
  rewrite node_at_app_cons, Hs1, bool_decide_eq_true_2 by eauto.
  rewrite run_bind.
  rewrite shutil_copy2_dir_source; [done|..]; cbn [fs].
  - by rewrite node_at_app_cons.
  - done.
  - rewrite Hbase, <- !(assoc_L (++)). cbn [app].
    change (D ++ [sub; name fp; name fp]) with (D ++ [sub] ++ [name fp; name fp]).
    rewrite (assoc_L (++)). intros E. apply app_inj_2 in E as [_ E]; [|done]. congruence.
Qed.

Lemma xml_loop_subdir_free (S D : path) (t0 : gmap path node)
    (items : list (string * string)) (item : string * string) (t : gmap path node) :
  (∀ i, i ∈ items → i ∈ xml_files) → item ∈ xml_files →
  free_or_dir (t !! xml_subdir D item) = true →
  free_or_dir (xml_loop_fs S D t0 items t !! xml_subdir D item) = true.
Proof.
  revert t. induction items as [|i items IH]; intros t Hsub Hitem Hfree; [done|].
  assert (Hi : i ∈ xml_files) by (apply Hsub; by left).
  rewrite xml_loop_fs_cons. apply IH; [intros; apply Hsub; by right|done|].
  destruct (decide (xml_subdir D item = xml_subdir D i)) as [E|E].
  - rewrite E, xml_fs_subdir by done. rewrite E in Hfree.
    by destruct (t !! xml_subdir D i) as [[|? ?]|].
  - rewrite xml_fs_lookup_other; [done|done|].
    intros E'. symmetry in E'. by apply xml_dest_ne_subdir in E'.
Qed.

Lemma xml_files_split (before after : list (string * string)) (item : string * string) :
  xml_files = before ++ item :: after →
  NoDup before ∧
  (∀ i, i ∈ before → i ∈ xml_files) ∧
  (∀ i, i ∈ item :: after → i ∈ xml_files) ∧
  (∀ i j, i ∈ before → j ∈ item :: after → i ≠ j).
Proof.
  intros Hsplit. pose proof xml_files_NoDup as Hnd.
  rewrite Hsplit in Hnd |- *. apply NoDup_app in Hnd as (Hnd1 & Hdisj & _).
  split; [done|]. split; [|split].
  - intros i Hi. apply elem_of_app. by left.
  - intros i Hi. apply elem_of_app. by right.
  - intros i j Hi Hj ->. by apply (Hdisj j).
Qed.

(** X13. The copier asks whether a source exists, not whether it is a
    file.  When a directory sits at one of the four source paths, and nothing
    obstructs the entries before it, [copy_xml_resources] copies those earlier
    entries and then ends with [IsADirectoryError] from [shutil.copy2], which
    nothing catches: the destinations of that entry and of all later ones are
    as they were, and [Copied] is not printed for them. *)
Theorem copy_xml_resources_directory_source (source_dir dest_dir : path) (s : State)
    (before after : list (string * string)) (item : string * string) :
  xml_files = before ++ item :: after →
  source_dir ≠ dest_dir →
  is_dir (fs s) dest_dir = true →
  forallb (xml_ok source_dir dest_dir (fs s)) before = true →
  free_or_dir (fs s !! xml_subdir dest_dir item) = true →
  fs s !! xml_src source_dir item = Some Dir →
  ∃ s', copy_xml_resources source_dir dest_dir s = (Raise IsADirectoryError, s') ∧
    (∀ prior d st, prior ∈ before →
       fs s !! xml_src source_dir prior = Some (File d st) →
       fs s' !! xml_dest dest_dir prior = Some (File d st)) ∧
    (∀ later, later ∈ item :: after →
       fs s' !! xml_dest dest_dir later = fs s !! xml_dest dest_dir later) ∧
    stdout s' = stdout s ++ [Text copying_message]
                  ++ (xml_line source_dir dest_dir (fs s) <$> before).
Proof.
  intros Hsplit Hne HD Hok Hfree Hsrc.
  destruct (xml_files_split _ _ _ Hsplit) as (Hnd & Hsub1 & Hsub2 & Hapart).
  assert (Hitem : item ∈ xml_files) by (apply Hsub2; by left).
  rewrite forallb_forall in Hok.
  unfold copy_xml_resources.
  step_with print_run.
  rewrite run_bind, Hsplit, foreach_app.
  rewrite (foreach_xml_run source_dir dest_dir (fs s)); cbn [set_stdout fs]; try done;
    [|intros i Hi; by apply Hok, list_elem_of_In].
  cbn [foreach heap stdout clock umask]. rewrite run_bind.
  rewrite xml_body_dir_source; cbn [fs]; try done; cycle 1.
  { by rewrite xml_loop_is_dir. }
  { by apply xml_loop_subdir_free. }
  { rewrite xml_loop_lookup_other; [done|]. intros i Hi.
    apply xml_src_untouched; auto. }
  eexists. split; [reflexivity|]. cbn [set_fs fs stdout].
  assert (Hdest : ∀ i, i ∈ xml_files →
            ensure_dir (xml_subdir dest_dir item)
              (xml_loop_fs source_dir dest_dir (fs s) before (fs s)) !! xml_dest dest_dir i
            = xml_loop_fs source_dir dest_dir (fs s) before (fs s) !! xml_dest dest_dir i).
  { intros i Hi. unfold ensure_dir. rewrite lookup_update_at, decide_False; [done|].
    intros E. symmetry in E. by apply xml_dest_ne_subdir in E. }
  split; [|split].
  - intros prior d st Hprior Hfile. rewrite Hdest by auto.
    rewrite xml_loop_dest by done. by rewrite Hfile.
  - intros later Hlater. rewrite Hdest by auto.
    apply xml_loop_lookup_other. intros i Hi. split.
    + apply xml_dest_ne_subdir; auto.
    + intros E. apply xml_dest_inj in E; auto. by apply (Hapart i later).
  - by rewrite <- (assoc_L (++)).
Qed.

End Script.

(** * Concrete runs

    The theorems above, applied to the sample inputs with the reference
    kernels in place of Pillow's. *)

(** ** The rasteriser *)

Lemma quarter_next_finished (q : quarter) :
  q_finished q = true → quarter_next q = (None, q).
Proof. unfold quarter_next. by intros ->. Qed.

(** A filled ellipse has no inner outline. *)
Lemma ellipse_init_filled (a b : Z) :
  1 ≤ a → 1 ≤ b →
  ∃ o', ellipse_init a b (a + b) =
          mkEllipse o' (mkQuarter 0 0 0 0 0 0 true) (b mod 2) (a mod 2) a false (a mod 2).
Proof.
  intros Ha Hb. unfold ellipse_init.
  rewrite (proj2 (Z.ltb_ge (a + b) 1)) by lia.
  unfold quarter_init at 1 2.
  rewrite (proj2 (Z.ltb_ge a 0)), (proj2 (Z.ltb_ge b 0)) by lia. cbn [orb].
  unfold quarter_next. cbn [q_finished q_cx q_cy q_ex q_ey q_a q_b].
  unfold quarter_init.
  rewrite (proj2 (Z.ltb_lt (a - 2 * (a + b - 1)) 0)) by lia. cbn [orb].
  destruct ((a =? a mod 2) && (b mod 2 =? b)); by eexists.
Qed.

(** The first spans are those of the rows through the centre. *)
Lemma pillow_spans_first (a b : Z) :
  1 ≤ a → 1 ≤ b →
  ∃ rest, pillow_spans a b = row_spans (b mod 2) (a mod 2) a ++ rest.
Proof.
  intros Ha Hb. unfold pillow_spans.
  destruct (ellipse_init_filled a b Ha Hb) as [o' ->].
  destruct (Z.to_nat (b + 2)) as [|rows] eqn:Er; [lia|].
  destruct (Z.to_nat (a + b + 2)) as [|fuel] eqn:Ef; [lia|].
  cbn [ellipse_spans]. unfold ellipse_refill. cbn [e_finished e_py e_o e_i e_pl e_pr].
  destruct (skip_outer (S fuel) o' (b mod 2)) as [next_o o''].
  cbn [skip_inner]. rewrite quarter_next_finished by done.
  by eexists.
Qed.

(** The row through the centre is filled from edge to edge. *)
Lemma pillow_ellipse_middle_row (w h x : Z) :
  1 ≤ w → 1 ≤ h → 0 ≤ x ≤ w → pillow_ellipse (0, 0, w, h) x (h / 2) = true.
Proof.
  intros Hw Hh Hx. unfold pillow_ellipse. rewrite !Z.sub_0_r.
  rewrite (proj2 (Z.ltb_ge w 0)), (proj2 (Z.ltb_ge h 0)) by lia. cbn [orb negb andb].
  destruct (pillow_spans_first w h Hw Hh) as [rest ->].
  rewrite existsb_app. apply orb_true_intro. left.
  pose proof (Z.div_mod w 2 ltac:(lia)) as Ew.
  pose proof (Z.mod_pos_bound w 2 ltac:(lia)) as Bw.
  pose proof (Z.div_mod h 2 ltac:(lia)) as Eh.
  pose proof (Z.mod_pos_bound h 2 ltac:(lia)) as Bh.
  assert (Hrow : (- (h mod 2) + h) / 2 = h / 2).
  { replace (- (h mod 2) + h) with (h / 2 * 2) by lia. by rewrite Z.div_mul. }
  assert (Hleft : (- (w mod 2) + w) / 2 = w / 2).
  { replace (- (w mod 2) + w) with (w / 2 * 2) by lia. by rewrite Z.div_mul. }
  assert (Hright : (w mod 2 + w) / 2 ≤ w / 2 + 1).
  { apply Z.div_le_upper_bound; lia. }
  assert (Hsplit : (0 <? w mod 2) || (w mod 2 <? w) = true).
  { apply orb_true_iff. destruct (decide (w mod 2 = 0)); [right|left]; lia. }
  unfold row_spans. rewrite Hsplit. cbn [andb].
  rewrite !existsb_app.
  destruct (decide (x ≤ w / 2)).
  - apply orb_true_iff; right. apply orb_true_iff; right. apply orb_true_iff; left.
    cbn [existsb on_span]. rewrite orb_false_r.
    rewrite Hrow, Hleft. replace (- w + w) with 0 by lia.
    change (0 / 2) with 0.
    repeat (apply andb_true_intro; split); lia.
  - apply orb_true_iff; right. apply orb_true_iff; right. apply orb_true_iff; right.
    cbn [existsb on_span]. rewrite orb_false_r.
    rewrite Hrow.
    replace ((w + w) / 2) with w by (replace (w + w) with (w * 2) by lia; by rewrite Z.div_mul).
    repeat (apply andb_true_intro; split); lia.
Qed.

Lemma pillow_ellipse_centre (w h : Z) :
  1 ≤ w → 1 ≤ h → pillow_ellipse (0, 0, w, h) (w / 2) (h / 2) = true.
Proof.
  intros Hw Hh. apply pillow_ellipse_middle_row; [done..|].
  split; [apply Z.div_pos; lia|]. apply Z.div_le_upper_bound; lia.
Qed.

Lemma existsb_filter {A} (f g : A → bool) (l : list A) :
  (∀ a, f a = true → g a = true) →
  existsb f (List.filter g l) = existsb f l.
Proof.
  intros Hfg. induction l as [|a l IH]; [done|]. cbn.
  destruct (g a) eqn:Hg; cbn; rewrite IH; [done|].
  destruct (f a) eqn:Hf; [|done]. apply Hfg in Hf. congruence.
Qed.

Lemma pillow_ellipse_spans (n x y : Z) :
  0 ≤ n →
  pillow_ellipse (0, 0, n, n) x y =
    existsb (on_span 0 0 n n x y) (List.filter (on_row 0 n y) (pillow_spans n n)).
Proof.
  intros Hn. unfold pillow_ellipse. rewrite !Z.sub_0_r.
  rewrite (proj2 (Z.ltb_ge n 0)) by lia. cbn [orb negb andb].
  symmetry. apply existsb_filter. intros [[X0 Y] X1]. unfold on_span, on_row.
  intros H. by apply andb_true_iff in H as [[H _]%andb_true_iff _].
Qed.

(** ** The rasteriser on the launcher-icon sizes *)

Lemma icon_sizes_near_inscribed : forallb near_inscribed densities.*2 = true.
Proof. vm_compute. reflexivity. Qed.

Lemma pillow_ellipse_near_inscribed (n x y : Z) :
  n ∈ densities.*2 → in_bounds (n, n) x y = true →
  (centre_distance2 n x y ≤ (n - 4) * (n - 4) → pillow_ellipse (0, 0, n, n) x y = true) ∧
  ((n + 4) * (n + 4) < centre_distance2 n x y → pillow_ellipse (0, 0, n, n) x y = false).
Proof.
  intros Hn Hin.
  assert (Hxy : (0 ≤ x < n) ∧ (0 ≤ y < n)).
  { unfold in_bounds in Hin. cbn [fst snd] in Hin.
    apply andb_true_iff in Hin as [[[H1 H2]%andb_true_iff H3]%andb_true_iff H4]. lia. }
  destruct Hxy as [Hx Hy].
  pose proof icon_sizes_near_inscribed as Hall.
  rewrite forallb_forall in Hall. specialize (Hall n (proj1 (list_elem_of_In _ _) Hn)).
  unfold near_inscribed in Hall. cbv zeta in Hall.
  rewrite forallb_forall in Hall.
  assert (Hiy : In y (seqZ 0 n)) by (apply list_elem_of_In, elem_of_seqZ; lia).
  specialize (Hall y Hiy). rewrite forallb_forall in Hall.
  assert (Hix : In x (seqZ 0 n)) by (apply list_elem_of_In, elem_of_seqZ; lia).
  specialize (Hall x Hix).
  assert (0 ≤ n) by lia.
  rewrite pillow_ellipse_spans by done.
  apply andb_true_iff in Hall as [H1 H2].
  destruct (existsb _ _).
  - split; [done|]. intros Hfar. cbn in H2. apply Z.leb_le in H2. lia.
  - split; [|done]. intros Hdeep. cbn in H1.
    rewrite (proj2 (Z.leb_le _ _) Hdeep) in H1. done.
Qed.

Lemma icon_corners_far (n x y : Z) :
  n ∈ densities.*2 → (x = 0 ∨ x = n - 1) → (y = 0 ∨ y = n - 1) →
  in_bounds (n, n) x y = true ∧ (n + 4) * (n + 4) < centre_distance2 n x y.
Proof.
  intros Hn Hx Hy.
  assert (48 ≤ n).
  { unfold densities in Hn. cbn in Hn. rewrite !elem_of_cons in Hn.
    rewrite elem_of_nil in Hn. lia. }
  unfold in_bounds, centre_distance2. cbn [fst snd]. split.
  - repeat (apply andb_true_intro; split); lia.
  - destruct Hx as [-> | ->], Hy as [-> | ->]; nia.
Qed.

(** At 48x48 the filled ellipse has a pixel in its last column no point of
    which is in the inscribed ellipse. *)
Lemma stray_pixel_outside : pixel_outside_inscribed 48 48 47 16.
Proof.
  intros n i j Hn Hi Hj. unfold inside_inscribed. apply Z.leb_gt. nia.
Qed.

Lemma stray_pixel_filled : pillow_ellipse (0, 0, 48, 48) 47 16 = true.
Proof. vm_compute. reflexivity. Qed.

(** * The round icon's mask *)




Lemma generate_icons_square_icons_witness :
  loadable flat_decode (fs sample_state) sample_icon_path = Some sample_icon ∧
  writable (fs sample_state) sample_res densities = true ∧
  ∃ s', generate_icons pillow_ellipse nearest_resample opaque_convert flat_decode flat_header raster_encode
          sample_icon_path sample_res sample_state = (Ok true, s').
Proof.
  assert (H1 : loadable flat_decode (fs sample_state) sample_icon_path = Some sample_icon)
    by reflexivity.
  assert (H2 : writable (fs sample_state) sample_res densities = true) by (vm_compute; reflexivity).
  split; [exact H1|]. split; [exact H2|].
  destruct (generate_icons_square_icons pillow_ellipse nearest_resample opaque_convert
              flat_decode flat_header raster_encode _ _ _ _ H1 H2) as (s' & Hrun & _).
  exists s'. exact Hrun.
Defined.

Lemma densities_fixed_order_witness :
  loadable flat_decode (fs sample_state) sample_icon_path = Some sample_icon ∧
  writable (fs sample_state) sample_res densities = true ∧
  length densities = 5%nat ∧
  ∃ s', generate_icons pillow_ellipse nearest_resample opaque_convert flat_decode flat_header raster_encode
          sample_icon_path sample_res sample_state = (Ok true, s').
Proof.
  assert (H1 : loadable flat_decode (fs sample_state) sample_icon_path = Some sample_icon)
    by reflexivity.
  assert (H2 : writable (fs sample_state) sample_res densities = true) by (vm_compute; reflexivity).
  split; [exact H1|]. split; [exact H2|].
  destruct (densities_fixed_order pillow_ellipse nearest_resample opaque_convert
              flat_decode flat_header raster_encode sample_icon_path sample_res _ _ H1 H2)
    as (_ & Hlen & _ & s' & Hrun & _).
  split; [exact Hlen|]. exists s'. exact Hrun.
Defined.

Lemma generate_icons_rgba_witness :
  loadable flat_decode (fs sample_state) sample_icon_path = Some sample_icon ∧
  writable (fs sample_state) sample_res densities = true ∧
  im_mode sample_icon = "RGB" ∧
  ∃ s', generate_icons pillow_ellipse nearest_resample opaque_convert flat_decode flat_header raster_encode
          sample_icon_path sample_res sample_state = (Ok true, s') ∧
        im_mode (normalize opaque_convert sample_icon) = "RGBA".
Proof.
  assert (H1 : loadable flat_decode (fs sample_state) sample_icon_path = Some sample_icon)
    by reflexivity.
  assert (H2 : writable (fs sample_state) sample_res densities = true) by (vm_compute; reflexivity).
  split; [exact H1|]. split; [exact H2|]. split; [reflexivity|].
  destruct (generate_icons_rgba pillow_ellipse nearest_resample opaque_convert
              flat_decode flat_header raster_encode sample_icon_path sample_res _ _ H1 H2)
    as (s' & Hrun & Hmode & _).
  exists s'. split; [exact Hrun | exact Hmode].
Defined.

(** The source loads, yet [generate_icons] does not return true: the stale
    file makes [mkdir] raise [FileExistsError], which nothing catches. *)
Lemma generate_icons_true_iff_loaded_counterexample :
  loadable flat_decode (fs blocked_state) sample_icon_path = Some sample_icon ∧
  (generate_icons pillow_ellipse nearest_resample opaque_convert flat_decode flat_header raster_encode
     sample_icon_path sample_res blocked_state).1 = Raise FileExistsError ∧
  ¬ ∃ s', generate_icons pillow_ellipse nearest_resample opaque_convert flat_decode flat_header
            raster_encode sample_icon_path sample_res blocked_state = (Ok true, s').
Proof.
  assert (H : (generate_icons pillow_ellipse nearest_resample opaque_convert flat_decode flat_header
                 raster_encode sample_icon_path sample_res blocked_state).1
              = Raise FileExistsError) by (vm_compute; reflexivity).
  split; [reflexivity|]. split; [exact H|].
  intros [s' Hrun]. rewrite Hrun in H. discriminate H.
Qed.

Lemma main_missing_paths_exit_witness :
  path_exists (fs bare_state) (source_icon_path sample_script) = false ∧
  ∃ s', main pillow_ellipse nearest_resample opaque_convert flat_decode flat_header raster_encode
          sample_script bare_state = (Raise (SystemExit 1), s') ∧
        fs s' = fs bare_state.
Proof.
  assert (H1 : path_exists (fs bare_state) (source_icon_path sample_script) = false)
    by (vm_compute; reflexivity).
  split; [exact H1|].
  destruct (main_missing_paths_exit pillow_ellipse nearest_resample opaque_convert
              flat_decode flat_header raster_encode sample_script bare_state (or_introl H1))
    as (s' & Hrun & _ & Hfs & _).
  exists s'. split; [exact Hrun | exact Hfs].
Defined.

Lemma generate_icons_idempotent_witness :
  loadable flat_decode (fs sample_state) sample_icon_path = Some sample_icon ∧
  writable (fs sample_state) sample_res densities = true ∧
  ∃ s1, generate_icons pillow_ellipse nearest_resample opaque_convert flat_decode flat_header raster_encode
          sample_icon_path sample_res sample_state = (Ok true, s1) ∧
    ∀ s1', fs s1' = fs s1 →
      node_at (fs s1) sample_icon_path = node_at (fs sample_state) sample_icon_path →
      ∃ s2, generate_icons pillow_ellipse nearest_resample opaque_convert flat_decode flat_header
              raster_encode sample_icon_path sample_res s1' = (Ok true, s2) ∧
            node_data <$> fs s2 = node_data <$> fs s1.
Proof.
  assert (H1 : loadable flat_decode (fs sample_state) sample_icon_path = Some sample_icon)
    by reflexivity.
  assert (H2 : writable (fs sample_state) sample_res densities = true) by (vm_compute; reflexivity).
  split; [exact H1|]. split; [exact H2|].
  destruct (generate_icons_idempotent pillow_ellipse nearest_resample opaque_convert
              flat_decode flat_header raster_encode sample_icon_path sample_res _ _ H1 H2)
    as (s1 & Hrun & Hagain).
  exists s1. split; [exact Hrun|].
  intros s1' Hfs Hsrc. destruct (Hagain s1' Hfs Hsrc) as (s2 & Hrun2 & Hdata & _).
  exists s2. split; [exact Hrun2 | exact Hdata].
Defined.

Lemma copy_xml_resources_best_effort_witness :
  copyable sample_fix sample_res (fs fix_state) = true ∧
  fs fix_state !! (sample_fix // "values/styles.xml") = None ∧
  ∃ s', copy_xml_resources sample_fix sample_res fix_state = (Ok tt, s') ∧
    fs s' !! (sample_res // "values" // name "values/strings.xml")
      = Some (File [x3c; x61; x2f; x3e] (mkStat 384 7)) ∧
    SourceNotFound (sample_fix // "values/styles.xml") ∈ stdout s'.
Proof.
  assert (H1 : copyable sample_fix sample_res (fs fix_state) = true) by (vm_compute; reflexivity).
  assert (H2 : fs fix_state !! (sample_fix // "values/styles.xml") = None)
    by (vm_compute; reflexivity).
  assert (H3 : fs fix_state !! (sample_fix // "values/strings.xml")
               = Some (File [x3c; x61; x2f; x3e] (mkStat 384 7)))
    by (vm_compute; reflexivity).
  assert (Hin1 : ("values/strings.xml", "values") ∈ xml_files) by apply list_elem_of_here.
  assert (Hin2 : ("values/styles.xml", "values") ∈ xml_files)
    by apply list_elem_of_further, list_elem_of_here.
  split; [exact H1|]. split; [exact H2|].
  destruct (copy_xml_resources_best_effort pillow_ellipse nearest_resample opaque_convert
              flat_decode flat_header raster_encode sample_fix sample_res fix_state H1)
    as (_ & _ & (s' & Hrun & _ & _ & Hitems) & _).
  exists s'. split; [exact Hrun|].
  destruct (Hitems _ _ Hin1) as (_ & Hcopy & _).
  destruct (Hitems _ _ Hin2) as (_ & _ & Hskip).
  split.
  - exact (proj1 (Hcopy _ _ H3)).
  - exact (proj2 (Hskip H2)).
Defined.

(** C9.  A source icon whose header parses as an RGBA image but whose pixel
    data does not decode, here the sample project with its icon file cut
    off after the header.  Decoding fails, and [generate_icons] does not
    return false: [Image.open] reads the header only, the mode is RGBA so
    nothing is converted inside the [try] block, the loop creates
    [res/mipmap-mdpi], and the first [resize] raises [OSError], which nothing
    catches.  The output tree is changed, and [main] ends with the traceback
    status 1 without the message of the [except] branch. *)
Theorem generate_icons_truncated_source :
  let run := generate_icons pillow_ellipse nearest_resample opaque_convert flat_decode
               flat_header raster_encode sample_icon_path sample_res truncated_state in
  let whole := main pillow_ellipse nearest_resample opaque_convert flat_decode
                 flat_header raster_encode sample_script truncated_state in
  loadable flat_decode (fs truncated_state) sample_icon_path = None ∧
  undecodable flat_decode flat_header (fs truncated_state) sample_icon_path
    = Some ("RGBA", (4, 4)) ∧
  run.1 = Raise OSError ∧
  is_dir (fs truncated_state) (sample_res // "mipmap-mdpi") = false ∧
  is_dir (fs run.2) (sample_res // "mipmap-mdpi") = true ∧
  fs run.2 ≠ fs truncated_state ∧
  stdout run.2 = [LoadingSource sample_icon_path; SourceSize (4, 4); Text ""] ∧
  whole.1 = Raise OSError ∧
  exit_status whole.1 = 1 ∧
  is_dir (fs whole.2) (sample_res // "mipmap-mdpi") = true.
Proof.
  cbv zeta.
  assert (Hbefore : is_dir (fs truncated_state) (sample_res // "mipmap-mdpi") = false)
    by (vm_compute; reflexivity).
  assert (Hafter : is_dir (fs (generate_icons pillow_ellipse nearest_resample opaque_convert
                                 flat_decode flat_header raster_encode sample_icon_path
                                 sample_res truncated_state).2)
                     (sample_res // "mipmap-mdpi") = true)
    by (vm_compute; reflexivity).
  split; [vm_compute; reflexivity|]. split; [vm_compute; reflexivity|].
  split; [vm_compute; reflexivity|]. split; [exact Hbefore|]. split; [exact Hafter|].
  split.
  { intros E. rewrite E, Hbefore in Hafter. discriminate Hafter. }
  split; [vm_compute; reflexivity|]. split; [vm_compute; reflexivity|].
  split; vm_compute; reflexivity.
Qed.

(** The same file with an RGB header: the conversion inside the [try] block
    needs the pixel data, the [except] branch runs, and [generate_icons]
    returns false with the file system unchanged. *)
Example sample_truncated_rgb_run :
  let run := generate_icons pillow_ellipse nearest_resample opaque_convert flat_decode
               flat_header raster_encode sample_icon_path sample_res truncated_rgb_state in
  run.1 = Ok false ∧ fs run.2 = fs truncated_rgb_state ∧
  stdout run.2 = [LoadingSource sample_icon_path; CouldNotLoad sample_icon_path OSError].
Proof. cbv zeta. repeat split; vm_compute; reflexivity. Qed.

(** An icon file that is no image at all. *)
Example sample_corrupt_run :
  let run := generate_icons pillow_ellipse nearest_resample opaque_convert flat_decode
               flat_header raster_encode sample_icon_path sample_res corrupt_state in
  run.1 = Ok false ∧ fs run.2 = fs corrupt_state ∧
  stdout run.2 =
    [LoadingSource sample_icon_path; CouldNotLoad sample_icon_path UnidentifiedImageError].
Proof. cbv zeta. repeat split; vm_compute; reflexivity. Qed.

Lemma densities_independent_witness :
  (0 < length (heap round_state))%nat ∧
  rev densities ≡ₚ densities ∧
  writable (fs round_state) sample_res densities = true ∧
  ∃ s', foreach (rev densities)
          (density_body pillow_ellipse nearest_resample opaque_convert raster_encode
             (Mem 0%nat) sample_res) round_state = (Ok tt, s') ∧
        fs s' = loop_fs pillow_ellipse nearest_resample opaque_convert raster_encode
                  1000 18 (heap round_state !!! 0%nat) sample_res densities
                  (fs round_state).
Proof.
  assert (H1 : (0 < length (heap round_state))%nat) by (cbn; lia).
  assert (H2 : 0 ≤ (im_size (heap round_state !!! 0%nat)).1) by (cbn; lia).
  assert (H3 : 0 ≤ (im_size (heap round_state !!! 0%nat)).2) by (cbn; lia).
  assert (H4 : rev densities ≡ₚ densities) by (symmetry; apply Permutation_rev).
  assert (H5 : writable (fs round_state) sample_res densities = true) by (vm_compute; reflexivity).
  split; [exact H1|]. split; [exact H4|]. split; [exact H5|].
  destruct (densities_independent pillow_ellipse nearest_resample opaque_convert raster_encode
              round_state 0%nat sample_res (rev densities) H1 H2 H3 H4 H5)
    as (_ & s' & Hrun & _ & _ & Hfs & _).
  exists s'. split; [exact Hrun | exact Hfs].
Defined.

(** ** Sample runs *)

(** With the reference kernels, the mdpi round icon made from the sample
    source is 48x48 RGBA with transparent corners and an opaque centre, and
    the xxxhdpi square icon is 192x192 RGBA. *)
Example sample_round_icon_mdpi :
  let square := square_of nearest_resample (normalize opaque_convert sample_icon) 48 in
  let round := round_of pillow_ellipse opaque_convert square in
  im_mode round = "RGBA" ∧ im_size round = (48, 48) ∧
  im_band round 3 0 0 = 0 ∧ im_band round 3 47 0 = 0 ∧
  im_band round 3 0 47 = 0 ∧ im_band round 3 47 47 = 0 ∧
  im_band round 3 24 24 = 255.
Proof. vm_compute. repeat split. Qed.

Example sample_square_icon_xxxhdpi :
  let square := square_of nearest_resample (normalize opaque_convert sample_icon) 192 in
  im_mode square = "RGBA" ∧ im_size square = (192, 192) ∧ im_band square 3 100 100 = 255.
Proof. vm_compute. repeat split. Qed.

(** The whole of [main] on the sample project: ten icons in five mipmap
    directories, and exit status 0. *)
Example sample_main_run :
  let run := main pillow_ellipse nearest_resample opaque_convert flat_decode flat_header raster_encode
               sample_script sample_state in
  exit_status run.1 = 0 ∧
  length (heap run.2) = 17%nat ∧
  size (fs run.2) = (size (fs sample_state) + 15)%nat.
Proof. cbv zeta. repeat split; reflexivity. Qed.

Lemma generate_icons_true_means_written_witness :
  ∃ s', generate_icons pillow_ellipse nearest_resample opaque_convert flat_decode flat_header raster_encode
          sample_icon_path sample_res sample_state = (Ok true, s') ∧
    is_dir (fs s') (sample_res // "mipmap-hdpi") = true ∧
    ∃ st, fs s' !! (sample_res // "mipmap-hdpi" // "ic_launcher.png")
          = Some (File (raster_encode "PNG"
                          (resize_image nearest_resample
                             (normalize opaque_convert sample_icon) (72, 72) LANCZOS)) st).
Proof.
  assert (Hin : ("hdpi", 72%Z) ∈ densities)
    by (unfold densities; apply list_elem_of_further, list_elem_of_here).
  assert (H1 : loadable flat_decode (fs sample_state) sample_icon_path = Some sample_icon)
    by reflexivity.
  assert (H2 : writable (fs sample_state) sample_res densities = true) by (vm_compute; reflexivity).
  pose proof (generate_icons_succeeds pillow_ellipse nearest_resample opaque_convert
                flat_decode flat_header raster_encode sample_icon_path sample_res _ _ H1 H2) as Hrun.
  eexists. split; [exact Hrun|].
  destruct (generate_icons_true_means_written pillow_ellipse nearest_resample opaque_convert
              flat_decode flat_header raster_encode _ _ _ _ Hrun) as (im & Hl & Hall).
  assert (Him : Some im = Some sample_icon) by (rewrite <- Hl; exact H1).
  injection Him as ->.
  destruct (Hall "hdpi" 72%Z Hin) as (Hd & st1 & st2 & Hsq & _).
  split; [exact Hd|]. exists st1. exact Hsq.
Defined.

Lemma generate_icons_stops_at_obstacle_witness :
  ∃ s', generate_icons pillow_ellipse nearest_resample opaque_convert flat_decode flat_header raster_encode
          sample_icon_path sample_res stale_state = (Raise FileExistsError, s') ∧
    (∃ st, fs s' !! square_path sample_res "hdpi"
           = Some (File (raster_encode "PNG"
                           (square_of nearest_resample
                              (normalize opaque_convert sample_icon) 72)) st)) ∧
    fs s' !! mipmap_dir sample_res "xxhdpi" = None.
Proof.
  assert (Hin : ("hdpi", 72%Z) ∈ [("mdpi", 48%Z); ("hdpi", 72%Z)])
    by apply list_elem_of_further, list_elem_of_here.
  assert (Hlater : ("xxhdpi", 144%Z) ∈ [("xhdpi", 96%Z); ("xxhdpi", 144%Z); ("xxxhdpi", 192%Z)])
    by apply list_elem_of_further, list_elem_of_here.
  assert (Hpre : mipmap_dir sample_res "xxhdpi" `prefix_of` mipmap_dir sample_res "xxhdpi")
    by (exists []; reflexivity).
  assert (Hnone : fs stale_state !! mipmap_dir sample_res "xxhdpi" = None)
    by (vm_compute; reflexivity).
  assert (H0 : densities = [("mdpi", 48); ("hdpi", 72)]
                 ++ ("xhdpi", 96) :: [("xxhdpi", 144); ("xxxhdpi", 192)]) by reflexivity.
  assert (H1 : loadable flat_decode (fs stale_state) sample_icon_path = Some sample_icon)
    by reflexivity.
  assert (H2 : writable (fs stale_state) sample_res [("mdpi", 48); ("hdpi", 72)] = true)
    by (vm_compute; reflexivity).
  assert (H3 : fs stale_state !! (sample_res ++ ["mipmap-" +:+ ("xhdpi", 96%Z).1])
               = Some (File [] sample_stat)) by (vm_compute; reflexivity).
  destruct (generate_icons_stops_at_obstacle pillow_ellipse nearest_resample opaque_convert
              flat_decode flat_header raster_encode _ _ _ _ _ _ _ _ _ H0 H1 H2 H3)
    as (s' & Hrun & Hprior & Hlat & _).
  exists s'. split; [exact Hrun|]. split.
  - destruct (Hprior _ Hin) as (st1 & _ & Hsq & _). exists st1. exact Hsq.
  - exact (eq_trans (Hlat _ _ Hlater Hpre) Hnone).
Defined.

Lemma main_complete_run_witness :
  ∃ s', main pillow_ellipse nearest_resample opaque_convert flat_decode flat_header raster_encode
          sample_script fix_state = (Ok tt, s') ∧
    fs s' !! (android_res_path sample_script // "values" // name "values/strings.xml")
      = Some (File [x3c; x61; x2f; x3e] (mkStat 384 7)) ∧
    ∃ st, fs s' !! (android_res_path sample_script // ("mipmap-" +:+ "mdpi")
                      // "ic_launcher.png")
          = Some (File (raster_encode "PNG"
                          (resize_image nearest_resample
                             (normalize opaque_convert sample_icon) (48, 48) LANCZOS)) st).
Proof.
  assert (Hin1 : ("values/strings.xml", "values") ∈ xml_files) by apply list_elem_of_here.
  assert (Hin2 : ("mdpi", 48%Z) ∈ densities) by apply list_elem_of_here.
  assert (H1 : loadable flat_decode (fs fix_state) (source_icon_path sample_script)
               = Some sample_icon) by reflexivity.
  assert (H2 : writable (fs fix_state) (android_res_path sample_script) densities = true)
    by (vm_compute; reflexivity).
  assert (H3 : path_exists (fs fix_state) (manual_fix_path sample_script) = true)
    by (vm_compute; reflexivity).
  assert (H4 : copyable (manual_fix_path sample_script) (android_res_path sample_script)
                 (fs fix_state) = true) by (vm_compute; reflexivity).
  assert (H5 : fs fix_state !! (manual_fix_path sample_script // "values/strings.xml")
               = Some (File [x3c; x61; x2f; x3e] (mkStat 384 7)))
    by (vm_compute; reflexivity).
  destruct (main_complete_run pillow_ellipse nearest_resample opaque_convert
              flat_decode flat_header raster_encode sample_script fix_state sample_icon H1 H2 H3 H4)
    as (s' & Hrun & Hicons & Hxml).
  exists s'. split; [exact Hrun|]. split.
  - exact (Hxml _ _ _ _ Hin1 H5).
  - destruct (Hicons _ _ Hin2) as (st1 & _ & Hsq & _). exists st1. exact Hsq.
Defined.

Lemma main_without_manual_fix_witness :
  ∃ s', main pillow_ellipse nearest_resample opaque_convert flat_decode flat_header raster_encode
          sample_script sample_state = (Ok tt, s') ∧
    Text "Note: android-resources-manual-fix directory not found." ∈ stdout s' ∧
    fs s' !! xml_dest (android_res_path sample_script) ("values/strings.xml", "values") = None.
Proof.
  assert (Hin : ("values/strings.xml", "values") ∈ xml_files) by apply list_elem_of_here.
  assert (Hnone : fs sample_state
                    !! xml_dest (android_res_path sample_script) ("values/strings.xml", "values")
                  = None) by (vm_compute; reflexivity).
  assert (H1 : loadable flat_decode (fs sample_state) (source_icon_path sample_script)
               = Some sample_icon) by reflexivity.
  assert (H2 : writable (fs sample_state) (android_res_path sample_script) densities = true)
    by (vm_compute; reflexivity).
  assert (H3 : path_exists (fs sample_state) (manual_fix_path sample_script) = false)
    by (vm_compute; reflexivity).
  destruct (main_without_manual_fix pillow_ellipse nearest_resample opaque_convert
              flat_decode flat_header raster_encode sample_script sample_state sample_icon H1 H2 H3)
    as (s' & Hrun & _ & Hsame & Hnote & _).
  exists s'. split; [exact Hrun|]. split; [exact Hnote|].
  exact (eq_trans (proj2 (Hsame _ Hin)) Hnone).
Defined.

Lemma copy_xml_resources_idempotent_witness :
  copyable sample_fix sample_res (fs fix_state) = true ∧
  ∃ s1 s2, copy_xml_resources sample_fix sample_res fix_state = (Ok tt, s1) ∧
    copy_xml_resources sample_fix sample_res s1 = (Ok tt, s2) ∧
    fs s2 = fs s1.
Proof.
  assert (H1 : copyable sample_fix sample_res (fs fix_state) = true) by (vm_compute; reflexivity).
  split; [exact H1|].
  destruct (copy_xml_resources_idempotent sample_fix sample_res fix_state H1)
    as (s1 & Hrun1 & Hagain).
  destruct (Hagain s1 eq_refl) as (s2 & Hrun2 & Hfs & _).
  exists s1, s2. split; [exact Hrun1|]. split; [exact Hrun2 | exact Hfs].
Defined.

Lemma create_round_icon_leaves_input_witness :
  (0 < length (heap round_state))%nat ∧
  ∃ r1 s1 r2 s2,
    create_round_icon pillow_ellipse opaque_convert 0%nat round_state = (Ok r1, s1) ∧
    create_round_icon pillow_ellipse opaque_convert 0%nat s1 = (Ok r2, s2) ∧
    r1 ≠ r2 ∧
    heap s2 !!! r2 = heap s2 !!! r1 ∧
    heap s2 !!! 0%nat = heap round_state !!! 0%nat.
Proof.
  assert (H1 : (0 < length (heap round_state))%nat) by (cbn; lia).
  assert (H2 : 0 ≤ (im_size (heap round_state !!! 0%nat)).1) by (cbn; lia).
  assert (H3 : 0 ≤ (im_size (heap round_state !!! 0%nat)).2) by (cbn; lia).
  split; [exact H1|].
  destruct (create_round_icon_leaves_input pillow_ellipse opaque_convert round_state 0%nat
              H1 H2 H3)
    as (r1 & s1 & r2 & s2 & Hrun1 & Hrun2 & Hne & Heq & _ & Hold & _).
  exists r1, s1, r2, s2.
  split; [exact Hrun1|]. split; [exact Hrun2|]. split; [exact Hne|]. split; [exact Heq|].
  exact (Hold 0%nat H1).
Defined.

Lemma main_res_not_a_directory_witness :
  ∃ s', main pillow_ellipse nearest_resample opaque_convert flat_decode flat_header raster_encode
          sample_script flat_res_state = (Raise NotADirectoryError, s') ∧
    fs s' = fs flat_res_state.
Proof.
  assert (H1 : loadable flat_decode (fs flat_res_state) (source_icon_path sample_script)
               = Some sample_icon) by reflexivity.
  assert (H2 : fs flat_res_state !! android_res_path sample_script
               = Some (File [] sample_stat)) by (vm_compute; reflexivity).
  assert (H3 : fs flat_res_state !! (android_res_path sample_script // "mipmap-mdpi") = None)
    by (vm_compute; reflexivity).
  destruct (main_res_not_a_directory pillow_ellipse nearest_resample opaque_convert
              flat_decode flat_header raster_encode sample_script flat_res_state sample_icon _ _ H1 H2 H3)
    as (s' & Hrun & _ & Hfs & _).
  exists s'. split; [exact Hrun | exact Hfs].
Defined.

Lemma generate_icons_creates_output_root_witness :
  is_dir (fs fresh_state) sample_res = false ∧
  ∃ s', generate_icons pillow_ellipse nearest_resample opaque_convert flat_decode flat_header raster_encode
          sample_icon_path sample_res fresh_state = (Ok true, s') ∧
    is_dir (fs s') sample_res = true.
Proof.
  assert (H0 : is_dir (fs fresh_state) sample_res = false) by (vm_compute; reflexivity).
  assert (H1 : loadable flat_decode (fs fresh_state) sample_icon_path = Some sample_icon)
    by reflexivity.
  assert (H2 : fresh_root (fs fresh_state) sample_res = true) by (vm_compute; reflexivity).
  split; [exact H0|].
  destruct (generate_icons_creates_output_root pillow_ellipse nearest_resample opaque_convert
              flat_decode flat_header raster_encode sample_icon_path sample_res fresh_state sample_icon
              H1 H2)
    as (s' & Hrun & Hd & _).
  exists s'. split; [exact Hrun | exact Hd].
Defined.

Lemma copy_xml_resources_directory_source_witness :
  ∃ s', copy_xml_resources sample_fix sample_res dir_source_state
          = (Raise IsADirectoryError, s') ∧
    fs s' !! xml_dest sample_res ("values/strings.xml", "values")
      = Some (File [x3c; x61; x2f; x3e] (mkStat 384 7)) ∧
    fs s' !! xml_dest sample_res ("values/styles.xml", "values") = None.
Proof.
  assert (Hin1 : ("values/strings.xml", "values") ∈ [("values/strings.xml", "values")])
    by apply list_elem_of_here.
  assert (Hin2 : ("values/styles.xml", "values")
                 ∈ [("values/styles.xml", "values"); ("values/colors.xml", "values");
                    ("drawable/splashscreen.xml", "drawable")])
    by apply list_elem_of_here.
  assert (Hnone : fs dir_source_state !! xml_dest sample_res ("values/styles.xml", "values")
                  = None) by (vm_compute; reflexivity).
  assert (H0 : xml_files = [("values/strings.xml", "values")]
                 ++ ("values/styles.xml", "values")
                    :: [("values/colors.xml", "values");
                        ("drawable/splashscreen.xml", "drawable")]) by reflexivity.
  assert (H1 : sample_fix ≠ sample_res) by discriminate.
  assert (H2 : is_dir (fs dir_source_state) sample_res = true) by (vm_compute; reflexivity).
  assert (H3 : forallb (xml_ok sample_fix sample_res (fs dir_source_state))
                 [("values/strings.xml", "values")] = true) by (vm_compute; reflexivity).
  assert (H4 : free_or_dir (fs dir_source_state
                              !! xml_subdir sample_res ("values/styles.xml", "values")) = true)
    by (vm_compute; reflexivity).
  assert (H5 : fs dir_source_state !! xml_src sample_fix ("values/styles.xml", "values")
               = Some Dir) by (vm_compute; reflexivity).
  assert (H6 : fs dir_source_state !! xml_src sample_fix ("values/strings.xml", "values")
               = Some (File [x3c; x61; x2f; x3e] (mkStat 384 7)))
    by (vm_compute; reflexivity).
  destruct (copy_xml_resources_directory_source sample_fix sample_res dir_source_state
              _ _ _ H0 H1 H2 H3 H4 H5)
    as (s' & Hrun & Hprior & Hlater & _).
  exists s'. split; [exact Hrun|]. split.
  - exact (Hprior _ _ _ Hin1 H6).
  - exact (eq_trans (Hlater _ Hin2) Hnone).
Defined.
